(** * Transformation_Tool: the shapefile reprojection service of [app.py]

    A shallow embedding of [src/app.py]: the archive validator
    [check_shapefile_completeness], the reprojection engine
    [reproject_shapefile], the process-wide transfer registry
    [temp_file_store] and the two request handlers [reproject_api] and
    [download_file] with its [cleanup_files] callback.

    The program is glue code over the file system, the [zipfile] module and
    a geospatial library.  The file system is modelled as a tree rooted at
    the system temporary directory, the libraries as a record of functions
    over which every property is quantified, and every Python function of
    the source as a function on explicit state that either returns or
    raises. *)

From Stdlib Require Import Ascii String.
From stdpp Require Import gmap strings list.

(** ** Python strings *)

Module Str.

Definition is_sep (c : ascii) : bool := Ascii.eqb c "/".
Definition is_dot (c : ascii) : bool := Ascii.eqb c ".".
Definition is_colon (c : ascii) : bool := Ascii.eqb c ":".

(** [str.lower] on the ASCII letters. *)
Definition lower_ascii (c : ascii) : ascii :=
  let n := nat_of_ascii c in
  if ((65 <=? n) && (n <=? 90))%nat then ascii_of_nat (n + 32) else c.

Fixpoint lower (s : string) : string :=
  match s with
  | EmptyString => EmptyString
  | String c r => String (lower_ascii c) (lower r)
  end.

(** [s.endswith(suf)]: some tail of [s] is [suf]. *)
Fixpoint endswith (s suf : string) : bool :=
  if String.eqb s suf then true
  else match s with
       | EmptyString => false
       | String _ r => endswith r suf
       end.

Definition startswith_sep (s : string) : bool :=
  match s with
  | String c _ => is_sep c
  | EmptyString => false
  end.

(** [s.replace(':', '')]. *)
Fixpoint remove_colons (s : string) : string :=
  match s with
  | EmptyString => EmptyString
  | String c r => if is_colon c then remove_colons r else String c (remove_colons r)
  end.

Fixpoint has_sep (s : string) : bool :=
  match s with
  | EmptyString => false
  | String c r => is_sep c || has_sep r
  end.

(** [', '.join(l)]. *)
Fixpoint join (sep : string) (l : list string) : string :=
  match l with
  | [] => ""
  | [x] => x
  | x :: r => x +:+ sep +:+ join sep r
  end.

(** [needle in s]. *)
Fixpoint contains (s needle : string) : bool :=
  if String.prefix needle s then true
  else match s with
       | EmptyString => false
       | String _ r => contains r needle
       end.

(** [s.rfind(c)]: the last index of [c], [None] for Python's [-1]. *)
Fixpoint rfind (c : ascii) (s : string) : option nat :=
  match s with
  | EmptyString => None
  | String a r =>
      match rfind c r with
      | Some i => Some (S i)
      | None => if Ascii.eqb a c then Some 0 else None
      end
  end.

Fixpoint all_dots (s : string) : bool :=
  match s with
  | EmptyString => true
  | String c r => is_dot c && all_dots r
  end.

End Str.

(** ** [os.path] *)

Module Path.

(** [os.path.join(a, b)] for two arguments. *)
Definition join (a b : string) : string :=
  if Str.startswith_sep b then b
  else if String.eqb a "" || Str.endswith a "/" then a +:+ b
  else a +:+ "/" +:+ b.

(** [os.path.basename(p)]: what follows the last separator. *)
Fixpoint basename (p : string) : string :=
  match p with
  | EmptyString => EmptyString
  | String c r =>
      if Str.has_sep r then basename r
      else if Str.is_sep c then r else String c r
  end.

(** [os.path.dirname(p)]: what precedes the last separator.  Python also
  drops the separators at the end of the result, which name the same
  directory. *)
Fixpoint dirname (p : string) : string :=
  match p with
  | EmptyString => EmptyString
  | String c r => if Str.has_sep r then String c (dirname r) else EmptyString
  end.

(** [os.path.splitext(p)], after [genericpath._splitext]: the extension
    starts at the last dot of the last component, unless that component
    has nothing but dots before it. *)
Definition splitext (p : string) : string * string :=
  let name_start := match Str.rfind "/" p with Some i => S i | None => 0 end in
  match Str.rfind "." p with
  | Some dot =>
      if (name_start <=? dot)%nat
         && negb (Str.all_dots (String.substring name_start (dot - name_start) p))
      then (String.substring 0 dot p,
            String.substring dot (String.length p - dot) p)
      else (p, "")
  | None => (p, "")
  end.

(** The components of a path, split at every separator. *)
Fixpoint split (p : string) : list string :=
  match p with
  | EmptyString => [""]
  | String c r =>
      if Str.is_sep c then "" :: split r
      else match split r with
           | h :: t => String c h :: t
           | [] => [String c ""]
           end
  end.

(** The operating system skips empty components when it resolves a path
    ([a//b] is [a/b]).  Paths are resolved from the temporary directory,
    and the components [.] and [..] are given no special meaning: no path
    this program builds has one in a directory that exists. *)
Definition components (p : string) : list string :=
  filter (λ c, c ≠ "") (split p).

End Path.

(** ** Exceptions and results *)

(** The handlers tell [ValueError] and [FileNotFoundError] from every other
    exception class; [msg] is what [str(e)] gives. *)
Inductive exn :=
| ValueError (msg : string)
| FileNotFoundError (msg : string)
| KeyError (msg : string)
| OtherError (class msg : string).

Definition str (e : exn) : string :=
  match e with
  | ValueError m | FileNotFoundError m | KeyError m | OtherError _ m => m
  end.

Inductive result (A : Type) :=
| Ok (a : A)
| Raise (e : exn).
Arguments Ok {A} a.
Arguments Raise {A} e.

(** ** The file system below the temporary directory *)

(** A regular file holds plain bytes or a zip archive.  [Bytes] stands for
    content in which [zipfile] finds no end-of-archive record; a file that
    has such a record and still cannot be opened as an archive has no
    counterpart here.  A member of an archive is a file or a whole
    directory stored under a single name; [None] marks a member whose data
    is damaged, which [extractall] cannot unpack.

    The entries of a directory are kept in the order in which they were
    made, and [listdir] reports them in that order.  [os.listdir] promises
    no order: what is stated about a listing of several entries is stated
    where the order cannot matter (a single [.shp] entry, the members of an
    archive up to their order). *)
Local Unset Elimination Schemes.
Inductive node :=
| Dir (entries : list (string * node))
| File (data : fdata)
with fdata :=
| Bytes (s : string)
| Zip (members : list (string * option node)).
Local Set Elimination Schemes.

Definition fs : Type := list (string * node).

Fixpoint assoc (name : string) (es : list (string * node)) : option node :=
  match es with
  | [] => None
  | (n, x) :: r => if String.eqb n name then Some x else assoc name r
  end.

Fixpoint set_child (name : string) (x : node) (es : list (string * node))
  : list (string * node) :=
  match es with
  | [] => [(name, x)]
  | (n, y) :: r =>
      if String.eqb n name then (n, x) :: r else (n, y) :: set_child name x r
  end.

Fixpoint remove_child (name : string) (es : list (string * node))
  : list (string * node) :=
  match es with
  | [] => []
  | (n, y) :: r =>
      if String.eqb n name then remove_child name r else (n, y) :: remove_child name r
  end.

Fixpoint lookup_in (cs : list string) (es : list (string * node)) : option node :=
  match cs with
  | [] => None
  | c :: cs' =>
      match assoc c es, cs' with
      | Some x, [] => Some x
      | Some (Dir sub), _ => lookup_in cs' sub
      | _, _ => None
      end
  end.

Fixpoint put_in (cs : list string) (x : node) (es : list (string * node))
  : option (list (string * node)) :=
  match cs with
  | [] => None
  | c :: cs' =>
      match cs' with
      | [] => Some (set_child c x es)
      | _ =>
          match assoc c es with
          | Some (Dir sub) =>
              match put_in cs' x sub with
              | Some sub' => Some (set_child c (Dir sub') es)
              | None => None
              end
          | _ => None
          end
      end
  end.

Fixpoint remove_in (cs : list string) (es : list (string * node))
  : option (list (string * node)) :=
  match cs with
  | [] => None
  | c :: cs' =>
      match cs' with
      | [] =>
          match assoc c es with
          | Some _ => Some (remove_child c es)
          | None => None
          end
      | _ =>
          match assoc c es with
          | Some (Dir sub) =>
              match remove_in cs' sub with
              | Some sub' => Some (set_child c (Dir sub') es)
              | None => None
              end
          | _ => None
          end
      end
  end.

(** [exist_ok=True]: an existing directory is entered, a missing one is
    made, a regular file in the way is an error. *)
Fixpoint makedirs_in (cs : list string) (es : list (string * node))
  : option (list (string * node)) :=
  match cs with
  | [] => Some es
  | c :: cs' =>
      match assoc c es with
      | Some (Dir sub) =>
          match makedirs_in cs' sub with
          | Some sub' => Some (set_child c (Dir sub') es)
          | None => None
          end
      | Some (File _) => None
      | None =>
          match makedirs_in cs' [] with
          | Some sub' => Some (set_child c (Dir sub') es)
          | None => None
          end
      end
  end.

Definition fs_lookup (p : string) (s : fs) : option node :=
  lookup_in (Path.components p) s.

(** [os.path.exists]. *)
Definition path_exists (p : string) (s : fs) : bool :=
  match fs_lookup p s with Some _ => true | None => false end.

(** [zipfile.is_zipfile]: false as well when the path cannot be opened.
    Python looks for the end-of-archive record only; see [fdata] for what
    [Bytes] stands for. *)
Definition is_zipfile (p : string) (s : fs) : bool :=
  match fs_lookup p s with Some (File (Zip _)) => true | _ => false end.

(** ** Functions on the file system that return or raise *)

Definition prog (S A : Type) : Type := S → S * result A.

Definition ret {S A} (a : A) : prog S A := λ s, (s, Ok a).
Definition raise {S A} (e : exn) : prog S A := λ s, (s, Raise e).
Definition bind {S A B} (m : prog S A) (k : A → prog S B) : prog S B :=
  λ s, match m s with
       | (s', Ok a) => k a s'
       | (s', Raise e) => (s', Raise e)
       end.

(** Reading the state. *)
Definition gets {S A} (f : S → A) : prog S A := λ s, (s, Ok (f s)).

(** A call that reads the state and returns or raises. *)
Definition call {S A} (f : S → result A) : prog S A := λ s, (s, f s).

(** [try: m  except Exception as e: h e]. *)
Definition try_except {S A} (m : prog S A) (h : exn → prog S A) : prog S A :=
  λ s, match m s with
       | (s', Raise e) => h e s'
       | r => r
       end.

(** What touches the file system only. *)
Definition io (A : Type) : Type := prog fs A.

Notation "'let*' x := m 'in' k" := (bind m (λ x, k))
  (at level 10, x pattern, m at level 100, k at level 200).
Notation "m ;;; k" := (bind m (λ _, k))
  (at level 100, k at level 200, right associativity).

Definition enoent (p : string) : exn :=
  FileNotFoundError ("[Errno 2] No such file or directory: '" +:+ p +:+ "'").

Definition os_error (class what p : string) : exn :=
  OtherError class (what +:+ ": '" +:+ p +:+ "'").

Definition is_a_directory (p : string) : exn :=
  os_error "IsADirectoryError" "[Errno 21] Is a directory" p.
Definition not_a_directory (p : string) : exn :=
  os_error "NotADirectoryError" "[Errno 20] Not a directory" p.
Definition file_exists (p : string) : exn :=
  os_error "FileExistsError" "[Errno 17] File exists" p.

Fixpoint underscores (n : nat) : string :=
  match n with
  | O => ""
  | S k => String "_" (underscores k)
  end.

Fixpoint longest_name (es : list (string * node)) : nat :=
  match es with
  | [] => 0
  | (n, _) :: r => Nat.max (String.length n) (longest_name r)
  end.

(** [tempfile.mkdtemp()] makes a directory under a name that no entry of
    the temporary directory has.  Python draws names at random until one is
    free; the model takes a name longer than every name in use. *)
Definition fresh_name (s : fs) : string :=
  "tmp" +:+ underscores (S (longest_name s)).

Definition mkdtemp : io string :=
  λ s, let d := fresh_name s in ((s ++ [(d, Dir [])])%list, Ok d).

(** [shutil.rmtree(p)]. *)
Definition rmtree (p : string) : io unit :=
  λ s, match fs_lookup p s with
       | Some (Dir _) =>
           match remove_in (Path.components p) s with
           | Some s' => (s', Ok tt)
           | None => (s, Raise (enoent p))
           end
       | Some (File _) => (s, Raise (not_a_directory p))
       | None => (s, Raise (enoent p))
       end.

(** [os.makedirs(p, exist_ok=True)]. *)
Definition makedirs (p : string) : io unit :=
  λ s, match makedirs_in (Path.components p) s with
       | Some s' => (s', Ok tt)
       | None => (s, Raise (file_exists p))
       end.

(** [os.listdir(p)], in the order in which the entries were made. *)
Definition listdir (p : string) : io (list string) :=
  λ s, match fs_lookup p s with
       | Some (Dir es) => (s, Ok (map fst es))
       | Some (File _) => (s, Raise (not_a_directory p))
       | None => (s, Raise (enoent p))
       end.

(** Opening [p] for writing and storing [data]: the directory of [p] has to
    exist, and [p] must not be a directory.  The limits that a file system
    puts on a name (255 bytes, no null byte) are not part of the model:
    what depends on them is stated for names within these limits, see
    [ordinary]. *)
Definition write_file (p : string) (data : fdata) : io unit :=
  λ s, match fs_lookup p s with
       | Some (Dir _) => (s, Raise (is_a_directory p))
       | _ =>
           match put_in (Path.components p) (File data) s with
           | Some s' => (s', Ok tt)
           | None => (s, Raise (enoent p))
           end
       end.

(** [ZipFile(p, 'r')]. *)
Definition zip_open (p : string) : io (list (string * option node)) :=
  λ s, match fs_lookup p s with
       | Some (File (Zip ms)) => (s, Ok ms)
       | Some (File (Bytes _)) =>
           (s, Raise (OtherError "BadZipFile" "File is not a zip file"))
       | Some (Dir _) => (s, Raise (is_a_directory p))
       | None => (s, Raise (enoent p))
       end.

(** Storing [x] under [name] in the directory [dir], as the extraction of
    an archive member and the writer of a layer do.  A regular file cannot
    take the place of a directory.  The name is taken as one path
    component: [zipfile] makes directories for a member name with
    separators, and drops the components [.] and [..]; what depends on the
    names of the members is stated for [ordinary] names. *)
Definition store_in (dir name : string) (x : node) : io unit :=
  λ s, let cs := (Path.components dir ++ [name])%list in
       match x, lookup_in cs s with
       | File _, Some (Dir _) => (s, Raise (is_a_directory (Path.join dir name)))
       | _, _ =>
           match put_in cs x s with
           | Some s' => (s', Ok tt)
           | None => (s, Raise (enoent (Path.join dir name)))
           end
       end.

(** [zip_ref.extractall(dest)]: the members are unpacked in order, each
    under its name in [dest]; a damaged member stops the extraction, and
    what was unpacked before it stays.  Python formats the name in the
    message with [%r]: the quotes are as here for a name of printable
    characters without quote or backslash, see [quotable]. *)
Fixpoint extractall (ms : list (string * option node)) (dest : string) : io unit :=
  match ms with
  | [] => ret tt
  | (name, Some x) :: r => store_in dest name x ;;; extractall r dest
  | (name, None) :: _ =>
      raise (OtherError "BadZipFile" ("Bad CRC-32 for file '" +:+ name +:+ "'"))
  end.

(** The body of [with ZipFile(p, 'w') as zf]: each listed name for which
    [os.path.isfile] holds is added, with its data, under its base name. *)
Fixpoint zip_collect (out_dir : string) (files : list string) (s : fs)
  : list (string * option node) :=
  match files with
  | [] => []
  | file :: r =>
      let full_path := Path.join out_dir file in
      match fs_lookup full_path s with
      | Some (File data) =>
          (Path.basename full_path, Some (File data)) :: zip_collect out_dir r s
      | _ => zip_collect out_dir r s
      end
  end.


Fixpoint write_files (dir : string) (files : list (string * fdata)) : io unit :=
  match files with
  | [] => ret tt
  | (name, data) :: r => store_in dir name (File data) ;;; write_files dir r
  end.

(** ** The libraries behind the program *)

(** [pyproj], [geopandas] and [werkzeug] are not part of the repository.
    [crs_valid t] says that [CRS(t)] returns rather than raises; [gdf] is
    the type of a loaded layer, [has_crs] the truth value of its [crs]
    attribute; [to_file g out_shp] gives the files the writer stores next to
    [out_shp], in order, and the error it raises after them, if any. *)
Record libs := {
  gdf : Type;
  crs_valid : string → bool;
  secure_filename : string → string;
  read_file : string → fs → result gdf;
  has_crs : gdf → bool;
  to_crs : gdf → string → result gdf;
  to_file : gdf → string → list (string * fdata) * option exn;
}.

(** ** The transfer registry and the HTTP surface *)

Record transfer := {
  path : string;
  temp_dirs : list string;
}.

(** The state of the process: the disk, the module-level dictionary
    [temp_file_store] and what was printed. *)
Record app := {
  disk : fs;
  temp_file_store : gmap string transfer;
  stdout : list string;
}.

Record upload := {
  filename : string;
  payload : fdata;
}.

(** [files_file] is [request.files['file']] when the field is there,
    [form_target_crs] is [request.form.get('target_crs')]. *)
Record request := {
  files_file : option upload;
  form_target_crs : option string;
  host_url : string;
}.

(** [jsonify(obj), status], or the response of [send_file]. *)
Inductive response :=
| Json (status : nat) (obj : list (string * string))
| Attachment (status : nat) (download_name : string) (data : fdata).

Definition status_of (r : response) : nat :=
  match r with
  | Json n _ | Attachment n _ _ => n
  end.

Definition on_disk {A} (m : io A) : prog app A :=
  λ st, let '(d, r) := m (disk st) in
        ({| disk := d; temp_file_store := temp_file_store st; stdout := stdout st |}, r).

Section Program.

Context (L : libs).

(** *** The archive validator *)

Definition required_exts : list string := [".shp"; ".shx"; ".dbf"; ".prj"].

Definition missing_exts (base_name : string) (s : fs) : list string :=
  filter (λ ext, path_exists (base_name +:+ ext) s = false) required_exts.

Definition shp_files (names : list string) : list string :=
  filter (λ f, Str.endswith (Str.lower f) ".shp" = true) names.

(** The body of the [try] of [check_shapefile_completeness]. *)
Definition check_try (zip_path temp_dir : string) : io (string * string) :=
  let* ms := zip_open zip_path in
  extractall ms temp_dir ;;;
  let* names := listdir temp_dir in
  match shp_files names with
  | [] => raise (FileNotFoundError "No .shp file found in the zipped folder.")
  | first :: _ =>
      let shp_path := Path.join temp_dir first in
      let base_name := fst (Path.splitext shp_path) in
      let* missing := gets (missing_exts base_name) in
      match missing with
      | [] => ret (shp_path, temp_dir)
      | _ =>
          raise (FileNotFoundError
                   ("Incomplete shapefile. Missing: " +:+ Str.join ", " missing))
      end
  end.

Definition check_shapefile_completeness (zip_path : string) : io (string * string) :=
  if negb (Str.endswith (Str.lower zip_path) ".zip")
  then raise (ValueError "Input must be a zipped shapefile")
  else
    let* is_zip := gets (is_zipfile zip_path) in
    if negb is_zip
    then raise (ValueError "The provided file is not a valid zip archive.")
    else
      let* temp_dir := mkdtemp in
      try_except (check_try zip_path temp_dir)
                 (λ e, rmtree temp_dir ;;; raise e).

(** *** The reprojection engine *)

Definition gdf_to_file (g : gdf L) (out_shp : string) : io unit :=
  let '(files, err) := to_file L g out_shp in
  write_files (Path.dirname out_shp) files ;;;
  match err with
  | Some e => raise e
  | None => ret tt
  end.

Definition output_name (target_crs : string) : string :=
  "reprojected_" +:+ Str.remove_colons target_crs +:+ ".zip".

(** Lines 48 to 70: what follows the validation inside the [try]. *)
Definition reproject_try (shp_path temp_dir target_crs : string)
  : io (string * string * string) :=
  let* g := call (read_file L shp_path) in
  if negb (has_crs L g)
  then raise (ValueError "No CRS information found in shapefile.")
  else
    let* g := call (λ _, to_crs L g target_crs) in
    let out_dir := Path.join temp_dir "reprojected" in
    makedirs out_dir ;;;
    let out_shp := Path.join out_dir (Path.basename shp_path) in
    gdf_to_file g out_shp ;;;
    let* temp_output_dir := mkdtemp in
    let output_zip_path := Path.join temp_output_dir (output_name target_crs) in
    write_file output_zip_path (Zip []) ;;;
    let* files := listdir out_dir in
    let* members := gets (zip_collect out_dir files) in
    write_file output_zip_path (Zip members) ;;;
    ret (output_zip_path, temp_dir, temp_output_dir).

(** The [except Exception] clause; [temp_dir] is the local variable, still
    [None] when the validator raised. *)
Definition reproject_except {A} (temp_dir : option string) (e : exn) : io A :=
  match temp_dir with
  | Some d =>
      let* there := gets (path_exists d) in
      if negb (String.eqb d "") && there
      then rmtree d ;;; raise e
      else raise e
  | None => raise e
  end.

Definition reproject_shapefile (zip_path target_crs : string)
  : io (string * string * string) :=
  let* (shp_path, temp_dir) :=
    try_except (check_shapefile_completeness zip_path) (reproject_except None) in
  try_except (reproject_try shp_path temp_dir target_crs)
             (reproject_except (Some temp_dir)).

(** *** The request handlers *)

Definition json_error (status : nat) (msg : string) : response :=
  Json status [("error", msg)].

Definition register (file_id : string) (record : transfer) : prog app unit :=
  λ st, ({| disk := disk st;
            temp_file_store := <[file_id := record]> (temp_file_store st);
            stdout := stdout st |}, Ok tt).

(** Lines 113 to 133. *)
Definition reproject_and_register (req : request)
    (temp_upload_dir uploaded_file_path target_crs : string) : prog app response :=
  try_except
    (let* (output_zip_path, temp_input_dir, temp_output_dir) :=
       on_disk (reproject_shapefile uploaded_file_path target_crs) in
     let file_id := Path.basename output_zip_path in
     register file_id
       {| path := output_zip_path;
          temp_dirs := [temp_upload_dir; temp_input_dir; temp_output_dir] |} ;;;
     ret (Json 200
            [("message", "Shapefile re-projected successfully");
             ("download_link", host_url req +:+ "download_file/" +:+ file_id)]))
    (λ e,
       match e with
       | ValueError _ | FileNotFoundError _ =>
           on_disk (rmtree temp_upload_dir) ;;;
           ret (json_error 400 (str e))
       | _ =>
           on_disk (rmtree temp_upload_dir) ;;;
           ret (json_error 500 ("An unexpected error occurred: " +:+ str e))
       end).

(** [POST /reproject_shapefile].  A raised result is an exception that
    leaves the view function. *)
Definition reproject_api (req : request) : prog app response :=
  match files_file req with
  | None => ret (json_error 400 "No file part in the request")
  | Some file =>
      if String.eqb (filename file) ""
         || negb (Str.endswith (Str.lower (filename file)) ".zip")
      then ret (json_error 400
             "No selected file or invalid file type. Please upload a .zip file.")
      else
        match form_target_crs req with
        | None | Some EmptyString =>
            ret (json_error 400 "Missing 'target_crs' parameter")
        | Some target_crs =>
            if negb (crs_valid L target_crs)
            then ret (json_error 400
                   ("Invalid target CRS: '" +:+ target_crs +:+ "'. Example: EPSG:4326"))
            else
              let* temp_upload_dir := on_disk mkdtemp in
              let uploaded_file_path :=
                Path.join temp_upload_dir (secure_filename L (filename file)) in
              on_disk (write_file uploaded_file_path (payload file)) ;;;
              reproject_and_register req temp_upload_dir uploaded_file_path target_crs
        end
  end.

(** [send_file(file_path, as_attachment=True)]. *)
Definition send_file (file_path : string) : prog app response :=
  λ st, match fs_lookup file_path (disk st) with
        | Some (File data) => (st, Ok (Attachment 200 (Path.basename file_path) data))
        | Some (Dir _) => (st, Raise (is_a_directory file_path))
        | None => (st, Raise (enoent file_path))
        end.

(** [GET /download_file/<file_id>].  With the response comes the callback
    that [call_on_close] registered: [cleanup_files] closed over [file_id]
    and the record [file_data], which nothing mutates after its
    registration. *)
Definition download_file (file_id : string)
  : prog app (response * option transfer) :=
  let* file_data := gets (λ st, temp_file_store st !! file_id) in
  match file_data with
  | None => ret (json_error 404 "File not found or has expired", None)
  | Some file_data =>
      let* there := gets (λ st, path_exists (path file_data) (disk st)) in
      if negb there
      then ret (json_error 404 "File not found or has expired", None)
      else
        let* response := send_file (path file_data) in
        ret (response, Some file_data)
  end.

Fixpoint rmtree_each (dirs : list string) : io unit :=
  match dirs with
  | [] => ret tt
  | d :: r => rmtree d ;;; rmtree_each r
  end.

Definition print (line : string) : prog app unit :=
  λ st, ({| disk := disk st;
            temp_file_store := temp_file_store st;
            stdout := stdout st ++ [line] |}, Ok tt).

(** [del temp_file_store[file_id]]. *)
Definition del_store (file_id : string) : prog app unit :=
  λ st, match temp_file_store st !! file_id with
        | Some _ =>
            ({| disk := disk st;
                temp_file_store := delete file_id (temp_file_store st);
                stdout := stdout st |}, Ok tt)
        | None => (st, Raise (KeyError ("'" +:+ file_id +:+ "'")))
        end.

(** The callback, run when the response has been sent. *)
Definition cleanup_files (file_id : string) (file_data : transfer) : prog app unit :=
  try_except (on_disk (rmtree_each (temp_dirs file_data)))
             (λ e, print ("Error during cleanup: " +:+ str e)) ;;;
  del_store file_id.

(** A download whose response object is closed: the view function,
    then the callback if one was registered, as [Response.close] runs
    it.  A server does not close the response of [send_file], see
    [download_served]. *)
Definition download_and_close (file_id : string) : prog app response :=
  let* (response, callback) := download_file file_id in
  match callback with
  | Some file_data =>
      λ st, (fst (cleanup_files file_id file_data st), Ok response)
  | None => ret response
  end.

(** [GET /download_file/<file_id>] as a WSGI server serves it.
    [send_file] makes its response with [direct_passthrough]: such a
    response hands the server its file wrapper, and not the iterator
    that ends with [Response.close].  The callback that [call_on_close]
    registered is therefore never run. *)
Definition download_served (file_id : string) : prog app response :=
  let* (response, _) := download_file file_id in
  ret response.

End Program.

(** ** A stand-in for the libraries *)

(** Concrete runs need concrete libraries.  Here a target CRS parses when
    it is one of two EPSG codes, a layer is the text of its [.prj] file,
    transforming a layer replaces that text by the target, and the writer
    stores the five files of a bundle. *)
Module Sample.

Definition parses (t : string) : bool :=
  bool_decide (t ∈ ["EPSG:4326"; "EPSG:3857"]).

Definition load (shp_path : string) (s : fs) : result string :=
  match fs_lookup (fst (Path.splitext shp_path) +:+ ".prj") s with
  | Some (File (Bytes crs)) => Ok crs
  | _ => Raise (OtherError "DataSourceError" "cannot open the layer")
  end.

Definition store (g : string) (out_shp : string)
  : list (string * fdata) * option exn :=
  let base := fst (Path.splitext (Path.basename out_shp)) in
  ([(base +:+ ".shp", Bytes "geometry");
    (base +:+ ".shx", Bytes "index");
    (base +:+ ".dbf", Bytes "attributes");
    (base +:+ ".prj", Bytes g);
    (base +:+ ".cpg", Bytes "UTF-8")], None).

(** The sanitiser keeps the name but for its separators. *)
Fixpoint sanitize (name : string) : string :=
  match name with
  | EmptyString => EmptyString
  | String c r => String (if Str.is_sep c then "_"%char else c) (sanitize r)
  end.

Definition lib : libs :=
  {| gdf := string;
     crs_valid := parses;
     secure_filename := sanitize;
     read_file := load;
     has_crs := λ g, negb (String.eqb g "");
     to_crs := λ _ target, Ok target;
     to_file := store |}.

Definition bundle (base crs : string) : list (string * option node) :=
  [(base +:+ ".shp", Some (File (Bytes "geometry")));
   (base +:+ ".shx", Some (File (Bytes "index")));
   (base +:+ ".dbf", Some (File (Bytes "attributes")));
   (base +:+ ".prj", Some (File (Bytes crs)))].

Definition post (name : string) (data : fdata) (target : string) : request :=
  {| files_file := Some {| filename := name; payload := data |};
     form_target_crs := Some target;
     host_url := "http://localhost:5000/" |}.

Definition boot : app :=
  {| disk := []; temp_file_store := ∅; stdout := [] |}.

(** A disk on which [tmp_/parcels.zip] holds the archive [ms]. *)
Definition saved (ms : list (string * option node)) : fs :=
  [("tmp_", Dir [("parcels.zip", File (Zip ms))])].

(** A bundle whose [.shx] and [.prj] files are not there. *)
Definition partial : list (string * option node) :=
  [("parcels.shp", Some (File (Bytes "geometry")));
   ("parcels.dbf", Some (File (Bytes "attributes")))].

(** A bundle zipped together with the folder that holds it. *)
Definition nested : list (string * option node) :=
  [("parcels",
    Some (Dir [("parcels.shp", File (Bytes "geometry"));
               ("parcels.shx", File (Bytes "index"));
               ("parcels.dbf", File (Bytes "attributes"));
               ("parcels.prj", File (Bytes "EPSG:4326"))]))].

(** A registry whose record lists a scratch directory that is not on
    disk before one that is. *)
Definition stale : app :=
  {| disk := [("tmp__", Dir [("reprojected_EPSG3857.zip", File (Zip []))])];
     temp_file_store :=
       {[ "reprojected_EPSG3857.zip" :=
            {| path := "tmp__/reprojected_EPSG3857.zip";
               temp_dirs := ["tmp_"; "tmp__"] |} ]};
     stdout := [] |}.

End Sample.

(** ** Notions used to state the properties *)

(** What [extractall] leaves in a destination directory that holds [es],
    and how it ends. *)
Fixpoint unpack (dest : string) (ms : list (string * option node))
    (es : list (string * node)) : list (string * node) * result unit :=
  match ms with
  | [] => (es, Ok tt)
  | (name, Some x) :: r =>
      match x, assoc name es with
      | File _, Some (Dir _) => (es, Raise (is_a_directory (Path.join dest name)))
      | _, _ => unpack dest r (set_child name x es)
      end
  | (name, None) :: _ =>
      (es, Raise (OtherError "BadZipFile" ("Bad CRC-32 for file '" +:+ name +:+ "'")))
  end.

(** A directory with entries [es] has an entry called [name]. *)
Definition has_child (name : string) (es : list (string * node)) : bool :=
  match assoc name es with Some _ => true | None => false end.

(** What the writer of a layer leaves in a directory that holds [es]. *)
Fixpoint stored (files : list (string * fdata)) (es : list (string * node))
  : list (string * node) :=
  match files with
  | [] => es
  | (name, data) :: r => stored r (set_child name (File data) es)
  end.

(** The archive made from a directory with entries [es]: the regular files
    among [names], in order. *)
Fixpoint zip_of (es : list (string * node)) (names : list string)
  : list (string * option node) :=
  match names with
  | [] => []
  | name :: r =>
      match assoc name es with
      | Some (File data) => (name, Some (File data)) :: zip_of es r
      | _ => zip_of es r
      end
  end.

(** A name that is a single path component. *)
Definition plain (name : string) : bool :=
  negb (Str.has_sep name) && negb (String.eqb name "").

(** The entries [es] hold the four files of a shapefile bundle, here or in
    a directory below. *)
Inductive bundle_in : list (string * node) → Prop :=
| bundle_here (es : list (string * node)) (base : string) :
    (∀ ext, ext ∈ [".shp"; ".shx"; ".dbf"; ".prj"] →
            ∃ data, assoc (base +:+ ext) es = Some (File data)) →
    bundle_in es
| bundle_below (es : list (string * node)) (name : string)
    (sub : list (string * node)) :
    assoc name es = Some (Dir sub) → bundle_in sub → bundle_in es.

(** [s'] has every entry of the temporary directory that [s] has, and
    every directory of [s] is still a directory. *)
Definition extends (s s' : fs) : Prop :=
  ∀ n, (is_Some (assoc n s) → is_Some (assoc n s'))
       ∧ (∀ e, assoc n s = Some (Dir e) → ∃ e', assoc n s' = Some (Dir e')).

(** [m] removes nothing from the temporary directory, however it ends. *)
Definition keeps {A} (m : io A) : Prop :=
  ∀ s, extends s (fst (m s)).

(** Every scratch directory that a record of the registry lists is on
    disk. *)
Definition store_on_disk (st : app) : Prop :=
  ∀ file_id record d,
    temp_file_store st !! file_id = Some record →
    d ∈ temp_dirs record →
    path_exists d (disk st) = true.

(** [d] was made by [mkdtemp] and is not an entry of [s0]. *)
Definition ours (s0 : fs) (d : string) : Prop :=
  (∃ s1, d = fresh_name s1) ∧ assoc d s0 = None.

(** Started on a file system that begins with the entries [s0], the
    program [m] leaves these entries as they are, and what it returns
    satisfies [Q]. *)
Definition confined (s0 : fs) {A} (m : io A) (Q : A → Prop) : Prop :=
  ∀ t, ∃ t', fst (m (s0 ++ t)) = s0 ++ t'
             ∧ ∀ a, snd (m (s0 ++ t)) = Ok a → Q a.

(** The states of the process: it starts with an empty registry, and
    serves uploads and downloads one after the other, each download
    together with its callback. *)
Inductive reachable (L : libs) : app → Prop :=
| reach_start (s : fs) :
    reachable L {| disk := s; temp_file_store := ∅; stdout := [] |}
| reach_upload (st : app) (req : request) :
    reachable L st → reachable L (fst (reproject_api L req st))
| reach_download (st : app) (file_id : string) :
    reachable L st → reachable L (fst (download_and_close file_id st)).

(** What holds of the registry in every such state: the scratch
    directories of a record were made by [mkdtemp] and are on disk, its
    archive is a file in one of them, and no directory belongs to two
    records. *)
Definition sound_record (s : fs) (record : transfer) : Prop :=
  (∀ d, d ∈ temp_dirs record → (∃ s1, d = fresh_name s1) ∧ is_Some (assoc d s))
  ∧ ∃ o n data,
      o ∈ temp_dirs record
      ∧ path record = o +:+ "/" +:+ n
      ∧ fs_lookup (path record) s = Some (File data).

Definition sound_registry (st : app) : Prop :=
  (∀ file_id record,
     temp_file_store st !! file_id = Some record → sound_record (disk st) record)
  ∧ ∀ id1 id2 r1 r2 d,
      temp_file_store st !! id1 = Some r1 →
      temp_file_store st !! id2 = Some r2 →
      id1 ≠ id2 → d ∈ temp_dirs r1 → d ∉ temp_dirs r2.

(** The checks of the upload handler in the order in which the
    specification lists them, what it means for a request to fail one, and
    the message that goes with it. *)
Inductive upload_check :=
| FileField
| FileName
| TargetField
| TargetParses.

Definition rank (c : upload_check) : nat :=
  match c with
  | FileField => 0
  | FileName => 1
  | TargetField => 2
  | TargetParses => 3
  end.

Definition check_fails (L : libs) (req : request) (c : upload_check) : bool :=
  match c with
  | FileField =>
      match files_file req with None => true | Some _ => false end
  | FileName =>
      match files_file req with
      | Some file =>
          String.eqb (filename file) ""
          || negb (Str.endswith (Str.lower (filename file)) ".zip")
      | None => false
      end
  | TargetField =>
      match form_target_crs req with
      | None | Some EmptyString => true
      | Some _ => false
      end
  | TargetParses =>
      match form_target_crs req with
      | Some target_crs => negb (crs_valid L target_crs)
      | None => false
      end
  end.

Definition check_message (req : request) (c : upload_check) : string :=
  match c with
  | FileField => "No file part in the request"
  | FileName => "No selected file or invalid file type. Please upload a .zip file."
  | TargetField => "Missing 'target_crs' parameter"
  | TargetParses =>
      "Invalid target CRS: '" +:+ default "" (form_target_crs req)
        +:+ "'. Example: EPSG:4326"
  end.

(** The request is answered with status 400 and an error message that
    names the target CRS and gives the example, and nothing changes. *)
Definition rejected_naming_target (L : libs) (req : request) (st : app)
    (target_crs : string) : Prop :=
  ∃ msg,
    reproject_api L req st = (st, Ok (Json 400 [("error", msg)]))
    ∧ Str.contains msg target_crs = true
    ∧ Str.contains msg "Example: EPSG:4326" = true.


(** Lines 94 to 107 of [reproject_api]: the four checks.  They look at
    the request only; the first that fails gives the answer, and a request
    that passes them goes on with its file and its target CRS. *)
Definition upload_checks (L : libs) (req : request) : response + upload * string :=
  match files_file req with
  | None => inl (json_error 400 "No file part in the request")
  | Some file =>
      if String.eqb (filename file) ""
         || negb (Str.endswith (Str.lower (filename file)) ".zip")
      then inl (json_error 400
             "No selected file or invalid file type. Please upload a .zip file.")
      else
        match form_target_crs req with
        | None | Some EmptyString =>
            inl (json_error 400 "Missing 'target_crs' parameter")
        | Some target_crs =>
            if negb (crs_valid L target_crs)
            then inl (json_error 400
                   ("Invalid target CRS: '" +:+ target_crs +:+ "'. Example: EPSG:4326"))
            else inr (file, target_crs)
        end
  end.

(** Lines 109 to 133 of [reproject_api]: what is done for a request that
    passed the checks.  The first step makes the upload scratch
    directory. *)
Definition process_upload (L : libs) (req : request) (file : upload)
    (target_crs : string) : prog app response :=
  let* temp_upload_dir := on_disk mkdtemp in
  let uploaded_file_path :=
    Path.join temp_upload_dir (secure_filename L (filename file)) in
  on_disk (write_file uploaded_file_path (payload file)) ;;;
  reproject_and_register L req temp_upload_dir uploaded_file_path target_crs.

(** ** Names and contents within the limits of the model *)

Fixpoint has_nul (s : string) : bool :=
  match s with
  | EmptyString => false
  | String c r => Ascii.eqb c Ascii.zero || has_nul r
  end.

(** A name that the file system and [zipfile] take as it is: a single path
    component other than [.] and [..], of at most 255 bytes, without a null
    byte. *)
Definition ordinary (name : string) : bool :=
  plain name
  && negb (String.eqb name ".") && negb (String.eqb name "..")
  && (String.length name <=? 255)%nat
  && negb (has_nul name).

(** An archive of regular files with ordinary names. *)
Definition flat (ms : list (string * option node)) : bool :=
  forallb (λ m, ordinary (fst m)
                && match snd m with Some (File _) => true | _ => false end) ms.

(** A string that Python's [repr] puts between plain quotes unchanged:
    printable ASCII characters, no quote and no backslash. *)
Definition quotable_ascii (c : ascii) : bool :=
  let n := nat_of_ascii c in
  (32 <=? n)%nat && (n <=? 126)%nat && negb (n =? 39)%nat && negb (n =? 92)%nat.

Fixpoint quotable (s : string) : bool :=
  match s with
  | EmptyString => true
  | String c r => quotable_ascii c && quotable r
  end.

(** The four bytes with which the end-of-archive record of a zip file
    begins. *)
Definition end_of_archive : string :=
  String "P" (String "K" (String (ascii_of_nat 5) (String (ascii_of_nat 6) ""))).

(** The answer of the upload handler to an exception of the engine: status
    400 with the message for [ValueError] and [FileNotFoundError], status
    500 for every other class. *)
Definition error_answer (e : exn) : response :=
  match e with
  | ValueError _ | FileNotFoundError _ => json_error 400 (str e)
  | _ => json_error 500 ("An unexpected error occurred: " +:+ str e)
  end.

(** The request passes the four checks of the upload handler, with the
    file [file] and the target CRS [target_crs]. *)
Definition accepted (L : libs) (req : request) (file : upload) (target_crs : string)
  : Prop :=
  files_file req = Some file
  ∧ Str.endswith (Str.lower (filename file)) ".zip" = true
  ∧ form_target_crs req = Some target_crs
  ∧ target_crs ≠ ""
  ∧ crs_valid L target_crs = true.

(** The disk when the upload of [file] has been saved in its scratch
    directory, and the path of the saved file. *)
Definition saved_upload (L : libs) (st : app) (file : upload) : fs :=
  disk st ++ [(fresh_name (disk st),
               Dir [(secure_filename L (filename file), File (payload file))])].

Definition saved_path (L : libs) (st : app) (file : upload) : string :=
  fresh_name (disk st) +:+ "/" +:+ secure_filename L (filename file).

(** What an upload registers under [file_id]: three different scratch
    directories made by [mkdtemp], each a directory of the disk [s], and an
    archive named [file_id], after a target CRS that parses, in the last of
    them. *)
Definition well_formed (L : libs) (s : fs) (file_id : string) (record : transfer)
  : Prop :=
  ∃ u d_in d_out target_crs,
    temp_dirs record = [u; d_in; d_out]
    ∧ NoDup [u; d_in; d_out]
    ∧ (∀ d, d ∈ temp_dirs record →
            (∃ s1, d = fresh_name s1) ∧ ∃ es, assoc d s = Some (Dir es))
    ∧ crs_valid L target_crs = true
    ∧ file_id = output_name target_crs
    ∧ Str.has_sep file_id = false
    ∧ path record = d_out +:+ "/" +:+ file_id.

Definition tidy_registry (L : libs) (st : app) : Prop :=
  ∀ file_id record,
    temp_file_store st !! file_id = Some record →
    well_formed L (disk st) file_id record.

(** ** More stand-ins, for the failures *)

Module Scenario.

(** A sanitiser that also drops the dots a name begins with. *)
Fixpoint lstrip_dots (name : string) : string :=
  match name with
  | EmptyString => EmptyString
  | String c r => if Str.is_dot c then lstrip_dots r else name
  end.

Definition strict : libs :=
  {| gdf := string;
     crs_valid := Sample.parses;
     secure_filename := λ name, lstrip_dots (Sample.sanitize name);
     read_file := Sample.load;
     has_crs := λ g, negb (String.eqb g "");
     to_crs := λ _ target, Ok target;
     to_file := Sample.store |}.

(** Libraries that also take a CRS given by its OGC address. *)
Definition ogc : string := "http://www.opengis.net/def/crs/EPSG/0/3857".

Definition web : libs :=
  {| gdf := string;
     crs_valid := λ t, Sample.parses t || String.eqb t ogc;
     secure_filename := Sample.sanitize;
     read_file := Sample.load;
     has_crs := λ g, negb (String.eqb g "");
     to_crs := λ _ target, Ok target;
     to_file := Sample.store |}.


(** A bundle next to a regular file called [reprojected]. *)
Definition crowded : list (string * option node) :=
  Sample.bundle "parcels" "EPSG:4326"
  ++ [("reprojected", Some (File (Bytes "notes")))].

End Scenario.
(** * Properties *)

(** ** Strings and paths *)

Lemma app_cons (c : ascii) (a b : string) : String c a +:+ b = String c (a +:+ b).
Proof. reflexivity. Qed.

Lemma app_nil_l (b : string) : "" +:+ b = b.
Proof. reflexivity. Qed.

Lemma app_assoc_s (a b c : string) : (a +:+ b) +:+ c = a +:+ b +:+ c.
Proof. induction a as [|x a IH]; [done|]. rewrite !app_cons. by rewrite IH. Qed.

Lemma app_nil_r_s (a : string) : a +:+ "" = a.
Proof. induction a as [|x a IH]; [done|]. by rewrite app_cons, IH. Qed.

Lemma has_sep_app (a b : string) :
  Str.has_sep (a +:+ b) = Str.has_sep a || Str.has_sep b.
Proof.
  induction a as [|x a IH]; [done|].
  rewrite app_cons. simpl. rewrite IH. by rewrite orb_assoc.
Qed.

Lemma has_sep_sep (b : string) : Str.has_sep ("/" +:+ b) = true.
Proof. reflexivity. Qed.

Lemma split_nonempty (p : string) : Path.split p ≠ [].
Proof.
  destruct p as [|c p]; simpl; [done|].
  destruct (Str.is_sep c); [done|]. by destruct (Path.split p).
Qed.

Lemma split_app_sep (a b : string) :
  Path.split (a +:+ "/" +:+ b) = Path.split a ++ Path.split b.
Proof.
  induction a as [|c a IH]; [done|].
  rewrite app_cons. simpl. destruct (Str.is_sep c).
  - by rewrite IH.
  - rewrite IH. pose proof (split_nonempty a).
    by destruct (Path.split a).
Qed.

Lemma split_plain (n : string) : Str.has_sep n = false → Path.split n = [n].
Proof.
  induction n as [|c n IH]; [done|]. simpl.
  intros [Hc Hn]%orb_false_elim. rewrite Hc. by rewrite (IH Hn).
Qed.

Lemma components_app_sep (a b : string) :
  Path.components (a +:+ "/" +:+ b) = Path.components a ++ Path.components b.
Proof. unfold Path.components. by rewrite split_app_sep, filter_app. Qed.

Lemma components_plain (n : string) :
  Str.has_sep n = false → n ≠ "" → Path.components n = [n].
Proof.
  intros Hs Hn. unfold Path.components. rewrite (split_plain _ Hs).
  rewrite filter_cons_True by done. done.
Qed.

Lemma endswith_sep_app (a b : string) :
  b ≠ "" → Str.endswith (a +:+ b) "/" = Str.endswith b "/".
Proof.
  intros Hb. induction a as [|c a IH]; [done|].
  rewrite app_cons. simpl. rewrite IH.
  destruct (a +:+ b) as [|y r] eqn:E.
  - destruct a; [by rewrite app_nil_l in E | by rewrite app_cons in E].
  - destruct (Ascii.eqb c "/"); done.
Qed.

Lemma join_plain_eq (a b : string) :
  a ≠ "" → Str.endswith a "/" = false → Str.startswith_sep b = false →
  Path.join a b = a +:+ "/" +:+ b.
Proof.
  intros Ha He Hb. unfold Path.join. rewrite Hb, He.
  destruct (String.eqb_spec a ""); [done|]. done.
Qed.

Lemma startswith_sep_plain (b : string) :
  Str.has_sep b = false → Str.startswith_sep b = false.
Proof. destruct b as [|c b]; [done|]. simpl. by intros [? ?]%orb_false_elim. Qed.

Lemma basename_plain (b : string) : Str.has_sep b = false → Path.basename b = b.
Proof.
  destruct b as [|c b]; [done|]. simpl.
  intros [Hc Hb]%orb_false_elim. by rewrite Hb, Hc.
Qed.

Lemma basename_app_sep (a b : string) :
  Path.basename (a +:+ "/" +:+ b) = Path.basename ("/" +:+ b).
Proof.
  induction a as [|c a IH]; [done|].
  rewrite app_cons. cbn [Path.basename].
  by rewrite has_sep_app, has_sep_sep, orb_true_r.
Qed.

Lemma basename_join_plain (a b : string) :
  Str.has_sep b = false → Path.basename (a +:+ "/" +:+ b) = b.
Proof.
  intros Hb. rewrite basename_app_sep, app_cons, app_nil_l. simpl.
  by rewrite Hb.
Qed.

Lemma basename_no_sep (p : string) : Str.has_sep (Path.basename p) = false.
Proof.
  induction p as [|c p IH]; [done|]. simpl.
  destruct (Str.has_sep p) eqn:E; [done|].
  destruct (Str.is_sep c) eqn:Ec; [done|]. simpl. by rewrite Ec, E.
Qed.

Lemma dirname_join_plain (a b : string) :
  Str.has_sep b = false → Path.dirname (a +:+ "/" +:+ b) = a.
Proof.
  intros Hb. induction a as [|c a IH].
  - rewrite app_nil_l, app_cons, app_nil_l. simpl. by rewrite Hb.
  - rewrite app_cons. cbn [Path.dirname].
    rewrite has_sep_app, has_sep_sep, orb_true_r. by rewrite IH.
Qed.

Lemma endswith_sep_plain (a : string) :
  Str.has_sep a = false → Str.endswith a "/" = false.
Proof.
  induction a as [|c a IH]; [done|]. simpl.
  intros [Hc Ha]%orb_false_elim. unfold Str.is_sep in Hc. rewrite Hc.
  by apply IH.
Qed.

Lemma has_sep_underscores (n : nat) : Str.has_sep (underscores n) = false.
Proof. induction n as [|n IH]; [done|]. simpl. by rewrite IH. Qed.

Lemma length_underscores (n : nat) : String.length (underscores n) = n.
Proof. induction n as [|n IH]; [done|]. simpl. by rewrite IH. Qed.

Lemma fresh_name_no_sep (s : fs) : Str.has_sep (fresh_name s) = false.
Proof. unfold fresh_name. rewrite has_sep_app. by rewrite has_sep_underscores. Qed.

Lemma fresh_name_nonempty (s : fs) : fresh_name s ≠ "".
Proof. done. Qed.

Lemma fresh_name_length (s : fs) :
  String.length (fresh_name s) = 4 + longest_name s.
Proof.
  unfold fresh_name. rewrite !app_cons, app_nil_l. simpl.
  by rewrite length_underscores.
Qed.

Lemma components_fresh_name (s : fs) :
  Path.components (fresh_name s) = [fresh_name s].
Proof. apply components_plain; [apply fresh_name_no_sep | apply fresh_name_nonempty]. Qed.

Lemma join_fresh_name (s : fs) (b : string) :
  Str.startswith_sep b = false →
  Path.join (fresh_name s) b = fresh_name s +:+ "/" +:+ b.
Proof.
  intros Hb. apply join_plain_eq; [done| |done].
  apply endswith_sep_plain, fresh_name_no_sep.
Qed.

(** ** Directories as association lists *)

Lemma assoc_longest (n : string) (es : list (string * node)) :
  longest_name es < String.length n → assoc n es = None.
Proof.
  induction es as [|[m x] es IH]; [done|]. simpl. intros Hlt.
  destruct (String.eqb_spec m n) as [->|_]; [lia|]. apply IH. lia.
Qed.

Lemma assoc_fresh_name (s : fs) : assoc (fresh_name s) s = None.
Proof. apply assoc_longest. rewrite fresh_name_length. lia. Qed.

Lemma assoc_set_child_eq (c : string) (x : node) (es : list (string * node)) :
  assoc c (set_child c x es) = Some x.
Proof.
  induction es as [|[m y] es IH]; simpl.
  - by rewrite String.eqb_refl.
  - destruct (String.eqb_spec m c) as [->|Hne]; simpl.
    + by rewrite String.eqb_refl.
    + by destruct (String.eqb_spec m c).
Qed.

Lemma assoc_set_child_ne (c n : string) (x : node) (es : list (string * node)) :
  c ≠ n → assoc n (set_child c x es) = assoc n es.
Proof.
  intros Hne. induction es as [|[m y] es IH]; simpl.
  - by destruct (String.eqb_spec c n).
  - destruct (String.eqb_spec m c) as [->|Hmc]; simpl.
    + by destruct (String.eqb_spec c n).
    + by rewrite IH.
Qed.

Lemma assoc_remove_child_eq (c : string) (es : list (string * node)) :
  assoc c (remove_child c es) = None.
Proof.
  induction es as [|[m y] es IH]; [done|]. simpl.
  destruct (String.eqb_spec m c) as [->|Hmc]; [done|]. simpl.
  by destruct (String.eqb_spec m c).
Qed.

Lemma assoc_remove_child_ne (c n : string) (es : list (string * node)) :
  c ≠ n → assoc n (remove_child c es) = assoc n es.
Proof.
  intros Hne. induction es as [|[m y] es IH]; [done|]. simpl.
  destruct (String.eqb_spec m c) as [->|Hmc]; simpl.
  - by destruct (String.eqb_spec c n).
  - by rewrite IH.
Qed.

Lemma remove_child_absent (c : string) (es : list (string * node)) :
  assoc c es = None → remove_child c es = es.
Proof.
  induction es as [|[m y] es IH]; [done|]. simpl.
  destruct (String.eqb_spec m c) as [->|Hmc]; [done|].
  intros H. by rewrite IH.
Qed.

Lemma set_child_absent (c : string) (x : node) (es : list (string * node)) :
  assoc c es = None → set_child c x es = es ++ [(c, x)].
Proof.
  induction es as [|[m y] es IH]; [done|]. simpl.
  destruct (String.eqb_spec m c) as [->|Hmc]; [done|].
  intros H. by rewrite IH.
Qed.

Lemma assoc_app_last (d : string) (x : node) (s : list (string * node)) :
  assoc d s = None → assoc d (s ++ [(d, x)]) = Some x.
Proof. intros H. rewrite <- (set_child_absent _ _ _ H). apply assoc_set_child_eq. Qed.

Lemma assoc_app_other (d n : string) (x : node) (s : list (string * node)) :
  d ≠ n → assoc n (s ++ [(d, x)]) = assoc n s.
Proof.
  intros Hne. induction s as [|[m y] s IH]; simpl.
  - by destruct (String.eqb_spec d n).
  - by rewrite IH.
Qed.

Lemma set_child_app_last (d : string) (x y : node) (s : list (string * node)) :
  assoc d s = None → set_child d x (s ++ [(d, y)]) = s ++ [(d, x)].
Proof.
  induction s as [|[m z] s IH]; simpl.
  - by rewrite String.eqb_refl.
  - destruct (String.eqb_spec m d) as [->|Hmc]; [done|].
    intros H. by rewrite IH.
Qed.

Lemma remove_child_app_last (d : string) (y : node) (s : list (string * node)) :
  assoc d s = None → remove_child d (s ++ [(d, y)]) = s.
Proof.
  induction s as [|[m z] s IH]; simpl.
  - by rewrite String.eqb_refl.
  - destruct (String.eqb_spec m d) as [->|Hmc]; [done|].
    intros H. by rewrite IH.
Qed.

Lemma lookup_in_last (d : string) (cs : list string) (es s : list (string * node)) :
  assoc d s = None →
  lookup_in (d :: cs) (s ++ [(d, Dir es)]) =
    match cs with [] => Some (Dir es) | _ => lookup_in cs es end.
Proof. intros H. simpl. rewrite (assoc_app_last _ _ _ H). by destruct cs. Qed.

Lemma put_in_cons (c c' : string) (cs : list string) (x : node)
    (es : list (string * node)) :
  put_in (c :: c' :: cs) x es =
    match assoc c es with
    | Some (Dir sub) =>
        match put_in (c' :: cs) x sub with
        | Some sub' => Some (set_child c (Dir sub') es)
        | None => None
        end
    | _ => None
    end.
Proof. reflexivity. Qed.

Lemma lookup_in_cons (c c' : string) (cs : list string) (es : list (string * node)) :
  lookup_in (c :: c' :: cs) es =
    match assoc c es with
    | Some (Dir sub) => lookup_in (c' :: cs) sub
    | _ => None
    end.
Proof. simpl. by destruct (assoc c es) as [[|]|]. Qed.

Lemma put_in_last (d c : string) (cs : list string) (x : node)
    (es s : list (string * node)) :
  assoc d s = None →
  put_in (d :: c :: cs) x (s ++ [(d, Dir es)]) =
    (λ es', s ++ [(d, Dir es')]) <$> put_in (c :: cs) x es.
Proof.
  intros H. rewrite put_in_cons, (assoc_app_last _ _ _ H).
  destruct (put_in (c :: cs) x es) as [es'|]; [|done].
  simpl. by rewrite set_child_app_last.
Qed.

Lemma makedirs_in_last (d : string) (cs : list string) (es s : list (string * node)) :
  assoc d s = None →
  makedirs_in (d :: cs) (s ++ [(d, Dir es)]) =
    (λ es', s ++ [(d, Dir es')]) <$> makedirs_in cs es.
Proof.
  intros H. cbn [makedirs_in]. rewrite (assoc_app_last _ _ _ H).
  destruct (makedirs_in cs es) as [es'|]; [|done].
  simpl. by rewrite set_child_app_last.
Qed.

Lemma lookup_in_removed (cs : list string) (es es' : list (string * node)) :
  remove_in cs es = Some es' → lookup_in cs es' = None.
Proof.
  revert es es'. induction cs as [|c cs IH]; intros es es'; [done|].
  cbn [remove_in lookup_in]. destruct cs as [|c' cs].
  - destruct (assoc c es); [|done]. intros [= <-].
    by rewrite assoc_remove_child_eq.
  - destruct (assoc c es) as [[sub|]|]; [|done..].
    destruct (remove_in (c' :: cs) sub) as [sub'|] eqn:E; [|done].
    intros [= <-]. rewrite assoc_set_child_eq. by apply (IH sub).
Qed.

Lemma remove_in_found (cs : list string) (es : list (string * node)) :
  is_Some (lookup_in cs es) → is_Some (remove_in cs es).
Proof.
  revert es. induction cs as [|c cs IH]; intros es; [by intros [? ?]|].
  cbn [remove_in lookup_in]. destruct cs as [|c' cs].
  - destruct (assoc c es); [eauto | by intros [? ?]].
  - destruct (assoc c es) as [[sub|]|]; [|by intros [? ?]..].
    intros H. destruct (IH sub H) as [sub' ->]. eauto.
Qed.

(** ** Nothing but [rmtree] removes an entry *)

Lemma extends_refl (s : fs) : extends s s.
Proof. intros n. split; [done|]. eauto. Qed.

Lemma extends_trans (s1 s2 s3 : fs) : extends s1 s2 → extends s2 s3 → extends s1 s3.
Proof.
  intros H12 H23 n. destruct (H12 n) as [Ha Hb], (H23 n) as [Hc Hd]. split.
  - auto.
  - intros e He. destruct (Hb e He) as [e' He']. eauto.
Qed.

Lemma extends_set_child (c : string) (x : node) (es : list (string * node)) :
  (∀ e, assoc c es = Some (Dir e) → ∃ e', x = Dir e') →
  extends es (set_child c x es).
Proof.
  intros Hx n. destruct (decide (c = n)) as [<-|Hne].
  - rewrite assoc_set_child_eq. split; [eauto|].
    intros e He. destruct (Hx e He) as [e' ->]. eauto.
  - rewrite assoc_set_child_ne by done. split; eauto.
Qed.

Lemma extends_app (s t : fs) : extends s (s ++ t).
Proof.
  assert (∀ n x, assoc n s = Some x → assoc n (s ++ t) = Some x) as Happ.
  { intros n x. induction s as [|[m y] s IH]; [done|]. simpl.
    destruct (String.eqb m n); auto. }
  intros n. split.
  - intros [x Hx]. rewrite (Happ _ _ Hx). eauto.
  - intros e He. rewrite (Happ _ _ He). eauto.
Qed.

Lemma extends_put_in (cs : list string) (x : node) (s s' : fs) :
  (∀ e, lookup_in cs s = Some (Dir e) → ∃ e', x = Dir e') →
  put_in cs x s = Some s' → extends s s'.
Proof.
  destruct cs as [|c [|c' cs]]; [done| |].
  - intros Hx [= <-]. apply extends_set_child. intros e He. apply (Hx e).
    simpl. by rewrite He.
  - intros _. rewrite put_in_cons.
    destruct (assoc c s) as [[sub|]|] eqn:E; [|done..].
    destruct (put_in (c' :: cs) x sub) as [sub'|]; [|done].
    intros [= <-]. apply extends_set_child. eauto.
Qed.

Lemma extends_makedirs_in (cs : list string) (s s' : fs) :
  makedirs_in cs s = Some s' → extends s s'.
Proof.
  destruct cs as [|c cs]; simpl.
  - intros [= <-]. apply extends_refl.
  - destruct (assoc c s) as [[sub|]|] eqn:E.
    + destruct (makedirs_in cs sub) as [sub'|]; [|done].
      intros [= <-]. apply extends_set_child. eauto.
    + done.
    + destruct (makedirs_in cs []) as [sub'|]; [|done].
      intros [= <-]. apply extends_set_child. by rewrite E.
Qed.

Lemma keeps_ret {A} (a : A) : keeps (ret a).
Proof. intros s. apply extends_refl. Qed.

Lemma keeps_raise {A} (e : exn) : keeps (@raise fs A e).
Proof. intros s. apply extends_refl. Qed.

Lemma keeps_gets {A} (f : fs → A) : keeps (gets f).
Proof. intros s. apply extends_refl. Qed.

Lemma keeps_call {A} (f : fs → result A) : keeps (call f).
Proof. intros s. apply extends_refl. Qed.

Lemma keeps_bind {A B} (m : io A) (k : A → io B) :
  keeps m → (∀ a, keeps (k a)) → keeps (bind m k).
Proof.
  intros Hm Hk s. unfold bind. specialize (Hm s).
  destruct (m s) as [s1 [a|e]]; simpl in *; [|done].
  eapply extends_trans; [done|]. apply Hk.
Qed.

Lemma keeps_mkdtemp : keeps mkdtemp.
Proof. intros s. apply extends_app. Qed.

Lemma keeps_makedirs (p : string) : keeps (makedirs p).
Proof.
  intros s. unfold makedirs.
  destruct (makedirs_in _ s) as [s'|] eqn:E; simpl.
  - by eapply extends_makedirs_in.
  - apply extends_refl.
Qed.

Lemma keeps_listdir (p : string) : keeps (listdir p).
Proof.
  intros s. unfold listdir.
  destruct (fs_lookup p s) as [[|]|]; apply extends_refl.
Qed.

Lemma keeps_zip_open (p : string) : keeps (zip_open p).
Proof.
  intros s. unfold zip_open.
  destruct (fs_lookup p s) as [[|[|]]|]; apply extends_refl.
Qed.

Lemma keeps_write_file (p : string) (data : fdata) : keeps (write_file p data).
Proof.
  intros s. unfold write_file, fs_lookup.
  destruct (lookup_in (Path.components p) s) as [[e|d]|] eqn:E;
    [apply extends_refl|..];
    (destruct (put_in _ _ s) as [s'|] eqn:Ep; simpl; [|apply extends_refl];
     eapply extends_put_in; [|done]; intros e He; congruence).
Qed.

Lemma keeps_store_in (dir name : string) (x : node) : keeps (store_in dir name x).
Proof.
  intros s. unfold store_in.
  set (cs := Path.components dir ++ [name]).
  destruct x as [e|d].
  - destruct (put_in cs (Dir e) s) as [s'|] eqn:Ep;
      [|destruct (lookup_in cs s) as [[|]|]; apply extends_refl].
    assert (extends s s') by (eapply extends_put_in; [|done]; eauto).
    by destruct (lookup_in cs s) as [[|]|].
  - destruct (lookup_in cs s) as [[e|d']|] eqn:E; [apply extends_refl|..];
      (destruct (put_in cs (File d) s) as [s'|] eqn:Ep; simpl; [|apply extends_refl];
       eapply extends_put_in; [|done]; intros e He; congruence).
Qed.

Lemma keeps_extractall (ms : list (string * option node)) (dest : string) :
  keeps (extractall ms dest).
Proof.
  induction ms as [|[name [x|]] ms IH]; simpl.
  - apply keeps_ret.
  - apply keeps_bind; [apply keeps_store_in | done].
  - apply keeps_raise.
Qed.

Lemma keeps_write_files (dir : string) (files : list (string * fdata)) :
  keeps (write_files dir files).
Proof.
  induction files as [|[name data] files IH]; simpl.
  - apply keeps_ret.
  - apply keeps_bind; [apply keeps_store_in | done].
Qed.

(** ** Running the validator *)

Lemma assoc_app_some (n : string) (x : node) (s t : list (string * node)) :
  assoc n s = Some x → assoc n (s ++ t) = Some x.
Proof.
  induction s as [|[m y] s IH]; [done|]. simpl.
  destruct (String.eqb m n); auto.
Qed.

Lemma lookup_in_app_some (cs : list string) (x : node) (s t : list (string * node)) :
  lookup_in cs s = Some x → lookup_in cs (s ++ t) = Some x.
Proof.
  destruct cs as [|c cs]; [done|]. simpl.
  destruct (assoc c s) as [y|] eqn:E; [|done].
  by rewrite (assoc_app_some _ _ _ t E).
Qed.

Lemma fs_lookup_fresh_last (s : fs) (es : list (string * node)) :
  fs_lookup (fresh_name s) (s ++ [(fresh_name s, Dir es)]) = Some (Dir es).
Proof.
  unfold fs_lookup. rewrite components_fresh_name.
  by rewrite lookup_in_last by apply assoc_fresh_name.
Qed.

Lemma rmtree_fresh_last (s : fs) (es : list (string * node)) :
  rmtree (fresh_name s) (s ++ [(fresh_name s, Dir es)]) = (s, Ok tt).
Proof.
  unfold rmtree. rewrite fs_lookup_fresh_last, components_fresh_name. simpl.
  rewrite assoc_app_last by apply assoc_fresh_name.
  by rewrite remove_child_app_last by apply assoc_fresh_name.
Qed.

Lemma listdir_fresh_last (s : fs) (es : list (string * node)) :
  listdir (fresh_name s) (s ++ [(fresh_name s, Dir es)])
  = (s ++ [(fresh_name s, Dir es)], Ok (map fst es)).
Proof. unfold listdir. by rewrite fs_lookup_fresh_last. Qed.

Lemma store_in_fresh_last (s : fs) (name : string) (x : node)
    (es : list (string * node)) :
  store_in (fresh_name s) name x (s ++ [(fresh_name s, Dir es)]) =
    match x, assoc name es with
    | File _, Some (Dir _) =>
        (s ++ [(fresh_name s, Dir es)],
         Raise (is_a_directory (Path.join (fresh_name s) name)))
    | _, _ => (s ++ [(fresh_name s, Dir (set_child name x es))], Ok tt)
    end.
Proof.
  unfold store_in. rewrite components_fresh_name. cbn [Datatypes.app].
  rewrite lookup_in_last by apply assoc_fresh_name.
  rewrite put_in_last by apply assoc_fresh_name. simpl.
  destruct x as [e|d]; [by destruct (assoc name es) as [[|]|]|].
  by destruct (assoc name es) as [[|]|].
Qed.

Lemma extractall_fresh_last (s : fs) (ms : list (string * option node))
    (es : list (string * node)) :
  extractall ms (fresh_name s) (s ++ [(fresh_name s, Dir es)]) =
    let '(es', r) := unpack (fresh_name s) ms es in
    (s ++ [(fresh_name s, Dir es')], r).
Proof.
  revert es. induction ms as [|[name [x|]] ms IH]; intros es; [done| |done].
  cbn [extractall unpack]. unfold bind. rewrite store_in_fresh_last.
  destruct x as [e|d].
  - destruct (assoc name es) as [[|]|]; apply IH.
  - destruct (assoc name es) as [[|]|]; [done|apply IH..].
Qed.

Lemma check_shapefile_completeness_run (zip_path : string) (s : fs)
    (ms : list (string * option node)) :
  Str.endswith (Str.lower zip_path) ".zip" = true →
  fs_lookup zip_path s = Some (File (Zip ms)) →
  check_shapefile_completeness zip_path s =
    let d := fresh_name s in
    let '(es, r) := unpack d ms [] in
    let s1 := s ++ [(d, Dir es)] in
    match r with
    | Raise e => (s, Raise e)
    | Ok _ =>
        match shp_files (map fst es) with
        | [] => (s, Raise (FileNotFoundError "No .shp file found in the zipped folder."))
        | first :: _ =>
            match missing_exts (fst (Path.splitext (Path.join d first))) s1 with
            | [] => (s1, Ok (Path.join d first, d))
            | m =>
                (s, Raise (FileNotFoundError
                             ("Incomplete shapefile. Missing: " +:+ Str.join ", " m)))
            end
        end
    end.
Proof.
  intros Hzip Hfile.
  unfold check_shapefile_completeness. rewrite Hzip. cbn [negb].
  unfold bind at 1. unfold gets at 1, is_zipfile. rewrite Hfile. cbn [negb].
  unfold bind at 1, mkdtemp at 1.
  unfold try_except, check_try. unfold bind at 1, zip_open at 1.
  unfold fs_lookup in *. rewrite (lookup_in_app_some _ _ _ _ Hfile).
  unfold bind at 1. rewrite extractall_fresh_last.
  destruct (unpack (fresh_name s) ms []) as [es [[]|e]].
  - unfold bind at 1. rewrite listdir_fresh_last.
    destruct (shp_files (map fst es)) as [|first rest].
    + unfold raise at 1. unfold bind. by rewrite rmtree_fresh_last.
    + unfold bind at 1, gets at 1.
      destruct (missing_exts _ _) as [|m1 m]; [done|].
      unfold raise at 1. unfold bind. by rewrite rmtree_fresh_last.
  - unfold bind. by rewrite rmtree_fresh_last.
Qed.

Lemma check_shapefile_completeness_returns (zip_path : string) (s s1 : fs)
    (shp_path temp_dir : string) :
  check_shapefile_completeness zip_path s = (s1, Ok (shp_path, temp_dir)) →
  ∃ ms es first rest,
    Str.endswith (Str.lower zip_path) ".zip" = true
    ∧ fs_lookup zip_path s = Some (File (Zip ms))
    ∧ temp_dir = fresh_name s
    ∧ unpack temp_dir ms [] = (es, Ok tt)
    ∧ s1 = s ++ [(temp_dir, Dir es)]
    ∧ shp_files (map fst es) = first :: rest
    ∧ shp_path = Path.join temp_dir first
    ∧ missing_exts (fst (Path.splitext shp_path)) s1 = [].
Proof.
  intros Hrun.
  destruct (Str.endswith (Str.lower zip_path) ".zip") eqn:Hzip;
    [|by unfold check_shapefile_completeness in Hrun; rewrite Hzip in Hrun].
  destruct (fs_lookup zip_path s) as [[e|[b|ms]]|] eqn:Hfile;
    try (by unfold check_shapefile_completeness in Hrun; rewrite Hzip in Hrun;
         cbn [negb] in Hrun; unfold bind, gets, is_zipfile in Hrun;
         rewrite Hfile in Hrun).
  rewrite (check_shapefile_completeness_run _ _ ms Hzip Hfile) in Hrun.
  cbv zeta in Hrun.
  destruct (unpack (fresh_name s) ms []) as [es [[]|e]] eqn:Hun; [|done].
  destruct (shp_files (map fst es)) as [|first rest] eqn:Hshp; [done|].
  destruct (missing_exts _ _) as [|m1 m] eqn:Hmiss; [|done].
  injection Hrun as <- <- <-. by exists ms, es, first, rest.
Qed.

Section Engine.

Context (L : libs).

Lemma keeps_gdf_to_file (g : gdf L) (out_shp : string) :
  keeps (gdf_to_file L g out_shp).
Proof.
  unfold gdf_to_file. destruct (to_file L g out_shp) as [files [e|]];
    (apply keeps_bind; [apply keeps_write_files|intros _]);
    [apply keeps_raise | apply keeps_ret].
Qed.

Lemma keeps_reproject_try (shp_path temp_dir target_crs : string) :
  keeps (reproject_try L shp_path temp_dir target_crs).
Proof.
  unfold reproject_try.
  apply keeps_bind; [apply keeps_call|intros g].
  destruct (has_crs L g); cbn [negb]; [|apply keeps_raise].
  apply keeps_bind; [apply keeps_call|intros g'].
  apply keeps_bind; [apply keeps_makedirs|intros _].
  apply keeps_bind; [apply keeps_gdf_to_file|intros _].
  apply keeps_bind; [apply keeps_mkdtemp|intros d].
  apply keeps_bind; [apply keeps_write_file|intros _].
  apply keeps_bind; [apply keeps_listdir|intros files].
  apply keeps_bind; [apply keeps_gets|intros members].
  apply keeps_bind; [apply keeps_write_file|intros _].
  apply keeps_ret.
Qed.

End Engine.

(** C6.  When the validator raises after it made its scratch directory
    (the extraction failed, no [.shp] file was found, or a sidecar is
    missing), the file system is what it was before the call: the scratch
    directory is gone.  When it returns, the scratch directory holds what
    was extracted. *)
Theorem validate_leaves_no_scratch_dir (zip_path : string) (s : fs)
    (ms : list (string * option node)) :
  Str.endswith (Str.lower zip_path) ".zip" = true →
  fs_lookup zip_path s = Some (File (Zip ms)) →
  (∀ s' e,
     check_shapefile_completeness zip_path s = (s', Raise e) →
     s' = s ∧ path_exists (fresh_name s) s' = false
     ∧ (snd (unpack (fresh_name s) ms []) = Raise e
        ∨ e = FileNotFoundError "No .shp file found in the zipped folder."
        ∨ ∃ m, e = FileNotFoundError
                     ("Incomplete shapefile. Missing: " +:+ Str.join ", " m)))
  ∧ (∀ s' shp_path temp_dir,
       check_shapefile_completeness zip_path s = (s', Ok (shp_path, temp_dir)) →
       ∃ es, unpack temp_dir ms [] = (es, Ok tt)
             ∧ temp_dir = fresh_name s
             ∧ s' = s ++ [(temp_dir, Dir es)]
             ∧ fs_lookup temp_dir s' = Some (Dir es)).
Proof.
  intros Hzip Hfile.
  assert (path_exists (fresh_name s) s = false) as Hgone.
  { unfold path_exists, fs_lookup. rewrite components_fresh_name. simpl.
    by rewrite assoc_fresh_name. }
  split.
  - intros s' e. rewrite (check_shapefile_completeness_run _ _ ms Hzip Hfile).
    cbv zeta. destruct (unpack (fresh_name s) ms []) as [es [[]|e']].
    + destruct (shp_files (map fst es)) as [|first rest].
      * intros [= <- <-]. split; [done|]. split; [done|]. right. left. reflexivity.
      * destruct (missing_exts _ _) as [|m1 m]; [done|].
        intros [= <- <-]. split; [done|]. split; [done|]. right. right.
        by exists (m1 :: m).
    + intros [= <- <-]. split; [done|]. split; [done|]. left. reflexivity.
  - intros s' shp_path temp_dir Hrun.
    destruct (check_shapefile_completeness_returns _ _ _ _ _ Hrun)
      as (ms' & es & first & rest & _ & Hfile' & -> & Hun & -> & _).
    rewrite Hfile in Hfile'. injection Hfile' as <-.
    exists es. by rewrite fs_lookup_fresh_last.
Qed.

(** C5.  When the validator has returned its scratch directory and a later
    step of [reproject_shapefile] raises (the layer cannot be read, it has
    no CRS, the transformation or the writing fails, the output archive
    cannot be made), the error leaves the function with the input scratch
    directory and all that is below it removed. *)
Theorem reproject_failure_removes_input_dir (L : libs) (zip_path target_crs : string)
    (s s1 s' : fs) (shp_path temp_dir : string) (e : exn) :
  check_shapefile_completeness zip_path s = (s1, Ok (shp_path, temp_dir)) →
  reproject_shapefile L zip_path target_crs s = (s', Raise e) →
  ∃ s2,
    reproject_try L shp_path temp_dir target_crs s1 = (s2, Raise e)
    ∧ path_exists temp_dir s2 = true
    ∧ path_exists temp_dir s' = false
    ∧ ∀ p, fs_lookup (temp_dir +:+ "/" +:+ p) s' = None.
Proof.
  intros Hcheck Hrun.
  destruct (check_shapefile_completeness_returns _ _ _ _ _ Hcheck)
    as (ms & es & first & rest & _ & _ & -> & _ & -> & _).
  unfold reproject_shapefile, bind, try_except in Hrun. rewrite Hcheck in Hrun.
  pose proof (keeps_reproject_try L shp_path (fresh_name s) target_crs
                (s ++ [(fresh_name s, Dir es)])) as Hkeep.
  destruct (reproject_try L shp_path (fresh_name s) target_crs _)
    as [s2 [a|e2]]; [done|]. simpl in Hkeep.
  destruct (Hkeep (fresh_name s)) as [_ Hdir].
  destruct (Hdir es) as [es2 Hes2]; [by apply assoc_app_last, assoc_fresh_name|].
  assert (fs_lookup (fresh_name s) s2 = Some (Dir es2)) as Hlook.
  { unfold fs_lookup. rewrite components_fresh_name. simpl. by rewrite Hes2. }
  unfold reproject_except, bind, gets, path_exists in Hrun.
  rewrite Hlook in Hrun. simpl in Hrun.
  unfold rmtree in Hrun. rewrite Hlook, components_fresh_name in Hrun.
  simpl in Hrun. rewrite Hes2 in Hrun. injection Hrun as <- <-.
  exists s2. split; [done|]. split; [by unfold path_exists; rewrite Hlook|].
  split.
  - unfold path_exists, fs_lookup. rewrite components_fresh_name. simpl.
    by rewrite assoc_remove_child_eq.
  - intros p. unfold fs_lookup.
    rewrite components_app_sep, components_fresh_name. simpl.
    by rewrite assoc_remove_child_eq.
Qed.

(** ** Running the engine *)

Tactic Notation "bind_ok" hyp(H) "as" ident(s) ident(a) ident(E) :=
  unfold bind in H at 1;
  lazymatch type of H with
  | (match ?m with _ => _ end) = _ =>
      destruct m as [s [a|?]] eqn:E; [|discriminate H]
  end.

Lemma has_sep_true_split (x : string) :
  Str.has_sep x = true → ∃ a b, x = a +:+ "/" +:+ b.
Proof.
  induction x as [|c x IH]; [done|]. simpl.
  destruct (Str.is_sep c) eqn:Ec; simpl.
  - intros _. exists "", x. unfold Str.is_sep in Ec.
    apply Ascii.eqb_eq in Ec as ->. done.
  - intros Hx. destruct (IH Hx) as (a & b & ->). by exists (String c a), b.
Qed.

Lemma components_cons_plain (c : ascii) (x : string) :
  Str.is_sep c = false → Path.components (String c x) ≠ [].
Proof.
  intros Hc. unfold Path.components. simpl. rewrite Hc.
  pose proof (split_nonempty x). destruct (Path.split x) as [|h t]; [done|].
  by rewrite filter_cons_True.
Qed.

Lemma components_snoc_plain (x : string) (c : ascii) :
  Str.is_sep c = false → Path.components (x +:+ String c "") ≠ [].
Proof.
  intros Hc. induction x as [|a x IH].
  - by apply components_cons_plain.
  - rewrite app_cons. unfold Path.components in *. simpl.
    destruct (Str.is_sep a).
    + by rewrite filter_cons_False by naive_solver.
    + pose proof (split_nonempty (x +:+ String c "")).
      destruct (Path.split (x +:+ String c "")) as [|h t]; [done|].
      by rewrite filter_cons_True.
Qed.

Lemma output_name_components (target_crs : string) :
  Str.has_sep (output_name target_crs) = true →
  ∃ c c' cs, Path.components (output_name target_crs) = c :: c' :: cs.
Proof.
  unfold output_name. rewrite !has_sep_app. simpl. rewrite orb_false_r.
  intros (a & b & ->)%has_sep_true_split.
  replace ("reprojected_" +:+ (a +:+ "/" +:+ b) +:+ ".zip")
    with (("reprojected_" +:+ a) +:+ "/" +:+ (b +:+ ".zip"))
    by by rewrite !app_assoc_s.
  rewrite components_app_sep.
  pose proof (components_cons_plain "r" ("eprojected_" +:+ a) eq_refl) as H1.
  assert (Path.components (b +:+ ".zip") ≠ []) as H2.
  { replace (b +:+ ".zip") with ((b +:+ ".zi") +:+ "p") by by rewrite !app_assoc_s.
    by apply components_snoc_plain. }
  change ("reprojected_" +:+ a) with (String "r" ("eprojected_" +:+ a)).
  destruct (Path.components (String "r" _)) as [|c cs]; [done|].
  destruct (Path.components (b +:+ ".zip")) as [|c' cs']; [done|].
  destruct cs as [|c2 cs]; simpl; eauto.
Qed.

Lemma write_file_in_fresh_dir (s : fs) (name : string) (data : fdata) (s' : fs) :
  write_file (Path.join (fresh_name s) (output_name name)) data
    (s ++ [(fresh_name s, Dir [])]) = (s', Ok tt) →
  Str.has_sep (output_name name) = false
  ∧ s' = s ++ [(fresh_name s, Dir [(output_name name, File data)])].
Proof.
  rewrite join_fresh_name by done.
  unfold write_file, fs_lookup.
  rewrite components_app_sep, components_fresh_name. cbn [Datatypes.app].
  rewrite lookup_in_last by apply assoc_fresh_name.
  destruct (Str.has_sep (output_name name)) eqn:Hsep.
  - destruct (output_name_components _ Hsep) as (c & c' & cs & ->).
    rewrite put_in_last by apply assoc_fresh_name.
    rewrite put_in_cons. simpl. done.
  - rewrite components_plain by done.
    rewrite put_in_last by apply assoc_fresh_name. simpl.
    by intros [= <-].
Qed.

Section EngineRuns.

Context (L : libs).

Lemma reproject_try_returns (shp_path temp_dir target_crs : string) (s1 s' : fs)
    (out d_in d_out : string) :
  reproject_try L shp_path temp_dir target_crs s1 = (s', Ok (out, d_in, d_out)) →
  let out_dir := Path.join temp_dir "reprojected" in
  ∃ g g' s2 s3 files,
    read_file L shp_path s1 = Ok g
    ∧ has_crs L g = true
    ∧ to_crs L g target_crs = Ok g'
    ∧ makedirs out_dir s1 = (s2, Ok tt)
    ∧ gdf_to_file L g' (Path.join out_dir (Path.basename shp_path)) s2 = (s3, Ok tt)
    ∧ d_in = temp_dir
    ∧ d_out = fresh_name s3
    ∧ out = Path.join d_out (output_name target_crs)
    ∧ Str.has_sep (output_name target_crs) = false
    ∧ listdir out_dir (s3 ++ [(d_out, Dir [(output_name target_crs, File (Zip []))])])
      = (s3 ++ [(d_out, Dir [(output_name target_crs, File (Zip []))])], Ok files)
    ∧ s' = s3 ++ [(d_out,
               Dir [(output_name target_crs,
                     File (Zip (zip_collect out_dir files
                       (s3 ++ [(d_out, Dir [(output_name target_crs, File (Zip []))])]))))])].
Proof.
  intros Hrun out_dir. unfold reproject_try in Hrun. fold out_dir in Hrun.
  bind_ok Hrun as s1' g Hread. unfold call in Hread. injection Hread as <- Hread.
  destruct (has_crs L g) eqn:Hcrs; [|done]. cbn [negb] in Hrun.
  bind_ok Hrun as s1' g' Hto. unfold call in Hto. injection Hto as <- Hto.
  bind_ok Hrun as s2 u1 Hmk. destruct u1.
  bind_ok Hrun as s3 u2 Hwr. destruct u2.
  bind_ok Hrun as s4 d Hd. unfold mkdtemp in Hd. injection Hd as <- <-.
  bind_ok Hrun as s5 u3 Hz. destruct u3.
  apply write_file_in_fresh_dir in Hz as [Hsep ->].
  bind_ok Hrun as s6 files Hls.
  assert (s6 = s3 ++ [(fresh_name s3, Dir [(output_name target_crs, File (Zip []))])])
    as ->.
  { unfold listdir in Hls. destruct (fs_lookup out_dir _) as [[|]|]; congruence. }
  bind_ok Hrun as s7 members Hm. unfold gets in Hm. injection Hm as <- <-.
  bind_ok Hrun as s8 u4 Hz. destruct u4.
  unfold ret in Hrun. injection Hrun as <- <- <- <-.
  assert (s8 = s3 ++ [(fresh_name s3,
            Dir [(output_name target_crs,
                  File (Zip (zip_collect out_dir files
                    (s3 ++ [(fresh_name s3,
                       Dir [(output_name target_crs, File (Zip []))])]))))])]) as ->.
  { revert Hz. rewrite join_fresh_name by done.
    unfold write_file, fs_lookup.
    rewrite components_app_sep, components_fresh_name. cbn [Datatypes.app].
    rewrite components_plain by done.
    rewrite lookup_in_last by apply assoc_fresh_name. simpl.
    rewrite String.eqb_refl.
    rewrite assoc_app_last by apply assoc_fresh_name. simpl.
    rewrite String.eqb_refl.
    rewrite set_child_app_last by apply assoc_fresh_name. by intros [= <-]. }
  exists g, g', s2, s3, files. done.
Qed.

Lemma reproject_shapefile_returns (zip_path target_crs : string) (s s' : fs)
    (out d_in d_out : string) :
  reproject_shapefile L zip_path target_crs s = (s', Ok (out, d_in, d_out)) →
  ∃ s1 shp_path,
    check_shapefile_completeness zip_path s = (s1, Ok (shp_path, d_in))
    ∧ reproject_try L shp_path d_in target_crs s1 = (s', Ok (out, d_in, d_out)).
Proof.
  unfold reproject_shapefile, bind, try_except.
  destruct (check_shapefile_completeness zip_path s) as [s1 [[shp d]|e]] eqn:Hc.
  - destruct (reproject_try L shp d target_crs s1) as [s2 [[[o i] u]|e]] eqn:Ht.
    + intros [= <- <- <- <-]. pose proof (reproject_try_returns _ _ _ _ _ _ _ _ Ht)
        as (?&?&?&?&?&?&?&?&?&?&?&?).
      subst. eauto.
    + unfold reproject_except, bind, gets.
      destruct (_ && _); [|done]. by destruct (rmtree d s2) as [? [|]].
  - by unfold reproject_except, raise.
Qed.

End EngineRuns.

(** C7.  When [reproject_shapefile] returns, the output archive is named
    [reprojected_] followed by the target CRS without its colons followed by
    [.zip], whatever the upload was, and it lies in a scratch directory that
    did not exist before the call and is not the input scratch directory. *)
Theorem output_archive_named_after_target (L : libs) (zip_path target_crs : string)
    (s s' : fs) (output_zip_path temp_dir temp_output_dir : string) :
  reproject_shapefile L zip_path target_crs s
  = (s', Ok (output_zip_path, temp_dir, temp_output_dir)) →
  output_zip_path
  = temp_output_dir +:+ "/" +:+
      "reprojected_" +:+ Str.remove_colons target_crs +:+ ".zip"
  ∧ Path.basename output_zip_path
    = "reprojected_" +:+ Str.remove_colons target_crs +:+ ".zip"
  ∧ temp_output_dir ≠ temp_dir
  ∧ path_exists temp_output_dir s = false
  ∧ path_exists temp_dir s' = true
  ∧ ∃ members,
      fs_lookup temp_output_dir s'
      = Some (Dir [("reprojected_" +:+ Str.remove_colons target_crs +:+ ".zip",
                    File (Zip members))]).
Proof.
  intros Hrun.
  destruct (reproject_shapefile_returns _ _ _ _ _ _ _ _ Hrun)
    as (s1 & shp_path & Hcheck & Htry).
  destruct (check_shapefile_completeness_returns _ _ _ _ _ Hcheck)
    as (ms & es & first & rest & _ & _ & Hd & _ & Hs1 & _).
  destruct (reproject_try_returns _ _ _ _ _ _ _ _ _ Htry)
    as (g & g' & s2 & s3 & files & _ & _ & _ & Hmk & Hwr & _ & Hout & Hpath
        & Hsep & _ & Hs').
  fold (output_name target_crs). subst temp_dir temp_output_dir output_zip_path s1.
  assert (extends (s ++ [(fresh_name s, Dir es)]) s3) as Hext.
  { eapply extends_trans.
    - pose proof (keeps_makedirs (Path.join (fresh_name s) "reprojected")
                    (s ++ [(fresh_name s, Dir es)])) as H.
      by rewrite Hmk in H.
    - pose proof (keeps_gdf_to_file L g'
        (Path.join (Path.join (fresh_name s) "reprojected") (Path.basename shp_path))
        s2) as H.
      by rewrite Hwr in H. }
  assert (∃ e, assoc (fresh_name s) s3 = Some (Dir e)) as [e3 He3].
  { destruct (Hext (fresh_name s)) as [_ Hdir]. apply (Hdir es).
    apply assoc_app_last, assoc_fresh_name. }
  assert (fresh_name s3 ≠ fresh_name s) as Hne.
  { intros Heq. rewrite <- Heq in He3. by rewrite assoc_fresh_name in He3. }
  assert (extends s s3) as Hext0.
  { eapply extends_trans; [|done]. apply extends_app. }
  split; [|split; [|split; [|split; [|split]]]].
  - by rewrite join_fresh_name.
  - rewrite join_fresh_name by done. by apply basename_join_plain.
  - done.
  - unfold path_exists, fs_lookup. rewrite components_fresh_name. simpl.
    destruct (assoc (fresh_name s3) s) as [x|] eqn:Hx; [|done].
    destruct (Hext0 (fresh_name s3)) as [Hsome _].
    destruct Hsome as [y Hy]; [by rewrite Hx|]. by rewrite assoc_fresh_name in Hy.
  - unfold path_exists, fs_lookup. rewrite components_fresh_name. simpl.
    rewrite Hs'. rewrite assoc_app_other by done. by rewrite He3.
  - eexists. unfold fs_lookup. rewrite components_fresh_name, Hs'.
    by rewrite lookup_in_last by apply assoc_fresh_name.
Qed.

(** ** The request handlers *)

Lemma prefix_app (t b : string) : String.prefix t (t +:+ b) = true.
Proof.
  induction t as [|c t IH]; [by destruct b|].
  rewrite app_cons. simpl. by destruct (ascii_dec c c).
Qed.

Lemma contains_prefix (s t : string) :
  String.prefix t s = true → Str.contains s t = true.
Proof. intros H. destruct s; cbn [Str.contains]; by rewrite H. Qed.

Lemma contains_app (a t b : string) : Str.contains (a +:+ t +:+ b) t = true.
Proof.
  induction a as [|c a IH].
  - rewrite app_nil_l. apply contains_prefix, prefix_app.
  - rewrite app_cons. cbn [Str.contains]. rewrite IH.
    by destruct (String.prefix t _).
Qed.

(** C8.  The upload handler answers with the message of the first check
    that the request fails, in the order: file field, file name, target
    field, target CRS parses.  The status is 400, the body is a JSON object
    with the key [error], and the state of the process is unchanged. *)
Theorem upload_checks_in_order (L : libs) (req : request) (st : app)
    (c : upload_check) :
  check_fails L req c = true →
  (∀ c', rank c' < rank c → check_fails L req c' = false) →
  reproject_api L req st = (st, Ok (Json 400 [("error", check_message req c)])).
Proof.
  intros Hc Hbefore. unfold reproject_api, check_message.
  destruct c; simpl in Hc.
  - by destruct (files_file req).
  - destruct (files_file req) as [file|]; [|done]. by rewrite Hc.
  - pose proof (Hbefore FileField ltac:(simpl; lia)) as H0.
    pose proof (Hbefore FileName ltac:(simpl; lia)) as H1.
    simpl in H0, H1. destruct (files_file req) as [file|]; [|done].
    rewrite H1. by destruct (form_target_crs req) as [[|]|].
  - pose proof (Hbefore FileField ltac:(simpl; lia)) as H0.
    pose proof (Hbefore FileName ltac:(simpl; lia)) as H1.
    pose proof (Hbefore TargetField ltac:(simpl; lia)) as H2.
    simpl in H0, H1, H2. destruct (files_file req) as [file|]; [|done].
    rewrite H1. destruct (form_target_crs req) as [[|a t]|]; [done| |done].
    rewrite Hc. reflexivity.
Qed.

Lemma reproject_api_unparsable (L : libs) (req : request) (st : app)
    (file : upload) (target_crs : string) :
  files_file req = Some file →
  String.eqb (filename file) ""
  || negb (Str.endswith (Str.lower (filename file)) ".zip") = false →
  form_target_crs req = Some target_crs →
  target_crs ≠ "" →
  crs_valid L target_crs = false →
  reproject_api L req st
  = (st, Ok (Json 400 [("error", "Invalid target CRS: '" +:+ target_crs
                                  +:+ "'. Example: EPSG:4326")])).
Proof.
  intros Hfile Hname Ht Hne Hbad. unfold reproject_api.
  rewrite Hfile, Hname, Ht. destruct target_crs as [|a t]; [done|].
  by rewrite Hbad.
Qed.

(** The handler is its checks, then the processing of the upload. *)
Lemma reproject_api_split (L : libs) (req : request) :
  reproject_api L req
  = match upload_checks L req with
    | inl resp => ret resp
    | inr (file, target_crs) => process_upload L req file target_crs
    end.
Proof.
  unfold reproject_api, upload_checks, process_upload.
  destruct (files_file req) as [file|]; [|done].
  destruct (_ || _); [done|].
  destruct (form_target_crs req) as [[|c t]|]; [done| |done].
  by destruct (negb _).
Qed.

(** C2, as amended.  A request whose target CRS does not parse fails one
    of the four checks of the handler.  The answer is status 400 with the
    message of the first check that fails, in the order file field, file
    name, target field, parse.  It is the answer of the checks, which look
    at the request only: the processing of the upload, whose first step
    makes the upload scratch directory, is not reached, the handler is the
    program that returns the answer, and the state is unchanged.  When the
    request passes the three checks before the parse, the failing check is
    the parse and the message names the target CRS and gives the
    example. *)
Theorem unparsable_target_rejected_first (L : libs) (req : request)
    (target_crs : string) :
  form_target_crs req = Some target_crs →
  crs_valid L target_crs = false →
  ∃ c,
    check_fails L req c = true
    ∧ (∀ c', rank c' < rank c → check_fails L req c' = false)
    ∧ upload_checks L req = inl (Json 400 [("error", check_message req c)])
    ∧ reproject_api L req = ret (Json 400 [("error", check_message req c)])
    ∧ (∀ st, reproject_api L req st
             = (st, Ok (Json 400 [("error", check_message req c)])))
    ∧ (check_fails L req FileField = false →
       check_fails L req FileName = false →
       check_fails L req TargetField = false →
       c = TargetParses
       ∧ check_message req c
         = "Invalid target CRS: '" +:+ target_crs +:+ "'. Example: EPSG:4326"
       ∧ Str.contains (check_message req c) target_crs = true
       ∧ Str.contains (check_message req c) "Example: EPSG:4326" = true).
Proof.
  intros Ht Hbad.
  assert (∀ c, upload_checks L req = inl (Json 400 [("error", check_message req c)]) →
            reproject_api L req = ret (Json 400 [("error", check_message req c)])
            ∧ ∀ st, reproject_api L req st
                    = (st, Ok (Json 400 [("error", check_message req c)]))) as Hrun.
  { intros c Hc. rewrite reproject_api_split, Hc. done. }
  assert (∀ c, rank c < 0 → check_fails L req c = false) as H0 by (intros c; lia).
  unfold upload_checks, check_fails in *. rewrite Ht in *.
  destruct (files_file req) as [file|] eqn:Hfile.
  2:{ exists FileField. cbn [rank check_message] in *.
      split; [done|]. split; [done|]. split; [done|].
      destruct (Hrun FileField eq_refl). done. }
  destruct (String.eqb (filename file) ""
            || negb (Str.endswith (Str.lower (filename file)) ".zip")) eqn:Hname.
  { exists FileName. cbn [rank check_message] in *.
    split; [done|]. split.
    { intros [] Hlt; cbn [rank] in Hlt; first [lia|done]. }
    split; [done|]. destruct (Hrun FileName eq_refl). done. }
  destruct target_crs as [|a t].
  { exists TargetField. cbn [rank check_message] in *.
    split; [done|]. split.
    { intros [] Hlt; cbn [rank] in Hlt; first [lia|done]. }
    split; [done|]. destruct (Hrun TargetField eq_refl). done. }
  assert (check_message req TargetParses
          = "Invalid target CRS: '" +:+ String a t +:+ "'. Example: EPSG:4326") as Hmsg
    by (cbn [check_message]; by rewrite Ht).
  exists TargetParses. rewrite Hbad in *. cbn [rank negb] in *.
  split; [done|]. split.
  { intros [] Hlt; cbn [rank] in Hlt; first [lia|done]. }
  destruct (Hrun TargetParses) as [Hprog Hall]; [by rewrite Hmsg|].
  split; [by rewrite Hmsg|]. split; [done|]. split; [done|]. intros _ _ _.
  split; [done|]. split; [done|]. rewrite Hmsg. split.
  - apply contains_app.
  - replace ("Invalid target CRS: '" +:+ String a t +:+ "'. Example: EPSG:4326")
      with (("Invalid target CRS: '" +:+ String a t +:+ "'. ")
              +:+ "Example: EPSG:4326" +:+ "")
      by (by rewrite !app_assoc_s).
    apply contains_app.
Qed.

Lemma rmtree_raises_unchanged (p : string) (s s' : fs) (e : exn) :
  rmtree p s = (s', Raise e) → s' = s.
Proof.
  unfold rmtree. destruct (fs_lookup p s) as [[|]|]; [|congruence..].
  destruct (remove_in _ s); congruence.
Qed.

Lemma rmtree_each_raises (dirs : list string) (s s' : fs) (e : exn) :
  rmtree_each dirs s = (s', Raise e) →
  ∃ removed d rest,
    dirs = removed ++ d :: rest
    ∧ rmtree_each removed s = (s', Ok tt)
    ∧ rmtree d s' = (s', Raise e).
Proof.
  revert s. induction dirs as [|d dirs IH]; intros s; [done|].
  cbn [rmtree_each]. unfold bind at 1.
  destruct (rmtree d s) as [s1 [[]|e1]] eqn:Hd.
  - intros (removed & d' & rest & -> & Hrem & Hfail)%IH.
    exists (d :: removed), d', rest. split; [done|]. split; [|done].
    cbn [rmtree_each]. unfold bind. by rewrite Hd.
  - intros [= <- <-]. pose proof (rmtree_raises_unchanged _ _ _ _ Hd) as ->.
    by exists [], d, dirs.
Qed.

(** C10.  When the removal of a scratch directory raises during the
    callback, the error is printed and not raised again, the directories
    listed before the failing one are removed and the others are left as
    they are, and the identifier is no longer in the registry, so that a
    later download of it is answered with 404. *)
Theorem cleanup_unregisters_when_removal_fails (file_id : string)
    (file_data : transfer) (st : app) (d' : fs) (e : exn) :
  rmtree_each (temp_dirs file_data) (disk st) = (d', Raise e) →
  let st' := fst (cleanup_files file_id file_data st) in
  (∃ removed d rest,
     temp_dirs file_data = removed ++ d :: rest
     ∧ rmtree_each removed (disk st) = (d', Ok tt)
     ∧ rmtree d d' = (d', Raise e))
  ∧ disk st' = d'
  ∧ stdout st' = stdout st ++ ["Error during cleanup: " +:+ str e]
  ∧ temp_file_store st' = delete file_id (temp_file_store st)
  ∧ temp_file_store st' !! file_id = None
  ∧ (snd (cleanup_files file_id file_data st) = Ok tt
     ∨ snd (cleanup_files file_id file_data st) = Raise (KeyError ("'" +:+ file_id +:+ "'")))
  ∧ download_file file_id st'
    = (st', Ok (Json 404 [("error", "File not found or has expired")], None)).
Proof.
  intros Hrm. split; [by apply rmtree_each_raises|].
  assert (∀ st0 : app, temp_file_store st0 !! file_id = None →
            download_file file_id st0
            = (st0, Ok (Json 404 [("error", "File not found or has expired")], None)))
    as Hmiss.
  { intros st0 H0. unfold download_file, bind, gets. by rewrite H0. }
  unfold cleanup_files, bind, try_except, on_disk, print, del_store.
  rewrite Hrm. simpl.
  destruct (temp_file_store st !! file_id) as [r|] eqn:Hid; simpl.
  - rewrite lookup_delete_eq. repeat split; auto.
    apply Hmiss. simpl. apply lookup_delete_eq.
  - rewrite delete_id by done. repeat split; auto.
Qed.

(** ** [splitext] below a directory *)

Lemma rfind_sep_none (p : string) : Str.has_sep p = false → Str.rfind "/" p = None.
Proof.
  induction p as [|c p IH]; [done|]. simpl.
  intros [Hc Hp]%orb_false_elim. rewrite (IH Hp). unfold Str.is_sep in Hc.
  by rewrite Hc.
Qed.

Lemma rfind_sep_some (p : string) :
  Str.has_sep p = true → ∃ i, Str.rfind "/" p = Some i.
Proof.
  induction p as [|c p IH]; [done|]. simpl.
  destruct (Str.rfind "/" p) as [i|]; [eauto|].
  destruct (Str.has_sep p); [by destruct IH|]. rewrite orb_false_r.
  unfold Str.is_sep. intros ->. eauto.
Qed.

Lemma splitext_cons_sep (c : ascii) (p : string) :
  Str.has_sep p = true →
  Path.splitext (String c p)
  = (String c (fst (Path.splitext p)), snd (Path.splitext p)).
Proof.
  intros [i Hi]%rfind_sep_some. unfold Path.splitext. cbn [Str.rfind].
  rewrite Hi. destruct (Str.rfind "." p) as [j|].
  - change (S (S i) <=? S j)%nat with (S i <=? j)%nat.
    change (String.substring (S (S i)) (S j - S (S i)) (String c p))
      with (String.substring (S i) (j - S i) p).
    by destruct ((S i <=? j)%nat && _).
  - destruct (Ascii.eqb c "."); [|done].
    by change (S (S i) <=? 0)%nat with false.
Qed.

Lemma splitext_sep_plain (first : string) :
  Str.has_sep first = false →
  Path.splitext ("/" +:+ first)
  = ("/" +:+ fst (Path.splitext first), snd (Path.splitext first)).
Proof.
  intros Hi%rfind_sep_none. unfold Path.splitext.
  rewrite app_cons, app_nil_l. cbn [Str.rfind]. rewrite Hi.
  destruct (Str.rfind "." first) as [j|]; [|done].
  change (Ascii.eqb "/" "/") with true. cbv iota.
  change (1 <=? S j)%nat with true. change (0 <=? j)%nat with true.
  change (String.substring 1 (S j - 1) (String "/" first))
    with (String.substring 0 (j - 0) first).
  by destruct (true && _).
Qed.

Lemma splitext_app_sep (a first : string) :
  Str.has_sep first = false →
  Path.splitext (a +:+ "/" +:+ first)
  = (a +:+ "/" +:+ fst (Path.splitext first), snd (Path.splitext first)).
Proof.
  intros Hf. induction a as [|c a IH].
  - rewrite !app_nil_l. by apply splitext_sep_plain.
  - rewrite (app_cons c a), (app_cons c a). rewrite splitext_cons_sep
      by (by rewrite has_sep_app, has_sep_sep, orb_true_r).
    by rewrite IH.
Qed.

Lemma has_sep_substring (n m : nat) (s : string) :
  Str.has_sep s = false → Str.has_sep (String.substring n m s) = false.
Proof.
  revert n m. induction s as [|c s IH]; intros n m.
  - by destruct n, m.
  - simpl. intros [Hc Hs]%orb_false_elim.
    destruct n as [|n]; [destruct m as [|m]; [done|]|]; simpl.
    + rewrite Hc. by apply IH.
    + by apply IH.
Qed.

Lemma has_sep_splitext (p : string) :
  Str.has_sep p = false → Str.has_sep (fst (Path.splitext p)) = false.
Proof.
  intros Hp. unfold Path.splitext.
  destruct (Str.rfind "." p) as [j|]; [|done].
  destruct (_ && _); [|done]. by apply has_sep_substring.
Qed.

Lemma nonempty_app_r (a b : string) : b ≠ "" → a +:+ b ≠ "".
Proof. intros Hb. destruct a as [|c a]; [exact Hb|]. by rewrite app_cons. Qed.

Lemma path_exists_child (s : fs) (name : string) (es : list (string * node)) :
  Str.has_sep name = false → name ≠ "" →
  path_exists (fresh_name s +:+ "/" +:+ name) (s ++ [(fresh_name s, Dir es)])
  = has_child name es.
Proof.
  intros Hs Hn. unfold path_exists, fs_lookup, has_child.
  rewrite components_app_sep, components_fresh_name, components_plain by done.
  cbn [Datatypes.app]. rewrite lookup_in_last by apply assoc_fresh_name.
  simpl. by destruct (assoc name es) as [[|]|].
Qed.

Lemma filter_ext_in {A} (P Q : A → Prop) `{∀ x, Decision (P x)}
    `{∀ x, Decision (Q x)} (l : list A) :
  (∀ x, x ∈ l → P x ↔ Q x) → filter P l = filter Q l.
Proof.
  induction l as [|x l IH]; [done|]. intros Hl.
  rewrite !filter_cons. rewrite IH by (intros y Hy; apply Hl; by right).
  pose proof (Hl x (list_elem_of_here _ _)) as Hx.
  destruct (decide (P x)) as [HP|HP], (decide (Q x)) as [HQ|HQ]; tauto || done.
Qed.

Lemma missing_exts_below (s : fs) (first : string) (es : list (string * node)) :
  Str.has_sep first = false →
  missing_exts (fst (Path.splitext (Path.join (fresh_name s) first)))
    (s ++ [(fresh_name s, Dir es)])
  = filter (λ ext, has_child (fst (Path.splitext first) +:+ ext) es = false)
      required_exts.
Proof.
  intros Hf. rewrite join_fresh_name by by apply startswith_sep_plain.
  rewrite splitext_app_sep by done. cbn [fst]. unfold missing_exts.
  apply filter_ext_in. intros ext Hext.
  rewrite app_assoc_s, app_assoc_s. rewrite path_exists_child; [done| |].
  - rewrite has_sep_app, has_sep_splitext by done.
    unfold required_exts in Hext.
    repeat (apply elem_of_cons in Hext as [->|Hext]; [done|]).
    by apply elem_of_nil in Hext.
  - apply nonempty_app_r. unfold required_exts in Hext.
    repeat (apply elem_of_cons in Hext as [->|Hext]; [done|]).
    by apply elem_of_nil in Hext.
Qed.

Lemma join_elem (sep x : string) (l : list string) :
  x ∈ l → ∃ a b, Str.join sep l = a +:+ x +:+ b.
Proof.
  induction l as [|y l IH]; [by intros ?%elem_of_nil|].
  intros [->|Hx]%elem_of_cons.
  - destruct l as [|z l].
    + exists "", "". by rewrite app_nil_r_s.
    + exists "", (sep +:+ Str.join sep (z :: l)). done.
  - destruct (IH Hx) as (a & b & Hab). destruct l as [|z l].
    + by apply elem_of_nil in Hx.
    + exists (y +:+ sep +:+ a), b. cbn [Str.join] in *. rewrite Hab.
      by rewrite !app_assoc_s.
Qed.

(** The validator on an archive whose first listed [.shp] entry lacks a
    sidecar. *)
Lemma incomplete_shapefile_run (zip_path : string) (s : fs)
    (ms : list (string * option node)) (es : list (string * node))
    (first : string) (rest : list string) :
  Str.endswith (Str.lower zip_path) ".zip" = true →
  fs_lookup zip_path s = Some (File (Zip ms)) →
  unpack (fresh_name s) ms [] = (es, Ok tt) →
  shp_files (map fst es) = first :: rest →
  Str.has_sep first = false →
  (∃ ext, ext ∈ [".shx"; ".dbf"; ".prj"]
          ∧ has_child (fst (Path.splitext first) +:+ ext) es = false) →
  ∃ msg,
    check_shapefile_completeness zip_path s = (s, Raise (FileNotFoundError msg))
    ∧ msg = "Incomplete shapefile. Missing: " +:+
            Str.join ", "
              (filter (λ ext, has_child (fst (Path.splitext first) +:+ ext) es = false)
                 [".shp"; ".shx"; ".dbf"; ".prj"])
    ∧ ∀ ext, ext ∈ [".shx"; ".dbf"; ".prj"] →
             has_child (fst (Path.splitext first) +:+ ext) es = false →
             Str.contains msg ext = true.
Proof.
  intros Hzip Hfile Hun Hshp Hsep (ext0 & Hin0 & Hmiss0).
  set (missing := filter (λ ext, has_child (fst (Path.splitext first) +:+ ext) es = false)
                    [".shp"; ".shx"; ".dbf"; ".prj"]).
  assert (∀ ext, ext ∈ [".shx"; ".dbf"; ".prj"] →
            has_child (fst (Path.splitext first) +:+ ext) es = false →
            ext ∈ missing) as Hall.
  { intros ext Hin Hmiss. apply list_elem_of_filter. split; [done|]. by right. }
  exists ("Incomplete shapefile. Missing: " +:+ Str.join ", " missing).
  split; [|split; [done|]].
  - rewrite (check_shapefile_completeness_run _ _ ms Hzip Hfile). cbv zeta.
    rewrite Hun, Hshp. rewrite missing_exts_below by done.
    fold required_exts in missing. fold missing.
    destruct missing as [|m1 m] eqn:Hm; [|done].
    specialize (Hall ext0 Hin0 Hmiss0). by apply elem_of_nil in Hall.
  - intros ext Hin Hmiss. destruct (join_elem ", " ext missing (Hall ext Hin Hmiss))
      as (a & b & ->).
    rewrite <- app_assoc_s. apply contains_app.
Qed.

Lemma set_child_names (name : string) (x : node) (es : list (string * node))
    (n : string) :
  n ∈ map fst (set_child name x es) → n = name ∨ n ∈ map fst es.
Proof.
  induction es as [|[m y] es IH]; simpl.
  - intros [->|[]%elem_of_nil]%elem_of_cons. by left.
  - destruct (String.eqb_spec m name) as [->|Hne]; simpl.
    + intros [->|H]%elem_of_cons; [by left|]. right. by right.
    + intros [->|H]%elem_of_cons; [right; by left|].
      destruct (IH H) as [->|H']; [by left|]. right. by right.
Qed.

(** The names that an extraction leaves are names of members, or were
    there before. *)
Lemma unpack_names (dest : string) (ms : list (string * option node))
    (es es' : list (string * node)) (r : result unit) (n : string) :
  unpack dest ms es = (es', r) →
  n ∈ map fst es' → n ∈ map fst es ∨ n ∈ map fst ms.
Proof.
  revert es. induction ms as [|[name [x|]] ms IH]; intros es; cbn [unpack].
  - intros [= <- _]. by left.
  - assert (unpack dest ms (set_child name x es) = (es', r) →
            n ∈ map fst es' → n ∈ map fst es ∨ n ∈ map fst ((name, Some x) :: ms))
      as Hstep.
    { intros Hrun Hn. destruct (IH _ Hrun Hn) as [H|H].
      - destruct (set_child_names _ _ _ _ H) as [->|H']; [right; by left|by left].
      - right. by right. }
    destruct x as [sub|data]; [done|].
    destruct (assoc name es) as [[|]|]; [|done..].
    intros [= <- _]. by left.
  - intros [= <- _]. by left.
Qed.

Lemma flat_names (ms : list (string * option node)) (n : string) :
  flat ms = true → n ∈ map fst ms → ordinary n = true.
Proof.
  unfold flat. induction ms as [|[m x] ms IH]; simpl; [by intros _ ?%elem_of_nil|].
  intros [[Hm _]%andb_true_iff Hms]%andb_true_iff [->|Hn]%elem_of_cons; [done|].
  by apply IH.
Qed.

Lemma ordinary_plain (name : string) : ordinary name = true → plain name = true.
Proof.
  unfold ordinary. by intros [[[[H _]%andb_true_iff _]%andb_true_iff _]%andb_true_iff _]%andb_true_iff.
Qed.

(** The entries of an extracted flat archive have ordinary names. *)
Lemma flat_unpacked (dest : string) (ms : list (string * option node))
    (es : list (string * node)) (r : result unit) (n : string) :
  flat ms = true → unpack dest ms [] = (es, r) → n ∈ map fst es →
  ordinary n = true.
Proof.
  intros Hflat Hun Hn. destruct (unpack_names _ _ _ _ _ _ Hun Hn) as [H|H].
  - by apply elem_of_nil in H.
  - by apply (flat_names ms).
Qed.

Lemma only_shp_plain (dest : string) (ms : list (string * option node))
    (es : list (string * node)) (r : result unit) (first : string) (rest : list string) :
  flat ms = true → unpack dest ms [] = (es, r) →
  shp_files (map fst es) = first :: rest →
  Str.has_sep first = false.
Proof.
  intros Hflat Hun Hshp.
  assert (first ∈ shp_files (map fst es)) as Hin by (rewrite Hshp; by left).
  apply list_elem_of_filter in Hin as [_ Hin].
  pose proof (flat_unpacked _ _ _ _ _ Hflat Hun Hin) as Hord.
  apply ordinary_plain in Hord. unfold plain in Hord.
  by apply andb_true_iff in Hord as [?%negb_true_iff _].
Qed.

(** C3, as amended.  An archive of regular files with ordinary names is
    extracted, exactly one entry of the scratch directory has a name that
    ends in [.shp], whatever the case of its letters, and one of [.shx],
    [.dbf], [.prj] is not there for the base name of that entry.  Then
    the validator raises [FileNotFoundError], the message is [Incomplete
    shapefile. Missing: ] followed by all the missing extensions separated
    by commas, each missing sidecar extension occurs in the message, and
    the scratch directory is gone. *)
Theorem incomplete_shapefile_names_every_missing (zip_path : string) (s : fs)
    (ms : list (string * option node)) (es : list (string * node))
    (first : string) :
  Str.endswith (Str.lower zip_path) ".zip" = true →
  fs_lookup zip_path s = Some (File (Zip ms)) →
  flat ms = true →
  unpack (fresh_name s) ms [] = (es, Ok tt) →
  shp_files (map fst es) = [first] →
  (∃ ext, ext ∈ [".shx"; ".dbf"; ".prj"]
          ∧ has_child (fst (Path.splitext first) +:+ ext) es = false) →
  ∃ msg,
    check_shapefile_completeness zip_path s = (s, Raise (FileNotFoundError msg))
    ∧ msg = "Incomplete shapefile. Missing: " +:+
            Str.join ", "
              (filter (λ ext, has_child (fst (Path.splitext first) +:+ ext) es = false)
                 [".shp"; ".shx"; ".dbf"; ".prj"])
    ∧ ∀ ext, ext ∈ [".shx"; ".dbf"; ".prj"] →
             has_child (fst (Path.splitext first) +:+ ext) es = false →
             Str.contains msg ext = true.
Proof.
  intros Hzip Hfile Hflat Hun Hshp Hmiss.
  apply (incomplete_shapefile_run zip_path s ms es first []); try done.
  by apply (only_shp_plain (fresh_name s) ms es (Ok tt) first []).
Qed.

(** The view function answers a registered identifier whose archive is on
    disk with the archive and the callback; once the callback has run, the
    identifier is answered with 404. *)
Lemma served_once_when_on_disk (file_id : string) (file_data : transfer)
    (data : fdata) (st : app) :
  temp_file_store st !! file_id = Some file_data →
  fs_lookup (path file_data) (disk st) = Some (File data) →
  download_file file_id st
  = (st, Ok (Attachment 200 (Path.basename (path file_data)) data, Some file_data))
  ∧ let st' := fst (cleanup_files file_id file_data st) in
    temp_file_store st' = delete file_id (temp_file_store st)
    ∧ download_file file_id st'
      = (st', Ok (Json 404 [("error", "File not found or has expired")], None)).
Proof.
  intros Hid Hfile. split.
  - unfold download_file, bind, gets, path_exists, send_file, ret.
    rewrite Hid. simpl. rewrite Hfile. simpl. by rewrite Hfile.
  - assert (temp_file_store (fst (cleanup_files file_id file_data st))
            = delete file_id (temp_file_store st)) as Hdel.
    { unfold cleanup_files, bind, try_except, on_disk, print, del_store.
      destruct (rmtree_each (temp_dirs file_data) (disk st)) as [d [[]|e]]; simpl;
        by rewrite Hid. }
    cbv zeta. split; [done|].
    unfold download_file, bind, gets. by rewrite Hdel, lookup_delete_eq.
Qed.

(** ** What a successful upload leaves behind *)

Lemma assoc_extends_fresh (s s' : fs) : extends s s' → assoc (fresh_name s') s = None.
Proof.
  intros Hext. destruct (assoc (fresh_name s') s) as [x|] eqn:Hx; [|done].
  destruct (Hext (fresh_name s')) as [Hsome _].
  destruct Hsome as [y Hy]; [by rewrite Hx|]. by rewrite assoc_fresh_name in Hy.
Qed.

Lemma path_exists_fresh_name (s0 s : fs) :
  path_exists (fresh_name s0) s
  = match assoc (fresh_name s0) s with Some _ => true | None => false end.
Proof.
  unfold path_exists, fs_lookup. rewrite components_fresh_name. simpl.
  by destruct (assoc (fresh_name s0) s) as [[|]|].
Qed.

Section Uploads.

Context (L : libs).

Lemma reproject_shapefile_summary (zip_path target_crs : string) (s s' : fs)
    (out d_in d_out : string) :
  reproject_shapefile L zip_path target_crs s = (s', Ok (out, d_in, d_out)) →
  ∃ s3,
    d_in = fresh_name s
    ∧ d_out = fresh_name s3
    ∧ extends s s3
    ∧ is_Some (assoc d_in s3)
    ∧ extends s3 s'
    ∧ is_Some (assoc d_out s')
    ∧ Str.has_sep (output_name target_crs) = false
    ∧ out = d_out +:+ "/" +:+ output_name target_crs.
Proof.
  intros Hrun.
  destruct (reproject_shapefile_returns _ _ _ _ _ _ _ _ Hrun)
    as (s1 & shp_path & Hcheck & Htry).
  destruct (check_shapefile_completeness_returns _ _ _ _ _ Hcheck)
    as (ms & es & first & rest & _ & _ & Hd & _ & Hs1 & _).
  destruct (reproject_try_returns _ _ _ _ _ _ _ _ _ Htry)
    as (g & g' & s2 & s3 & files & _ & _ & _ & Hmk & Hwr & _ & Hout & Hpath
        & Hsep & _ & Hs').
  subst d_in d_out out s1.
  assert (extends (s ++ [(fresh_name s, Dir es)]) s3) as Hext.
  { eapply extends_trans.
    - pose proof (keeps_makedirs (Path.join (fresh_name s) "reprojected")
                    (s ++ [(fresh_name s, Dir es)])) as H.
      by rewrite Hmk in H.
    - pose proof (keeps_gdf_to_file L g'
        (Path.join (Path.join (fresh_name s) "reprojected") (Path.basename shp_path))
        s2) as H.
      by rewrite Hwr in H. }
  exists s3. split; [done|]. split; [done|]. split.
  { eapply extends_trans; [|done]. apply extends_app. }
  split.
  { destruct (Hext (fresh_name s)) as [Hsome _]. apply Hsome.
    rewrite assoc_app_last by apply assoc_fresh_name. eauto. }
  split; [rewrite Hs'; apply extends_app|]. split.
  { rewrite Hs', assoc_app_last by apply assoc_fresh_name. eauto. }
  split; [done|]. by rewrite join_fresh_name.
Qed.

Lemma reproject_api_ok (req : request) (st st' : app) (body : list (string * string)) :
  reproject_api L req st = (st', Ok (Json 200 body)) →
  ∃ file target_crs s1 out d_in d_out,
    files_file req = Some file
    ∧ form_target_crs req = Some target_crs
    ∧ extends (disk st ++ [(fresh_name (disk st), Dir [])]) s1
    ∧ reproject_shapefile L
        (Path.join (fresh_name (disk st)) (secure_filename L (filename file)))
        target_crs s1 = (disk st', Ok (out, d_in, d_out))
    ∧ temp_file_store st'
      = <[Path.basename out :=
            {| path := out;
               temp_dirs := [fresh_name (disk st); d_in; d_out] |}]>
          (temp_file_store st)
    ∧ body = [("message", "Shapefile re-projected successfully");
              ("download_link",
               host_url req +:+ "download_file/" +:+ Path.basename out)].
Proof.
  unfold reproject_api.
  destruct (files_file req) as [file|]; [|done].
  destruct (_ || _); [done|].
  destruct (form_target_crs req) as [[|c t]|]; [done| |done].
  destruct (negb _); [done|].
  set (target_crs := String c t). set (u := fresh_name (disk st)).
  unfold bind at 1. unfold on_disk at 1, mkdtemp. cbn [disk temp_file_store stdout].
  fold u. unfold bind at 1. unfold on_disk at 1. cbn [disk temp_file_store stdout].
  pose proof (keeps_write_file (Path.join u (secure_filename L (filename file)))
                (payload file) (disk st ++ [(u, Dir [])])) as Hkeep.
  destruct (write_file _ _ _) as [s1 [[]|e]]; [|done]. simpl in Hkeep.
  unfold reproject_and_register, try_except.
  unfold bind at 1. unfold on_disk at 1. cbn [disk temp_file_store stdout].
  destruct (reproject_shapefile L _ target_crs s1) as [s2 [[[out d_in] d_out]|e]] eqn:Hrun.
  - unfold bind, register, ret. simpl. intros [= <- <-].
    exists file, target_crs, s1, out, d_in, d_out. done.
  - destruct e; unfold bind, on_disk, ret; simpl;
      by destruct (rmtree u s2) as [? [|]].
Qed.

End Uploads.

Lemma reproject_api_dirs (L : libs) (req : request) (st st' : app)
    (body : list (string * string)) :
  reproject_api L req st = (st', Ok (Json 200 body)) →
  ∃ target_crs record,
    form_target_crs req = Some target_crs
    ∧ temp_file_store st'
      = <[output_name target_crs := record]> (temp_file_store st)
    ∧ body = [("message", "Shapefile re-projected successfully");
              ("download_link",
               host_url req +:+ "download_file/" +:+ output_name target_crs)]
    ∧ length (temp_dirs record) = 3
    ∧ extends (disk st) (disk st')
    ∧ ∀ d, d ∈ temp_dirs record →
           (∃ s0, d = fresh_name s0)
           ∧ assoc d (disk st) = None
           ∧ is_Some (assoc d (disk st')).
Proof.
  intros Hrun.
  destruct (reproject_api_ok _ _ _ _ _ Hrun)
    as (file & target_crs & s1 & out & d_in & d_out & _ & Ht & Hs1 & Hrep & Hstore & Hbody).
  destruct (reproject_shapefile_summary _ _ _ _ _ _ _ _ Hrep)
    as (s3 & Hin & Hout & H13 & Hin3 & H3' & Hout' & Hsep & Hpath).
  assert (Path.basename out = output_name target_crs) as Hbase
    by (rewrite Hpath; by apply basename_join_plain).
  rewrite Hbase in Hstore, Hbody.
  assert (extends (disk st) s1) as H01
    by (eapply extends_trans; [apply extends_app|done]).
  assert (extends (disk st) s3) as H03 by by eapply extends_trans.
  assert (extends s1 (disk st')) as H1' by by eapply extends_trans.
  eexists target_crs, _. split; [done|]. split; [done|]. split; [done|].
  split; [done|]. split; [by eapply extends_trans|].
  cbn [temp_dirs]. intros d Hd.
  apply elem_of_cons in Hd as [->|Hd]; [|apply elem_of_cons in Hd as [->|Hd];
    [|apply elem_of_cons in Hd as [->|Hd]; [|by apply elem_of_nil in Hd]]].
  - split; [eauto|]. split; [apply assoc_fresh_name|].
    destruct (H1' (fresh_name (disk st))) as [Hsome _]. apply Hsome.
    destruct (Hs1 (fresh_name (disk st))) as [Hsome1 _]. apply Hsome1.
    rewrite assoc_app_last by apply assoc_fresh_name. eauto.
  - subst d_in. split; [eauto|]. split; [by apply assoc_extends_fresh|].
    destruct (H3' (fresh_name s1)) as [Hsome _]. by apply Hsome.
  - subst d_out. split; [eauto|]. split; [by apply assoc_extends_fresh|]. done.
Qed.

(** Two successful uploads with the same target CRS, in a state whose
    records list only directories that are on disk. *)
Lemma same_target_replaces_when_on_disk (L : libs) (req1 req2 : request)
    (st st1 st2 : app) (body1 body2 : list (string * string)) (target_crs : string) :
  store_on_disk st →
  form_target_crs req1 = Some target_crs →
  form_target_crs req2 = Some target_crs →
  reproject_api L req1 st = (st1, Ok (Json 200 body1)) →
  reproject_api L req2 st1 = (st2, Ok (Json 200 body2)) →
  let file_id := "reprojected_" +:+ Str.remove_colons target_crs +:+ ".zip" in
  ∃ record1 record2,
    body1 = [("message", "Shapefile re-projected successfully");
             ("download_link", host_url req1 +:+ "download_file/" +:+ file_id)]
    ∧ body2 = [("message", "Shapefile re-projected successfully");
               ("download_link", host_url req2 +:+ "download_file/" +:+ file_id)]
    ∧ temp_file_store st1 !! file_id = Some record1
    ∧ temp_file_store st2 !! file_id = Some record2
    ∧ length (temp_dirs record1) = 3
    ∧ ∀ d, d ∈ temp_dirs record1 →
           path_exists d (disk st2) = true
           ∧ ∀ id record, temp_file_store st2 !! id = Some record →
                          d ∉ temp_dirs record.
Proof.
  intros Hwf Ht1 Ht2 Hrun1 Hrun2 file_id.
  destruct (reproject_api_dirs _ _ _ _ _ Hrun1)
    as (t1 & r1 & Ht1' & Hstore1 & Hbody1 & Hlen1 & Hext1 & Hdirs1).
  destruct (reproject_api_dirs _ _ _ _ _ Hrun2)
    as (t2 & r2 & Ht2' & Hstore2 & Hbody2 & Hlen2 & Hext2 & Hdirs2).
  rewrite Ht1 in Ht1'. injection Ht1' as <-.
  rewrite Ht2 in Ht2'. injection Ht2' as <-.
  fold (output_name target_crs) in file_id. fold file_id in Hstore1, Hstore2, Hbody1, Hbody2.
  exists r1, r2. split; [done|]. split; [done|].
  split; [by rewrite Hstore1, lookup_insert_eq|].
  split; [by rewrite Hstore2, lookup_insert_eq|].
  split; [done|]. intros d Hd.
  destruct (Hdirs1 d Hd) as ([s0 ->] & Hnew & Hthere). split.
  - rewrite path_exists_fresh_name.
    destruct (Hext2 (fresh_name s0)) as [Hsome _].
    by destruct (Hsome Hthere) as [x ->].
  - intros id r Hid Hin. rewrite Hstore2 in Hid.
    destruct (decide (file_id = id)) as [<-|Hne].
    + rewrite lookup_insert_eq in Hid. injection Hid as <-.
      destruct (Hdirs2 _ Hin) as (_ & Hnew2 & _).
      rewrite Hnew2 in Hthere. by destruct Hthere.
    + rewrite lookup_insert_ne in Hid by done. rewrite Hstore1 in Hid.
      rewrite lookup_insert_ne in Hid by done.
      pose proof (Hwf _ _ _ Hid Hin) as Hex.
      rewrite path_exists_fresh_name, Hnew in Hex. done.
Qed.

(** ** An upload that succeeds, step by step *)

Lemma plain_spec (name : string) :
  plain name = true ↔ Str.has_sep name = false ∧ name ≠ "".
Proof.
  unfold plain. rewrite andb_true_iff, !negb_true_iff, String.eqb_neq. done.
Qed.

Lemma lower_app (a b : string) : Str.lower (a +:+ b) = Str.lower a +:+ Str.lower b.
Proof. induction a as [|c a IH]; [done|]. rewrite app_cons. simpl. by rewrite IH. Qed.

Lemma endswith_app (a b suf : string) :
  Str.endswith b suf = true → Str.endswith (a +:+ b) suf = true.
Proof.
  intros Hb. induction a as [|c a IH]; [done|].
  rewrite app_cons. cbn [Str.endswith]. rewrite IH.
  by destruct (String.eqb _ suf).
Qed.

Lemma has_sep_remove_colons (t : string) :
  Str.has_sep t = false → Str.has_sep (Str.remove_colons t) = false.
Proof.
  induction t as [|c t IH]; [done|]. simpl.
  intros [Hc Ht]%orb_false_elim. destruct (Str.is_colon c); [by apply IH|].
  simpl. by rewrite Hc, IH.
Qed.

Lemma has_sep_output_name (t : string) :
  Str.has_sep t = false → Str.has_sep (output_name t) = false.
Proof.
  intros Ht. unfold output_name. rewrite !has_sep_app.
  by rewrite has_sep_remove_colons.
Qed.

Lemma write_file_fresh_last (s : fs) (name : string) (data : fdata)
    (es : list (string * node)) :
  plain name = true →
  (∀ e, assoc name es ≠ Some (Dir e)) →
  write_file (fresh_name s +:+ "/" +:+ name) data (s ++ [(fresh_name s, Dir es)])
  = (s ++ [(fresh_name s, Dir (set_child name (File data) es))], Ok tt).
Proof.
  intros [Hsep Hne]%plain_spec Hfile. unfold write_file, fs_lookup.
  rewrite components_app_sep, components_fresh_name, components_plain by done.
  cbn [Datatypes.app]. rewrite lookup_in_last by apply assoc_fresh_name.
  rewrite put_in_last by apply assoc_fresh_name. simpl.
  destruct (assoc name es) as [[e|d]|] eqn:E; [by destruct (Hfile e)|done..].
Qed.

Lemma fs_lookup_fresh_child (s : fs) (name : string) (es : list (string * node)) :
  plain name = true →
  fs_lookup (fresh_name s +:+ "/" +:+ name) (s ++ [(fresh_name s, Dir es)])
  = assoc name es.
Proof.
  intros [Hsep Hne]%plain_spec. unfold fs_lookup.
  rewrite components_app_sep, components_fresh_name, components_plain by done.
  cbn [Datatypes.app]. rewrite lookup_in_last by apply assoc_fresh_name.
  simpl. by destruct (assoc name es) as [[|]|].
Qed.

Lemma components_below (s : fs) (sub name : string) :
  plain sub = true → plain name = true →
  Path.components ((fresh_name s +:+ "/" +:+ sub) +:+ "/" +:+ name)
  = [fresh_name s; sub; name].
Proof.
  intros [Hs1 Hs2]%plain_spec [Hn1 Hn2]%plain_spec.
  rewrite !components_app_sep, components_fresh_name.
  by rewrite !components_plain.
Qed.

Lemma join_below (s : fs) (sub name : string) :
  plain sub = true → plain name = true →
  Path.join (fresh_name s +:+ "/" +:+ sub) name
  = (fresh_name s +:+ "/" +:+ sub) +:+ "/" +:+ name.
Proof.
  intros [Hs1 Hs2]%plain_spec [Hn1 Hn2]%plain_spec. apply join_plain_eq.
  - by apply nonempty_app_r, nonempty_app_r.
  - rewrite endswith_sep_app by by apply nonempty_app_r.
    rewrite endswith_sep_app by done. by apply endswith_sep_plain.
  - by apply startswith_sep_plain.
Qed.

Lemma lookup_in_app_top (c : string) (cs : list string) (s t : list (string * node)) :
  is_Some (assoc c s) → lookup_in (c :: cs) (s ++ t) = lookup_in (c :: cs) s.
Proof. intros [x Hx]. simpl. by rewrite (assoc_app_some _ _ _ t Hx), Hx. Qed.

Section Below.

(** The state while the engine works below its input scratch directory:
    [d] is that directory, [sub] a directory in it, [W] what [sub] holds,
    [t] what was made at the top level since. *)
Context (s : fs) (sub : string) (es : list (string * node)).
Context (Hsub : plain sub = true) (Hnew : assoc sub es = None).

Let d := fresh_name s.
Let at_W (W : list (string * node)) : fs := s ++ [(d, Dir (es ++ [(sub, Dir W)]))].

Lemma lookup_below (name : string) (W : list (string * node)) (t : fs) :
  lookup_in [d; sub; name] (at_W W ++ t) = assoc name W.
Proof.
  unfold at_W. rewrite lookup_in_app_top
    by (rewrite assoc_app_last by apply assoc_fresh_name; eauto).
  rewrite lookup_in_last by apply assoc_fresh_name.
  rewrite lookup_in_cons, assoc_app_last by done.
  simpl. by destruct (assoc name W) as [[|]|].
Qed.

Lemma put_below (name : string) (x : node) (W : list (string * node)) :
  put_in [d; sub; name] x (at_W W) = Some (at_W (set_child name x W)).
Proof.
  unfold at_W. rewrite put_in_last by apply assoc_fresh_name.
  rewrite put_in_cons, assoc_app_last by done. simpl.
  by rewrite set_child_app_last.
Qed.

Lemma components_sub : Path.components (d +:+ "/" +:+ sub) = [d; sub].
Proof.
  apply plain_spec in Hsub as [H1 H2].
  rewrite components_app_sep. unfold d. rewrite components_fresh_name.
  by rewrite components_plain.
Qed.

Lemma makedirs_below :
  makedirs (d +:+ "/" +:+ sub) (s ++ [(d, Dir es)]) = (at_W [], Ok tt).
Proof.
  unfold makedirs. rewrite components_sub.
  rewrite makedirs_in_last by apply assoc_fresh_name.
  simpl. rewrite Hnew. simpl. by rewrite set_child_absent.
Qed.

Lemma store_in_below (name : string) (data : fdata) (W : list (string * node)) :
  (∀ e, assoc name W ≠ Some (Dir e)) →
  store_in (d +:+ "/" +:+ sub) name (File data) (at_W W)
  = (at_W (set_child name (File data) W), Ok tt).
Proof.
  intros Hfile. unfold store_in. rewrite components_sub. cbn [Datatypes.app].
  pose proof (lookup_below name W []) as Hl. rewrite app_nil_r in Hl.
  rewrite Hl, put_below.
  destruct (assoc name W) as [[e|]|]; [by destruct (Hfile e)|done..].
Qed.

Lemma write_files_below (files : list (string * fdata)) (W : list (string * node)) :
  (∀ n e, assoc n W ≠ Some (Dir e)) →
  write_files (d +:+ "/" +:+ sub) files (at_W W) = (at_W (stored files W), Ok tt)
  ∧ ∀ n e, assoc n (stored files W) ≠ Some (Dir e).
Proof.
  revert W. induction files as [|[name data] files IH]; intros W HW; [done|].
  cbn [write_files stored]. unfold bind. rewrite store_in_below by done.
  apply IH. intros n e. destruct (decide (name = n)) as [<-|Hne].
  - by rewrite assoc_set_child_eq.
  - rewrite assoc_set_child_ne by done. apply HW.
Qed.

Lemma listdir_below (W : list (string * node)) (t : fs) :
  listdir (d +:+ "/" +:+ sub) (at_W W ++ t) = (at_W W ++ t, Ok (map fst W)).
Proof.
  unfold listdir, fs_lookup. rewrite components_sub. unfold at_W.
  rewrite lookup_in_app_top
    by (rewrite assoc_app_last by apply assoc_fresh_name; eauto).
  rewrite lookup_in_last by apply assoc_fresh_name. simpl.
  by rewrite assoc_app_last.
Qed.

Lemma zip_collect_below (names : list string) (W : list (string * node)) (t : fs) :
  Forall (λ n, plain n = true) names →
  zip_collect (d +:+ "/" +:+ sub) names (at_W W ++ t) = zip_of W names.
Proof.
  induction 1 as [|name names Hname _ IH]; [done|].
  cbn [zip_collect zip_of]. unfold d. rewrite join_below by done.
  unfold fs_lookup. rewrite components_below by done.
  fold d. rewrite lookup_below.
  rewrite basename_join_plain by by apply plain_spec in Hname as [? ?].
  destruct (assoc name W) as [[|]|]; by rewrite IH.
Qed.

End Below.

Lemma plain_set_child (name : string) (x : node) (es : list (string * node)) :
  plain name = true →
  Forall (λ n, plain n = true) (map fst es) →
  Forall (λ n, plain n = true) (map fst (set_child name x es)).
Proof.
  intros Hname. induction es as [|[m y] es IH]; simpl.
  - by constructor.
  - intros [Hm Hes]%Forall_cons. destruct (String.eqb m name); simpl.
    + by constructor.
    + constructor; [done|]. by apply IH.
Qed.

Lemma plain_stored (files : list (string * fdata)) (es : list (string * node)) :
  forallb (λ f, plain (fst f)) files = true →
  Forall (λ n, plain n = true) (map fst es) →
  Forall (λ n, plain n = true) (map fst (stored files es)).
Proof.
  revert es. induction files as [|[name data] files IH]; intros es; [done|].
  simpl. intros [Hname Hfiles]%andb_true_iff Hes.
  apply IH; [done|]. by apply plain_set_child.
Qed.

Lemma filter_forallb {A} (f : A → bool) (l : list A) :
  forallb f l = true → filter (λ x, f x = false) l = [].
Proof.
  induction l as [|x l IH]; [done|]. simpl.
  intros [Hx Hl]%andb_true_iff. rewrite filter_cons_False by (by rewrite Hx).
  by apply IH.
Qed.

Lemma endswith_nonempty (s suf : string) :
  suf ≠ "" → Str.endswith s suf = true → s ≠ "".
Proof. intros Hsuf Hs ->. simpl in Hs. by destruct suf. Qed.

Lemma shp_files_head (names : list string) (first : string) (rest : list string) :
  shp_files names = first :: rest → first ≠ "".
Proof.
  intros Hshp. assert (first ∈ shp_files names) as Hin by (rewrite Hshp; by left).
  apply list_elem_of_filter in Hin as [Hin _].
  intros ->. done.
Qed.

Section EngineForward.

Context (L : libs).

(** The engine on an archive with a bundle at its top level, all steps
    succeeding. *)
Lemma reproject_shapefile_run (zip_path target_crs : string) (s : fs)
    (ms : list (string * option node)) (es : list (string * node))
    (first : string) (rest : list string) (g g' : gdf L)
    (files : list (string * fdata)) :
  Str.endswith (Str.lower zip_path) ".zip" = true →
  fs_lookup zip_path s = Some (File (Zip ms)) →
  Str.has_sep target_crs = false →
  unpack (fresh_name s) ms [] = (es, Ok tt) →
  shp_files (map fst es) = first :: rest →
  Str.has_sep first = false →
  forallb (λ ext, has_child (fst (Path.splitext first) +:+ ext) es) required_exts
  = true →
  has_child "reprojected" es = false →
  read_file L (fresh_name s +:+ "/" +:+ first) (s ++ [(fresh_name s, Dir es)]) = Ok g →
  has_crs L g = true →
  to_crs L g target_crs = Ok g' →
  to_file L g' ((fresh_name s +:+ "/" +:+ "reprojected") +:+ "/" +:+ first)
  = (files, None) →
  forallb (λ f, plain (fst f)) files = true →
  let W := stored files [] in
  let s5 := s ++ [(fresh_name s, Dir (es ++ [("reprojected", Dir W)]))] in
  reproject_shapefile L zip_path target_crs s
  = (s5 ++ [(fresh_name s5,
             Dir [(output_name target_crs, File (Zip (zip_of W (map fst W))))])],
     Ok (fresh_name s5 +:+ "/" +:+ output_name target_crs, fresh_name s, fresh_name s5)).
Proof.
  intros Hzip Hfile Hsep Hun Hshp Hfirst Hall Hnew Hread Hcrs Hto Hwr Hplain W s5.
  assert (plain first = true) as Hpf.
  { apply plain_spec. split; [done|]. by eapply shp_files_head. }
  assert (assoc "reprojected" es = None) as Hnew'.
  { unfold has_child in Hnew. by destruct (assoc "reprojected" es). }
  assert (plain (output_name target_crs) = true) as Hpo.
  { apply plain_spec. split; [by apply has_sep_output_name|done]. }
  unfold reproject_shapefile. unfold bind at 1. unfold try_except at 1.
  rewrite (check_shapefile_completeness_run _ _ ms Hzip Hfile). cbv zeta.
  rewrite Hun, Hshp. rewrite missing_exts_below by done.
  rewrite filter_forallb by done.
  rewrite join_fresh_name by by apply startswith_sep_plain.
  unfold try_except, reproject_try.
  unfold bind at 1. unfold call at 1. rewrite Hread, Hcrs. cbn [negb].
  unfold bind at 1. unfold call at 1. rewrite Hto.
  rewrite join_fresh_name by done.
  unfold bind at 1. rewrite makedirs_below by done.
  rewrite basename_join_plain by done.
  rewrite join_below by done.
  unfold bind at 1. unfold gdf_to_file. rewrite Hwr.
  rewrite dirname_join_plain by done.
  unfold bind at 1.
  destruct (write_files_below s "reprojected" es eq_refl Hnew' files [])
    as [Hfiles Honly]; [done|].
  rewrite Hfiles. unfold ret at 1. fold W. fold s5.
  unfold bind at 1. unfold mkdtemp at 1.
  rewrite join_fresh_name by by apply startswith_sep_plain; apply plain_spec in Hpo as [? ?].
  unfold bind at 1. rewrite write_file_fresh_last by done.
  cbn [set_child].
  unfold bind at 1. unfold s5 at 1.
  rewrite (listdir_below s "reprojected" es eq_refl Hnew' W).
  unfold bind at 1. unfold gets at 1. unfold s5 at 1.
  rewrite (zip_collect_below s "reprojected" es eq_refl Hnew')
    by (apply plain_stored; [done|constructor]).
  fold s5.
  unfold bind at 1. rewrite write_file_fresh_last; [|done|].
  - cbn [set_child]. by rewrite String.eqb_refl.
  - intros e. cbn [assoc]. by rewrite String.eqb_refl.
Qed.

End EngineForward.

Lemma reproject_api_checks_pass (L : libs) (req : request) (st : app)
    (file : upload) (target_crs : string) :
  files_file req = Some file →
  Str.endswith (Str.lower (filename file)) ".zip" = true →
  form_target_crs req = Some target_crs →
  target_crs ≠ "" →
  crs_valid L target_crs = true →
  reproject_api L req st
  = (let* temp_upload_dir := on_disk mkdtemp in
     let uploaded_file_path :=
       Path.join temp_upload_dir (secure_filename L (filename file)) in
     on_disk (write_file uploaded_file_path (payload file)) ;;;
     reproject_and_register L req temp_upload_dir uploaded_file_path target_crs) st.
Proof.
  intros Hfile Hzip Ht Hne Hvalid. unfold reproject_api. rewrite Hfile, Hzip, Ht.
  destruct (String.eqb_spec (filename file) "") as [Hempty|_];
    [by rewrite Hempty in Hzip|]. cbn [negb orb].
  destruct target_crs as [|c t]; [done|]. by rewrite Hvalid.
Qed.

Lemma has_sep_remove_colons_eq (t : string) :
  Str.has_sep (Str.remove_colons t) = Str.has_sep t.
Proof.
  induction t as [|c t IH]; [done|]. simpl.
  destruct (Str.is_colon c) eqn:Hc; simpl; rewrite IH; [|done].
  unfold Str.is_colon in Hc. apply Ascii.eqb_eq in Hc as ->. done.
Qed.

Lemma has_sep_output_name_eq (t : string) :
  Str.has_sep (output_name t) = Str.has_sep t.
Proof.
  unfold output_name. rewrite !has_sep_app, has_sep_remove_colons_eq.
  simpl. by rewrite orb_false_r.
Qed.

(** A complete upload, step by step, with the entries of every directory
    in the order in which they were made. *)
Lemma complete_upload_run (L : libs) (req : request) (st : app)
    (file : upload) (target_crs : string) (ms : list (string * option node))
    (es : list (string * node)) (first : string) (rest : list string)
    (g g' : gdf L) (files : list (string * fdata)) :
  files_file req = Some file →
  Str.endswith (Str.lower (filename file)) ".zip" = true →
  form_target_crs req = Some target_crs →
  target_crs ≠ "" →
  Str.has_sep target_crs = false →
  crs_valid L target_crs = true →
  plain (secure_filename L (filename file)) = true →
  Str.endswith (Str.lower (secure_filename L (filename file))) ".zip" = true →
  payload file = Zip ms →
  let u := fresh_name (disk st) in
  let s2 := disk st ++ [(u, Dir [(secure_filename L (filename file), File (Zip ms))])] in
  let d := fresh_name s2 in
  unpack d ms [] = (es, Ok tt) →
  shp_files (map fst es) = first :: rest →
  Str.has_sep first = false →
  forallb (λ ext, has_child (fst (Path.splitext first) +:+ ext) es) required_exts
  = true →
  has_child "reprojected" es = false →
  read_file L (d +:+ "/" +:+ first) (s2 ++ [(d, Dir es)]) = Ok g →
  has_crs L g = true →
  to_crs L g target_crs = Ok g' →
  to_file L g' ((d +:+ "/" +:+ "reprojected") +:+ "/" +:+ first) = (files, None) →
  forallb (λ f, plain (fst f)) files = true →
  let W := stored files [] in
  let s5 := s2 ++ [(d, Dir (es ++ [("reprojected", Dir W)]))] in
  let o := fresh_name s5 in
  let file_id := "reprojected_" +:+ Str.remove_colons target_crs +:+ ".zip" in
  let archive := Zip (zip_of W (map fst W)) in
  let record := {| path := o +:+ "/" +:+ file_id; temp_dirs := [u; d; o] |} in
  let st' :=
    {| disk := s5 ++ [(o, Dir [(file_id, File archive)])];
       temp_file_store := <[file_id := record]> (temp_file_store st);
       stdout := stdout st |} in
  reproject_api L req st
  = (st', Ok (Json 200
                [("message", "Shapefile re-projected successfully");
                 ("download_link", host_url req +:+ "download_file/" +:+ file_id)]))
  ∧ download_file file_id st' = (st', Ok (Attachment 200 file_id archive, Some record)).
Proof.
  intros Hfile Hzip Ht Hne Hsep Hvalid Hplain Hzip' Hpay u s2 d Hun Hshp Hfirst
    Hall Hnew Hread Hcrs Hto Hwr Hfiles W s5 o file_id archive record st'.
  assert (plain (output_name target_crs) = true) as Hpo.
  { apply plain_spec. split; [by apply has_sep_output_name|done]. }
  fold (output_name target_crs) in file_id.
  assert (Path.basename (o +:+ "/" +:+ file_id) = file_id) as Hbase.
  { apply basename_join_plain. by apply plain_spec in Hpo as [? ?]. }
  assert (fs_lookup (o +:+ "/" +:+ file_id) (disk st') = Some (File archive)) as Hlook.
  { unfold st'. cbn [disk]. unfold o. rewrite fs_lookup_fresh_child by done.
    cbn [assoc]. by rewrite String.eqb_refl. }
  split.
  - rewrite (reproject_api_checks_pass L req st file target_crs) by done.
    unfold bind at 1. unfold on_disk at 1, mkdtemp. cbn [disk temp_file_store stdout].
    rewrite join_fresh_name
      by (apply startswith_sep_plain; by apply plain_spec in Hplain as [? ?]).
    unfold bind at 1. unfold on_disk at 1. cbn [disk temp_file_store stdout].
    rewrite write_file_fresh_last by done.
    cbn [set_child]. rewrite Hpay.
    unfold reproject_and_register, try_except.
    unfold bind at 1. unfold on_disk at 1. cbn [disk temp_file_store stdout].
    rewrite (reproject_shapefile_run L _ _ s2 ms es first rest g g' files);
      try done.
    + unfold bind, register, ret. cbn [disk temp_file_store stdout].
      fold W file_id. unfold o, s5, d in Hbase. rewrite Hbase. reflexivity.
    + rewrite lower_app. apply endswith_app. rewrite lower_app. by apply endswith_app.
    + unfold s2, u. rewrite fs_lookup_fresh_child by done.
      cbn [assoc]. by rewrite String.eqb_refl.
  - unfold download_file, bind, gets, path_exists, send_file, ret.
    assert (temp_file_store st' !! file_id = Some record) as ->
      by (unfold st'; cbn [temp_file_store]; apply lookup_insert_eq).
    cbn [path record]. rewrite Hlook. cbn [negb]. by rewrite Hlook, Hbase.
Qed.

(** C1, as amended.  The request has a file whose name ends in [.zip] and
    whose sanitised name is an ordinary name that ends in [.zip]; the
    target CRS is not empty and parses, and the name of the output archive
    made from it is an ordinary name; the upload is a zip of regular files
    with ordinary names; exactly one entry at the top level of the archive
    has a name that ends in [.shp], whatever the case of its letters, and
    its four files are there under that base name with lower-case
    extensions; the archive has no entry called [reprojected]; the library
    reads the layer, finds its CRS, transforms it and writes it under plain
    file names.  Then the handler answers with status 200, the success
    message and the link made of the host URL, [download_file/] and the
    identifier; it registers a record with three scratch directories under
    the identifier; and a download of the identifier is answered with an
    archive that holds, in some order, the regular files that the writer
    stored for the transformed layer and nothing else. *)
Theorem complete_upload_succeeds (L : libs) (req : request) (st : app)
    (file : upload) (target_crs : string) (ms : list (string * option node))
    (es : list (string * node)) (first : string)
    (g g' : gdf L) (files : list (string * fdata)) :
  files_file req = Some file →
  Str.endswith (Str.lower (filename file)) ".zip" = true →
  form_target_crs req = Some target_crs →
  target_crs ≠ "" →
  crs_valid L target_crs = true →
  ordinary (output_name target_crs) = true →
  ordinary (secure_filename L (filename file)) = true →
  Str.endswith (Str.lower (secure_filename L (filename file))) ".zip" = true →
  payload file = Zip ms →
  flat ms = true →
  let u := fresh_name (disk st) in
  let s2 := disk st ++ [(u, Dir [(secure_filename L (filename file), File (Zip ms))])] in
  let d := fresh_name s2 in
  unpack d ms [] = (es, Ok tt) →
  shp_files (map fst es) = [first] →
  forallb (λ ext, has_child (fst (Path.splitext first) +:+ ext) es) required_exts
  = true →
  has_child "reprojected" es = false →
  read_file L (d +:+ "/" +:+ first) (s2 ++ [(d, Dir es)]) = Ok g →
  has_crs L g = true →
  to_crs L g target_crs = Ok g' →
  to_file L g' ((d +:+ "/" +:+ "reprojected") +:+ "/" +:+ first) = (files, None) →
  forallb (λ f, plain (fst f)) files = true →
  let W := stored files [] in
  let file_id := "reprojected_" +:+ Str.remove_colons target_crs +:+ ".zip" in
  ∃ st' record members,
    reproject_api L req st
    = (st', Ok (Json 200
                  [("message", "Shapefile re-projected successfully");
                   ("download_link", host_url req +:+ "download_file/" +:+ file_id)]))
    ∧ temp_file_store st' = <[file_id := record]> (temp_file_store st)
    ∧ length (temp_dirs record) = 3
    ∧ members ≡ₚ zip_of W (map fst W)
    ∧ download_file file_id st'
      = (st', Ok (Attachment 200 file_id (Zip members), Some record)).
Proof.
  intros Hfile Hzip Ht Hne Hvalid Hout Hname Hzip' Hpay Hflat u s2 d Hun Hshp
    Hall Hnew Hread Hcrs Hto Hwr Hfiles W file_id.
  assert (Str.has_sep target_crs = false) as Hsep.
  { apply ordinary_plain, plain_spec in Hout as [Hout _].
    by rewrite has_sep_output_name_eq in Hout. }
  pose proof (only_shp_plain d ms es (Ok tt) first [] Hflat Hun Hshp) as Hfirst.
  destruct (complete_upload_run L req st file target_crs ms es first [] g g' files
              Hfile Hzip Ht Hne Hsep Hvalid (ordinary_plain _ Hname) Hzip' Hpay
              Hun Hshp Hfirst Hall Hnew Hread Hcrs Hto Hwr Hfiles)
    as [Hrun Hdown].
  eexists _, _, _. split; [exact Hrun|]. split; [done|]. split; [done|].
  split; [done|]. exact Hdown.
Qed.

(** A successful upload registers a record whose archive is on disk. *)
Lemma upload_registers_archive (L : libs) (req : request) (st st' : app)
    (body : list (string * string)) :
  reproject_api L req st = (st', Ok (Json 200 body)) →
  ∃ target_crs record o members,
    form_target_crs req = Some target_crs
    ∧ temp_file_store st' !! output_name target_crs = Some record
    ∧ o ∈ temp_dirs record
    ∧ path record = o +:+ "/" +:+ output_name target_crs
    ∧ fs_lookup (path record) (disk st') = Some (File (Zip members)).
Proof.
  intros Hrun.
  destruct (reproject_api_ok _ _ _ _ _ Hrun)
    as (file & target_crs & s1 & out & d_in & d_out & _ & Ht & _ & Hrep & Hstore & _).
  destruct (reproject_shapefile_returns _ _ _ _ _ _ _ _ Hrep)
    as (s1' & shp_path & _ & Htry).
  destruct (reproject_try_returns _ _ _ _ _ _ _ _ _ Htry)
    as (g & g' & s2 & s3 & files & _ & _ & _ & _ & _ & _ & Hout & Hpath & Hsep & _ & Hs').
  subst d_out out. rewrite join_fresh_name in Hstore by by apply startswith_sep_plain.
  rewrite basename_join_plain in Hstore by done.
  eexists target_crs, _, (fresh_name s3), _. split; [done|]. split.
  { rewrite Hstore. apply lookup_insert_eq. }
  cbn [path temp_dirs]. split; [set_solver|]. split; [done|].
  rewrite Hs'. rewrite fs_lookup_fresh_child.
  - cbn [assoc]. by rewrite String.eqb_refl.
  - apply plain_spec. split; [done|]. done.
Qed.

(** ** An upload leaves the rest of the temporary directory alone *)

Lemma assoc_app_outside (c : string) (s0 t : list (string * node)) :
  assoc c s0 = None → assoc c (s0 ++ t) = assoc c t.
Proof.
  induction s0 as [|[m y] s0 IH]; [done|]. simpl.
  destruct (String.eqb m c); [done|]. apply IH.
Qed.

Lemma set_child_app_outside (c : string) (x : node) (s0 t : list (string * node)) :
  assoc c s0 = None → set_child c x (s0 ++ t) = s0 ++ set_child c x t.
Proof.
  induction s0 as [|[m y] s0 IH]; [done|]. simpl.
  destruct (String.eqb m c); [done|]. intros H. by rewrite IH.
Qed.

Lemma remove_child_app_outside (c : string) (s0 t : list (string * node)) :
  assoc c s0 = None → remove_child c (s0 ++ t) = s0 ++ remove_child c t.
Proof.
  induction s0 as [|[m y] s0 IH]; [done|]. simpl.
  destruct (String.eqb m c); [done|]. intros H. by rewrite IH.
Qed.

Lemma lookup_in_same_top (c : string) (cs : list string) (s s' : list (string * node)) :
  assoc c s = assoc c s' → lookup_in (c :: cs) s = lookup_in (c :: cs) s'.
Proof. intros H. simpl. by rewrite H. Qed.

Lemma put_in_app_outside (c : string) (cs : list string) (x : node)
    (s0 t : list (string * node)) :
  assoc c s0 = None →
  put_in (c :: cs) x (s0 ++ t) = (λ t', s0 ++ t') <$> put_in (c :: cs) x t.
Proof.
  intros H. destruct cs as [|c' cs].
  - simpl. by rewrite set_child_app_outside.
  - rewrite !put_in_cons, assoc_app_outside by done.
    destruct (assoc c t) as [[sub|]|]; [|done..].
    destruct (put_in (c' :: cs) x sub) as [sub'|]; [|done].
    simpl. by rewrite set_child_app_outside.
Qed.

Lemma remove_in_cons (c c' : string) (cs : list string) (es : list (string * node)) :
  remove_in (c :: c' :: cs) es =
    match assoc c es with
    | Some (Dir sub) =>
        match remove_in (c' :: cs) sub with
        | Some sub' => Some (set_child c (Dir sub') es)
        | None => None
        end
    | _ => None
    end.
Proof. reflexivity. Qed.

Lemma remove_in_app_outside (c : string) (cs : list string)
    (s0 t : list (string * node)) :
  assoc c s0 = None →
  remove_in (c :: cs) (s0 ++ t) = (λ t', s0 ++ t') <$> remove_in (c :: cs) t.
Proof.
  intros H. destruct cs as [|c' cs].
  - cbn [remove_in]. rewrite assoc_app_outside by done.
    destruct (assoc c t); [|done]. simpl. by rewrite remove_child_app_outside.
  - rewrite !remove_in_cons, assoc_app_outside by done.
    destruct (assoc c t) as [[sub|]|]; [|done..].
    destruct (remove_in (c' :: cs) sub) as [sub'|]; [|done].
    simpl. by rewrite set_child_app_outside.
Qed.

Lemma makedirs_in_app_outside (c : string) (cs : list string)
    (s0 t : list (string * node)) :
  assoc c s0 = None →
  makedirs_in (c :: cs) (s0 ++ t) = (λ t', s0 ++ t') <$> makedirs_in (c :: cs) t.
Proof.
  intros H. cbn [makedirs_in]. rewrite assoc_app_outside by done.
  destruct (assoc c t) as [[sub|]|].
  - destruct (makedirs_in cs sub) as [sub'|]; [|done].
    simpl. by rewrite set_child_app_outside.
  - done.
  - destruct (makedirs_in cs []) as [sub'|]; [|done].
    simpl. by rewrite set_child_app_outside.
Qed.

Section Confined.

Context (s0 : fs).

Lemma confined_ret {A} (a : A) (Q : A → Prop) : Q a → confined s0 (ret a) Q.
Proof. intros Ha t. exists t. split; [done|]. by intros a' [= <-]. Qed.

Lemma confined_raise {A} (e : exn) (Q : A → Prop) : confined s0 (raise e) Q.
Proof. intros t. exists t. split; [done|]. by intros a'. Qed.

Lemma confined_gets {A} (f : fs → A) : confined s0 (gets f) (λ _, True).
Proof. intros t. exists t. by split. Qed.

Lemma confined_call {A} (f : fs → result A) : confined s0 (call f) (λ _, True).
Proof. intros t. exists t. by split. Qed.

Lemma confined_bind {A B} (m : io A) (k : A → io B) (Q : A → Prop) (R : B → Prop) :
  confined s0 m Q → (∀ a, Q a → confined s0 (k a) R) → confined s0 (bind m k) R.
Proof.
  intros Hm Hk t. destruct (Hm t) as (t1 & Hs & Hq). unfold bind.
  destruct (m (s0 ++ t)) as [s1 [a|e]]; simpl in *; subst s1.
  - apply (Hk a (Hq a eq_refl) t1).
  - exists t1. split; [done|]. by intros a.
Qed.

Lemma confined_try_except {A} (m : io A) (h : exn → io A) (Q : A → Prop) :
  confined s0 m Q → (∀ e, confined s0 (h e) Q) → confined s0 (try_except m h) Q.
Proof.
  intros Hm Hh t. destruct (Hm t) as (t1 & Hs & Hq). unfold try_except.
  destruct (m (s0 ++ t)) as [s1 [a|e]]; simpl in *; subst s1.
  - exists t1. split; [done|]. intros a' [= <-]. by apply Hq.
  - apply (Hh e t1).
Qed.

Lemma confined_weaken {A} (m : io A) (Q R : A → Prop) :
  confined s0 m Q → (∀ a, Q a → R a) → confined s0 m R.
Proof.
  intros Hm HQR t. destruct (Hm t) as (t1 & Hs & Hq).
  exists t1. split; [done|]. intros a Ha. by apply HQR, Hq.
Qed.

Lemma confined_mkdtemp : confined s0 mkdtemp (ours s0).
Proof.
  intros t. exists (t ++ [(fresh_name (s0 ++ t), Dir [])]). split.
  - simpl. by rewrite app_assoc.
  - intros a [= <-]. split; [eauto|]. apply assoc_extends_fresh, extends_app.
Qed.

Lemma confined_listdir (p : string) : confined s0 (listdir p) (λ _, True).
Proof.
  intros t. exists t. split; [|done]. unfold listdir.
  by destruct (fs_lookup p (s0 ++ t)) as [[|]|].
Qed.

Lemma confined_zip_open (p : string) : confined s0 (zip_open p) (λ _, True).
Proof.
  intros t. exists t. split; [|done]. unfold zip_open.
  by destruct (fs_lookup p (s0 ++ t)) as [[|[|]]|].
Qed.

Lemma confined_write_file (p : string) (data : fdata) (c : string) (cs : list string) :
  Path.components p = c :: cs → assoc c s0 = None →
  confined s0 (write_file p data) (λ _, True).
Proof.
  intros Hp Hc t. unfold write_file, fs_lookup. rewrite Hp.
  rewrite put_in_app_outside by done.
  destruct (lookup_in (c :: cs) (s0 ++ t)) as [[|]|];
    [by exists t|..];
    (destruct (put_in (c :: cs) (File data) t) as [t'|]; [by exists t'|by exists t]).
Qed.

Lemma confined_store_in (dir name : string) (x : node) (c : string) (cs : list string) :
  Path.components dir = c :: cs → assoc c s0 = None →
  confined s0 (store_in dir name x) (λ _, True).
Proof.
  intros Hp Hc t. unfold store_in. rewrite Hp. cbn [Datatypes.app].
  rewrite put_in_app_outside by done.
  assert (∃ t', (match put_in (c :: cs ++ [name]) x t with
                 | Some t1 => (s0 ++ t1, Ok ())
                 | None => (s0 ++ t, Raise (enoent (Path.join dir name)))
                 end).1 = s0 ++ t') as [t1 Ht1]
    by (destruct (put_in (c :: cs ++ [name]) x t) as [t'|]; eauto).
  destruct x as [e|d];
    [|destruct (lookup_in (c :: cs ++ [name]) (s0 ++ t)) as [[|]|]; [by exists t|..]];
    (exists t1; split; [|done];
     destruct (put_in (c :: cs ++ [name]) _ t) as [t'|]; exact Ht1).
Qed.

Lemma confined_makedirs (p : string) (c : string) (cs : list string) :
  Path.components p = c :: cs → assoc c s0 = None →
  confined s0 (makedirs p) (λ _, True).
Proof.
  intros Hp Hc t. unfold makedirs. rewrite Hp.
  rewrite makedirs_in_app_outside by done.
  destruct (makedirs_in (c :: cs) t) as [t'|]; [by exists t'|by exists t].
Qed.

Lemma confined_rmtree (p : string) (c : string) (cs : list string) :
  Path.components p = c :: cs → assoc c s0 = None →
  confined s0 (rmtree p) (λ _, True).
Proof.
  intros Hp Hc t. unfold rmtree, fs_lookup. rewrite Hp.
  rewrite remove_in_app_outside by done.
  destruct (lookup_in (c :: cs) (s0 ++ t)) as [[|]|]; [|by exists t..].
  destruct (remove_in (c :: cs) t) as [t'|]; [by exists t'|by exists t].
Qed.

Lemma confined_extractall (ms : list (string * option node)) (dest : string)
    (c : string) (cs : list string) :
  Path.components dest = c :: cs → assoc c s0 = None →
  confined s0 (extractall ms dest) (λ _, True).
Proof.
  intros Hp Hc. induction ms as [|[name [x|]] ms IH]; cbn [extractall].
  - by apply confined_ret.
  - eapply confined_bind; [by eapply confined_store_in|]. by intros _ _.
  - apply confined_raise.
Qed.

Lemma confined_write_files (dir : string) (files : list (string * fdata))
    (c : string) (cs : list string) :
  Path.components dir = c :: cs → assoc c s0 = None →
  confined s0 (write_files dir files) (λ _, True).
Proof.
  intros Hp Hc. induction files as [|[name data] files IH]; cbn [write_files].
  - by apply confined_ret.
  - eapply confined_bind; [by eapply confined_store_in|]. by intros _ _.
Qed.

End Confined.

Lemma ours_components (s0 : fs) (d : string) :
  ours s0 d → Path.components d = [d] ∧ assoc d s0 = None.
Proof. intros [[s1 ->] H]. split; [apply components_fresh_name|done]. Qed.

Lemma ours_join (s0 : fs) (d x : string) :
  ours s0 d → Str.startswith_sep x = false →
  Path.join d x = d +:+ "/" +:+ x
  ∧ Path.components (Path.join d x) = d :: Path.components x.
Proof.
  intros [[s1 ->] H] Hx. rewrite join_fresh_name by done. split; [done|].
  by rewrite components_app_sep, components_fresh_name.
Qed.

Lemma ours_join_below (s0 : fs) (d b : string) :
  ours s0 d → Str.has_sep b = false →
  let out_dir := Path.join d "reprojected" in
  Path.components out_dir = [d; "reprojected"]
  ∧ Path.dirname (Path.join out_dir b) = out_dir.
Proof.
  intros Hd Hb out_dir. destruct (ours_join s0 d "reprojected" Hd eq_refl) as [Hj Hc].
  split; [done|]. unfold out_dir. rewrite Hj.
  rewrite join_plain_eq.
  - by apply dirname_join_plain.
  - by apply nonempty_app_r.
  - rewrite endswith_sep_app by done. done.
  - by apply startswith_sep_plain.
Qed.

Section ConfinedEngine.

Context (L : libs) (s0 : fs).

Lemma confined_check_try (zip_path temp_dir : string) :
  ours s0 temp_dir →
  confined s0 (check_try zip_path temp_dir) (λ r, ours s0 (snd r)).
Proof.
  intros Hd. destruct (ours_components _ _ Hd) as [Hc Hnone]. unfold check_try.
  eapply confined_bind; [apply confined_zip_open|]. intros ms _.
  eapply confined_bind; [by eapply confined_extractall|]. intros _ _.
  eapply confined_bind; [apply confined_listdir|]. intros names _.
  destruct (shp_files names) as [|first rest]; [apply confined_raise|].
  eapply confined_bind; [apply confined_gets|]. intros missing _.
  destruct missing; [by apply confined_ret|apply confined_raise].
Qed.

Lemma confined_check (zip_path : string) :
  confined s0 (check_shapefile_completeness zip_path) (λ r, ours s0 (snd r)).
Proof.
  unfold check_shapefile_completeness.
  destruct (negb _); [apply confined_raise|].
  eapply confined_bind; [apply confined_gets|]. intros is_zip _.
  destruct (negb is_zip); [apply confined_raise|].
  eapply confined_bind; [apply confined_mkdtemp|]. intros d Hd.
  destruct (ours_components _ _ Hd) as [Hc Hnone].
  apply confined_try_except; [by apply confined_check_try|]. intros e.
  eapply confined_bind; [by eapply confined_rmtree|]. intros _ _.
  apply confined_raise.
Qed.

Lemma confined_gdf_to_file (g : gdf L) (out_shp : string) (c : string)
    (cs : list string) :
  Path.components (Path.dirname out_shp) = c :: cs → assoc c s0 = None →
  confined s0 (gdf_to_file L g out_shp) (λ _, True).
Proof.
  intros Hp Hc. unfold gdf_to_file. destruct (to_file L g out_shp) as [files err].
  eapply confined_bind; [by eapply confined_write_files|]. intros _ _.
  destruct err; [apply confined_raise|by apply confined_ret].
Qed.

Lemma confined_reproject_try (shp_path temp_dir target_crs : string) :
  ours s0 temp_dir →
  confined s0 (reproject_try L shp_path temp_dir target_crs) (λ _, True).
Proof.
  intros Hd. destruct (ours_components _ _ Hd) as [Hc Hnone].
  destruct (ours_join_below s0 temp_dir (Path.basename shp_path) Hd
              (basename_no_sep shp_path)) as [Hout Hdir].
  unfold reproject_try.
  eapply confined_bind; [apply confined_call|]. intros g _.
  destruct (negb _); [apply confined_raise|].
  eapply confined_bind; [apply confined_call|]. intros g' _.
  eapply confined_bind; [by eapply confined_makedirs|]. intros _ _.
  eapply confined_bind.
  { eapply confined_gdf_to_file; [by rewrite Hdir|done]. }
  intros _ _.
  eapply confined_bind; [apply confined_mkdtemp|]. intros o Ho.
  destruct (ours_join s0 o (output_name target_crs) Ho eq_refl) as [_ Hzip].
  destruct (ours_components _ _ Ho) as [_ Hnone'].
  eapply confined_bind; [by eapply confined_write_file|]. intros _ _.
  eapply confined_bind; [apply confined_listdir|]. intros files _.
  eapply confined_bind; [apply confined_gets|]. intros members _.
  eapply confined_bind; [by eapply confined_write_file|]. intros _ _.
  by apply confined_ret.
Qed.

Lemma confined_reproject_except {A} (temp_dir : option string) (e : exn)
    (Q : A → Prop) :
  (∀ d, temp_dir = Some d → ours s0 d) →
  confined s0 (reproject_except temp_dir e) Q.
Proof.
  intros Hd. unfold reproject_except. destruct temp_dir as [d|]; [|apply confined_raise].
  destruct (ours_components _ _ (Hd d eq_refl)) as [Hc Hnone].
  eapply confined_bind; [apply confined_gets|]. intros there _.
  destruct (_ && _); [|apply confined_raise].
  eapply confined_bind; [by eapply confined_rmtree|]. intros _ _.
  apply confined_raise.
Qed.

Lemma confined_reproject_shapefile (zip_path target_crs : string) :
  confined s0 (reproject_shapefile L zip_path target_crs) (λ _, True).
Proof.
  unfold reproject_shapefile.
  eapply confined_bind.
  { apply confined_try_except; [apply confined_check|]. intros e.
    by apply confined_reproject_except. }
  intros [shp_path temp_dir] Hd. simpl in Hd.
  apply confined_try_except; [by apply confined_reproject_try|].
  intros e. apply confined_reproject_except. by intros d [= <-].
Qed.

End ConfinedEngine.

(** ** The registry in the states of the process *)

Section Registry.

Context (L : libs).
Context (Hsecure : ∀ name, Str.startswith_sep (secure_filename L name) = false).

Lemma reproject_api_outcome (req : request) (st st' : app) (r : result response) :
  reproject_api L req st = (st', r) →
  (∃ t', disk st' = disk st ++ t')
  ∧ (temp_file_store st' = temp_file_store st ∨ ∃ body, r = Ok (Json 200 body)).
Proof.
  assert (∀ st1 r1, (st, r1) = (st1, r) →
            (∃ t', disk st1 = disk st ++ t')
            ∧ (temp_file_store st1 = temp_file_store st
               ∨ ∃ body, r = Ok (Json 200 body))) as Hsame.
  { intros st1 r1 [= <- _]. split; [|by left]. exists []. by rewrite app_nil_r. }
  unfold reproject_api.
  destruct (files_file req) as [file|]; [|apply Hsame].
  destruct (_ || _); [apply Hsame|].
  destruct (form_target_crs req) as [[|c t]|]; [apply Hsame| |apply Hsame].
  destruct (negb _); [apply Hsame|]. clear Hsame.
  set (target_crs := String c t). set (u := fresh_name (disk st)).
  assert (ours (disk st) u) as Hu by (split; [by eexists|apply assoc_fresh_name]).
  destruct (ours_join _ _ _ Hu (Hsecure (filename file))) as [_ Hcomp].
  destruct (ours_components _ _ Hu) as [Hcu Hnone].
  unfold bind at 1. unfold on_disk at 1, mkdtemp. cbn [disk temp_file_store stdout].
  fold u. unfold bind at 1. unfold on_disk at 1. cbn [disk temp_file_store stdout].
  destruct (confined_write_file (disk st) _ (payload file) _ _ Hcomp Hnone [(u, Dir [])])
    as (t2 & Ht2 & _).
  destruct (write_file _ _ _) as [s2 [[]|e]]; simpl in Ht2; subst s2.
  2:{ intros [= <- _]. simpl. split; [by exists t2|by left]. }
  unfold reproject_and_register, try_except.
  unfold bind at 1. unfold on_disk at 1. cbn [disk temp_file_store stdout].
  destruct (confined_reproject_shapefile L (disk st)
              (Path.join u (secure_filename L (filename file))) target_crs t2)
    as (t3 & Ht3 & _).
  destruct (reproject_shapefile L _ _ _) as [s3 [[[out d_in] d_out]|e]];
    simpl in Ht3; subst s3.
  - unfold bind, register, ret. simpl. intros [= <- <-]. simpl.
    split; [by exists t3|]. right. by eexists.
  - destruct (confined_rmtree (disk st) u _ _ Hcu Hnone t3) as (t4 & Ht4 & _).
    destruct e; unfold bind, on_disk, ret; cbn [disk temp_file_store stdout];
      destruct (rmtree u (disk st ++ t3)) as [s4 [[]|e']]; simpl in Ht4; subst s4;
      intros [= <- _]; simpl; (split; [by exists t4|by left]).
Qed.

Lemma sound_record_app (s t : fs) (record : transfer) :
  sound_record s record → sound_record (s ++ t) record.
Proof.
  intros [Hdirs (o & n & data & Ho & Hpath & Hfile)]. split.
  - intros d Hd. destruct (Hdirs d Hd) as [Hfresh [x Hx]]. split; [done|].
    rewrite (assoc_app_some _ _ _ t Hx). eauto.
  - exists o, n, data. split; [done|]. split; [done|].
    unfold fs_lookup in *. by apply lookup_in_app_some.
Qed.

Lemma sound_upload (req : request) (st : app) :
  sound_registry st → sound_registry (fst (reproject_api L req st)).
Proof.
  intros [Hrec Hsep].
  destruct (reproject_api L req st) as [st' res] eqn:Hrun. cbn [fst].
  destruct (reproject_api_outcome req st st' res Hrun)
    as [[t' Hdisk] [Hstore|[body ->]]]; [|rename Hrun into Hok].
  - split.
    + intros id r Hid. rewrite Hstore in Hid. rewrite Hdisk.
      by apply sound_record_app, (Hrec id).
    + intros id1 id2 r1 r2 d H1 H2. rewrite Hstore in H1, H2. by eapply Hsep.
  - destruct (reproject_api_dirs _ _ _ _ _ Hok)
      as (t & r & Ht & Hstore & _ & _ & _ & Hdirs).
    destruct (upload_registers_archive _ _ _ _ _ Hok)
      as (t0 & r0 & o & members & Ht0 & Hr0 & Ho & Hpath & Hfile).
    assert (t0 = t) as -> by congruence.
    assert (temp_file_store st' !! output_name t = Some r)
      as Hr by (rewrite Hstore; apply lookup_insert_eq).
    assert (∀ id r', id ≠ output_name t →
              temp_file_store st' !! id = Some r' →
              temp_file_store st !! id = Some r') as Hold.
    { intros id r' Hne Hid. rewrite Hstore in Hid.
      by rewrite lookup_insert_ne in Hid. }
    assert (∀ id r' d, temp_file_store st !! id = Some r' → d ∈ temp_dirs r' →
              d ∉ temp_dirs r) as Hnew.
    { intros id r' d Hid Hd Hd'. destruct (Hrec id r' Hid) as [Hthere _].
      destruct (Hthere d Hd) as [_ Hsome]. destruct (Hdirs d Hd') as (_ & Hnone & _).
      rewrite Hnone in Hsome. by destruct Hsome. }
    split.
    + intros id r' Hid. destruct (decide (id = output_name t)) as [->|Hne].
      * rewrite Hr in Hid. injection Hid as <-. split.
        -- intros d Hd. destruct (Hdirs d Hd) as (Hfresh & _ & Hsome). done.
        -- rewrite Hr in Hr0. injection Hr0 as <-. eauto 10.
      * rewrite Hdisk. apply sound_record_app, (Hrec id). by apply Hold.
    + intros id1 id2 r1 r2 d H1 H2 Hne Hd1.
      destruct (decide (id1 = output_name t)) as [->|Hne1].
      * rewrite Hr in H1. injection H1 as <-. intros Hd2.
        by apply (Hnew id2 r2 d (Hold _ _ (not_eq_sym Hne) H2) Hd2).
      * destruct (decide (id2 = output_name t)) as [->|Hne2].
        -- rewrite Hr in H2. injection H2 as <-.
           by apply (Hnew id1 r1 d (Hold _ _ Hne1 H1)).
        -- by apply (Hsep id1 id2 r1 r2 d (Hold _ _ Hne1 H1) (Hold _ _ Hne2 H2)).
Qed.

End Registry.

Lemma rmtree_each_other (dirs : list string) (s : fs) (c : string) :
  (∀ d, d ∈ dirs → ∃ s1, d = fresh_name s1) →
  c ∉ dirs →
  assoc c (fst (rmtree_each dirs s)) = assoc c s.
Proof.
  revert s. induction dirs as [|d dirs IH]; intros s Hfresh Hc; [done|].
  apply not_elem_of_cons in Hc as [Hne Hc].
  destruct (Hfresh d) as [s1 ->]; [by left|].
  cbn [rmtree_each]. unfold bind, rmtree, fs_lookup.
  rewrite components_fresh_name. simpl.
  destruct (assoc (fresh_name s1) s) as [[e|f]|] eqn:Hd; simpl. 2,3: done.
  rewrite IH.
  - by apply assoc_remove_child_ne, not_eq_sym.
  - intros d' Hd'. apply Hfresh. by right.
  - done.
Qed.

Lemma sound_record_same (s s' : fs) (record : transfer) :
  (∀ d, d ∈ temp_dirs record → assoc d s' = assoc d s) →
  sound_record s record → sound_record s' record.
Proof.
  intros Hsame [Hdirs (o & n & data & Ho & Hpath & Hfile)]. split.
  - intros d Hd. destruct (Hdirs d Hd) as [Hfresh Hsome].
    split; [done|]. by rewrite Hsame.
  - exists o, n, data. split; [done|]. split; [done|].
    destruct (Hdirs o Ho) as [[s1 ->] _].
    rewrite <- Hfile, Hpath. unfold fs_lookup.
    rewrite components_app_sep, components_fresh_name. cbn [Datatypes.app].
    apply lookup_in_same_top. by apply Hsame.
Qed.

Lemma sound_download (file_id : string) (st : app) :
  sound_registry st → sound_registry (fst (download_and_close file_id st)).
Proof.
  intros [Hrec Hsep]. unfold download_and_close, download_file, bind, gets.
  destruct (temp_file_store st !! file_id) as [r|] eqn:Hid; [|done].
  destruct (negb _); [done|]. unfold send_file.
  destruct (fs_lookup (path r) (disk st)) as [[|data]|]; [done| |done].
  unfold ret. cbn [fst].
  assert (temp_file_store (fst (cleanup_files file_id r st))
          = delete file_id (temp_file_store st)
          ∧ disk (fst (cleanup_files file_id r st))
            = fst (rmtree_each (temp_dirs r) (disk st))) as [Hstore Hdisk].
  { unfold cleanup_files, bind, try_except, on_disk, print, del_store.
    destruct (rmtree_each (temp_dirs r) (disk st)) as [d [[]|e]]; simpl;
      by rewrite Hid. }
  destruct (Hrec _ _ Hid) as [Hfresh _].
  assert (∀ id r', delete file_id (temp_file_store st) !! id = Some r' →
            id ≠ file_id ∧ temp_file_store st !! id = Some r') as Hold.
  { intros id r' H. destruct (decide (id = file_id)) as [->|Hne].
    - by rewrite lookup_delete_eq in H.
    - by rewrite lookup_delete_ne in H. }
  split.
  - intros id r' H. rewrite Hstore in H. apply Hold in H as [Hne H].
    apply (sound_record_same (disk st)); [|by apply (Hrec id)].
    intros d Hd. rewrite Hdisk. apply rmtree_each_other.
    + intros d' Hd'. by destruct (Hfresh d' Hd').
    + by apply (Hsep id file_id r' r).
  - intros id1 id2 r1 r2 d H1 H2. rewrite Hstore in H1, H2.
    apply Hold in H1 as [_ H1]. apply Hold in H2 as [_ H2]. by eapply Hsep.
Qed.

(** In every state of the process the registry is sound, if the sanitised
    file name never starts with a separator. *)
Lemma reachable_sound (L : libs) (st : app) :
  (∀ name, Str.startswith_sep (secure_filename L name) = false) →
  reachable L st → sound_registry st.
Proof.
  intros Hsecure. induction 1 as [s|st req _ IH|st file_id _ IH].
  - split; intros *; cbn [temp_file_store]; by rewrite lookup_empty.
  - by apply sound_upload.
  - by apply sound_download.
Qed.

(** So the archive of a registered identifier is on disk. *)
Lemma registered_archive_on_disk (L : libs) (st : app) (file_id : string)
    (record : transfer) :
  (∀ name, Str.startswith_sep (secure_filename L name) = false) →
  reachable L st →
  temp_file_store st !! file_id = Some record →
  ∃ data, fs_lookup (path record) (disk st) = Some (File data).
Proof.
  intros Hsecure Hreach Hid.
  destruct (reachable_sound L st Hsecure Hreach) as [Hrec _].
  destruct (Hrec _ _ Hid) as [_ (o & n & data & _ & _ & Hfile)]. eauto.
Qed.

Lemma sound_store_on_disk (st : app) : sound_registry st → store_on_disk st.
Proof.
  intros [Hrec _] id r d Hid Hd. destruct (Hrec id r Hid) as [Hdirs _].
  destruct (Hdirs d Hd) as [[s1 ->] [x Hx]].
  by rewrite path_exists_fresh_name, Hx.
Qed.

(** C4.  The code registers the removal of the record as a callback of
    the response, and a served [send_file] response never runs it: in
    every state of the process and for every identifier in the registry, a
    download is answered with status 200 and the archive and leaves the
    state as it is, with the record and its directories; so the next
    download of the identifier is answered with status 200 and the same
    archive again, and not with 404. *)
Theorem served_download_is_repeatable (L : libs) (st : app) (file_id : string)
    (record : transfer) :
  (∀ name, Str.startswith_sep (secure_filename L name) = false) →
  reachable L st →
  temp_file_store st !! file_id = Some record →
  ∃ data,
    download_served file_id st
    = (st, Ok (Attachment 200 (Path.basename (path record)) data))
    ∧ temp_file_store (fst (download_served file_id st)) !! file_id = Some record
    ∧ download_served file_id (fst (download_served file_id st))
      = (st, Ok (Attachment 200 (Path.basename (path record)) data))
    ∧ status_of (Attachment 200 (Path.basename (path record)) data) ≠ 404.
Proof.
  intros Hsecure Hreach Hid.
  destruct (registered_archive_on_disk L st file_id record Hsecure Hreach Hid)
    as [data Hfile].
  destruct (served_once_when_on_disk file_id record data st Hid Hfile) as [Hfirst _].
  assert (download_served file_id st
          = (st, Ok (Attachment 200 (Path.basename (path record)) data))) as Hrun.
  { unfold download_served, bind. by rewrite Hfirst. }
  exists data. rewrite Hrun. cbn [fst]. done.
Qed.

(** C9.  The identifier of a successful upload is [reprojected_], the target
    CRS without its colons, [.zip]: nothing of the uploaded archive enters
    it.  After two successful uploads with the same target CRS, the first in
    any state of the process, the registry
    holds the record of the second under that identifier; the three scratch
    directories of the first record are still on disk and no record of the
    registry lists any of them. *)
Theorem same_target_replaces_record (L : libs) (req1 req2 : request)
    (st st1 st2 : app) (body1 body2 : list (string * string)) (target_crs : string) :
  (∀ name, Str.startswith_sep (secure_filename L name) = false) →
  reachable L st →
  form_target_crs req1 = Some target_crs →
  form_target_crs req2 = Some target_crs →
  reproject_api L req1 st = (st1, Ok (Json 200 body1)) →
  reproject_api L req2 st1 = (st2, Ok (Json 200 body2)) →
  let file_id := "reprojected_" +:+ Str.remove_colons target_crs +:+ ".zip" in
  ∃ record1 record2,
    body1 = [("message", "Shapefile re-projected successfully");
             ("download_link", host_url req1 +:+ "download_file/" +:+ file_id)]
    ∧ body2 = [("message", "Shapefile re-projected successfully");
               ("download_link", host_url req2 +:+ "download_file/" +:+ file_id)]
    ∧ temp_file_store st1 !! file_id = Some record1
    ∧ temp_file_store st2 !! file_id = Some record2
    ∧ length (temp_dirs record1) = 3
    ∧ ∀ d, d ∈ temp_dirs record1 →
           path_exists d (disk st2) = true
           ∧ ∀ id record, temp_file_store st2 !! id = Some record →
                          d ∉ temp_dirs record.
Proof.
  intros Hsecure Hreach Ht1 Ht2 Hrun1 Hrun2.
  apply (same_target_replaces_when_on_disk L req1 req2 st st1 st2); try done.
  by apply sound_store_on_disk, (reachable_sound L).
Qed.

(** ** The string and path functions on examples *)

Example lower_zip : Str.lower "Parcels.ZIP" = "parcels.zip".
Proof. reflexivity. Qed.

Example endswith_zip : Str.endswith (Str.lower "Parcels.ZIP") ".zip" = true.
Proof. reflexivity. Qed.

Example remove_colons_epsg : Str.remove_colons "EPSG:4326" = "EPSG4326".
Proof. reflexivity. Qed.

Example splitext_shp : Path.splitext "tmp_/parcels.shp" = ("tmp_/parcels", ".shp").
Proof. reflexivity. Qed.

Example splitext_hidden : Path.splitext "tmp_/.shp" = ("tmp_/.shp", "").
Proof. reflexivity. Qed.

Example splitext_dir_dot : Path.splitext "tmp.d/readme" = ("tmp.d/readme", "").
Proof. reflexivity. Qed.

Example basename_nested : Path.basename "tmp_/reprojected/parcels.shp" = "parcels.shp".
Proof. reflexivity. Qed.

Example components_double : Path.components "tmp_//a/b" = ["tmp_"; "a"; "b"].
Proof. reflexivity. Qed.

Example join_plain : Path.join "tmp_" "a.zip" = "tmp_/a.zip".
Proof. reflexivity. Qed.

(** ** The properties on concrete requests *)

(** C1 as stated fails on a bundle zipped together with its folder: the
    archive is a well-formed zip that holds the four files of a bundle with
    its CRS, the target CRS parses, and the answer is 400, because only the
    top level of the archive is searched for a [.shp] file. *)
Lemma nested_bundle_is_refused :
  let req := Sample.post "parcels.zip" (Zip Sample.nested) "EPSG:3857" in
  (∃ es, unpack "" Sample.nested [] = (es, Ok tt) ∧ bundle_in es)
  ∧ crs_valid Sample.lib "EPSG:3857" = true
  ∧ reproject_api Sample.lib req Sample.boot
    = (Sample.boot,
       Ok (Json 400 [("error", "No .shp file found in the zipped folder.")]))
  ∧ ¬ ∃ st' body, reproject_api Sample.lib req Sample.boot = (st', Ok (Json 200 body)).
Proof.
  assert (reproject_api Sample.lib
            (Sample.post "parcels.zip" (Zip Sample.nested) "EPSG:3857") Sample.boot
          = (Sample.boot,
             Ok (Json 400 [("error", "No .shp file found in the zipped folder.")])))
    as Hrun by (vm_compute; reflexivity).
  cbv zeta. split; [|split; [reflexivity|split; [exact Hrun|]]].
  - eexists. split; [reflexivity|].
    eapply (bundle_below _ "parcels"); [reflexivity|]. apply (bundle_here _ "parcels").
    intros ext Hext.
    repeat (apply elem_of_cons in Hext as [->|Hext]; [eexists; reflexivity|]).
    by apply elem_of_nil in Hext.
  - intros (st' & body & Hok). rewrite Hrun in Hok. discriminate Hok.
Qed.

Lemma complete_upload_succeeds_witness :
  ∃ st' record members,
    reproject_api Sample.lib
      (Sample.post "parcels.zip" (Zip (Sample.bundle "parcels" "EPSG:4326")) "EPSG:3857")
      Sample.boot
    = (st', Ok (Json 200
                  [("message", "Shapefile re-projected successfully");
                   ("download_link",
                    "http://localhost:5000/download_file/reprojected_EPSG3857.zip")]))
    ∧ temp_file_store st'
      = <["reprojected_EPSG3857.zip" := record]> (temp_file_store Sample.boot)
    ∧ length (temp_dirs record) = 3
    ∧ members ≡ₚ [("parcels.shp", Some (File (Bytes "geometry")));
                  ("parcels.shx", Some (File (Bytes "index")));
                  ("parcels.dbf", Some (File (Bytes "attributes")));
                  ("parcels.prj", Some (File (Bytes "EPSG:3857")));
                  ("parcels.cpg", Some (File (Bytes "UTF-8")))]
    ∧ download_file "reprojected_EPSG3857.zip" st'
      = (st', Ok (Attachment 200 "reprojected_EPSG3857.zip" (Zip members),
                  Some record)).
Proof.
  refine (complete_upload_succeeds Sample.lib
            (Sample.post "parcels.zip" (Zip (Sample.bundle "parcels" "EPSG:4326"))
               "EPSG:3857")
            Sample.boot
            {| filename := "parcels.zip";
               payload := Zip (Sample.bundle "parcels" "EPSG:4326") |}
            "EPSG:3857" (Sample.bundle "parcels" "EPSG:4326")
            [("parcels.shp", File (Bytes "geometry"));
             ("parcels.shx", File (Bytes "index"));
             ("parcels.dbf", File (Bytes "attributes"));
             ("parcels.prj", File (Bytes "EPSG:4326"))]
            "parcels.shp" "EPSG:4326" "EPSG:3857"
            (fst (Sample.store "EPSG:3857" "tmp_____/reprojected/parcels.shp"))
            _ _ _ _ _ _ _ _ _ _ _ _ _ _ _ _ _ _ _);
    try reflexivity.
  discriminate.
Defined.

(** C2 as stated fails on a request whose file name does not end in
    [.zip]: the target CRS does not parse, and the answer is the message of
    the file name check, which names neither the target CRS nor the example. *)
Lemma unparsable_target_not_named :
  let req := Sample.post "parcels.tar" (Bytes "") "not-a-crs" in
  form_target_crs req = Some "not-a-crs"
  ∧ crs_valid Sample.lib "not-a-crs" = false
  ∧ reproject_api Sample.lib req Sample.boot
    = (Sample.boot,
       Ok (Json 400
             [("error",
               "No selected file or invalid file type. Please upload a .zip file.")]))
  ∧ ¬ rejected_naming_target Sample.lib req Sample.boot "not-a-crs".
Proof.
  cbv zeta. split; [reflexivity|]. split; [reflexivity|]. split; [reflexivity|].
  intros (msg & Hrun & Hnamed & _).
  assert (msg = "No selected file or invalid file type. Please upload a .zip file.")
    as -> by (vm_compute in Hrun; congruence).
  vm_compute in Hnamed. discriminate Hnamed.
Qed.

Lemma unparsable_target_rejected_first_witness :
  let req := Sample.post "parcels.zip" (Zip (Sample.bundle "parcels" "EPSG:4326"))
               "not-a-crs" in
  (form_target_crs req = Some "not-a-crs" ∧ crs_valid Sample.lib "not-a-crs" = false)
  ∧ ∃ c,
      upload_checks Sample.lib req = inl (Json 400 [("error", check_message req c)])
      ∧ reproject_api Sample.lib req Sample.boot
        = (Sample.boot, Ok (Json 400 [("error", check_message req c)]))
      ∧ c = TargetParses
      ∧ check_message req c = "Invalid target CRS: 'not-a-crs'. Example: EPSG:4326".
Proof.
  cbv zeta. split; [split; reflexivity|].
  destruct (unparsable_target_rejected_first Sample.lib
              (Sample.post "parcels.zip" (Zip (Sample.bundle "parcels" "EPSG:4326"))
                 "not-a-crs")
              "not-a-crs" eq_refl eq_refl)
    as (c & _ & _ & Hchecks & _ & Hrun & Hparse).
  destruct (Hparse eq_refl eq_refl eq_refl) as (Hc & Hmsg & _).
  exists c. split; [exact Hchecks|]. split; [apply Hrun|]. split; [exact Hc|exact Hmsg].
Defined.

(** C3 as stated fails on an archive whose [.shp] file lies in a folder:
    the archive holds a [.shp] file without its sidecars, and the error is
    that no [.shp] file was found, with no extension named, because only
    the top level of the archive is listed. *)
Lemma nested_shp_is_not_found :
  let ms := [("roads", Some (Dir [("roads.shp", File (Bytes "geometry"))]))] in
  (∃ es sub, unpack "tmp_____" ms [] = (es, Ok tt)
             ∧ assoc "roads" es = Some (Dir sub)
             ∧ has_child "roads.shp" sub = true
             ∧ has_child "roads.shx" sub = false
             ∧ has_child "roads.shx" es = false)
  ∧ check_shapefile_completeness "tmp_/parcels.zip" (Sample.saved ms)
    = (Sample.saved ms,
       Raise (FileNotFoundError "No .shp file found in the zipped folder."))
  ∧ Str.contains "No .shp file found in the zipped folder." "Incomplete" = false
  ∧ Str.contains "No .shp file found in the zipped folder." ".shx" = false.
Proof.
  cbv zeta. split; [|repeat split; reflexivity].
  eexists _, _. repeat split; reflexivity.
Qed.

Lemma incomplete_shapefile_names_every_missing_witness :
  (Str.endswith (Str.lower "tmp_/parcels.zip") ".zip" = true
   ∧ fs_lookup "tmp_/parcels.zip" (Sample.saved Sample.partial)
     = Some (File (Zip Sample.partial))
   ∧ flat Sample.partial = true
   ∧ shp_files ["parcels.shp"; "parcels.dbf"] = ["parcels.shp"]
   ∧ has_child "parcels.shx" [("parcels.shp", File (Bytes "geometry"));
                              ("parcels.dbf", File (Bytes "attributes"))] = false)
  ∧ ∃ msg,
      check_shapefile_completeness "tmp_/parcels.zip" (Sample.saved Sample.partial)
      = (Sample.saved Sample.partial, Raise (FileNotFoundError msg))
      ∧ msg = "Incomplete shapefile. Missing: .shx, .prj"
      ∧ ∀ ext, ext ∈ [".shx"; ".dbf"; ".prj"] →
               has_child ("parcels" +:+ ext)
                 [("parcels.shp", File (Bytes "geometry"));
                  ("parcels.dbf", File (Bytes "attributes"))] = false →
               Str.contains msg ext = true.
Proof.
  split; [repeat split; reflexivity|].
  apply (incomplete_shapefile_names_every_missing "tmp_/parcels.zip"
           (Sample.saved Sample.partial) Sample.partial
           [("parcels.shp", File (Bytes "geometry"));
            ("parcels.dbf", File (Bytes "attributes"))]
           "parcels.shp"); try reflexivity.
  exists ".shx". split; [|reflexivity]. by left.
Defined.

Lemma sanitize_no_leading_sep (name : string) :
  Str.startswith_sep (Sample.sanitize name) = false.
Proof. destruct name as [|c r]; [done|]. simpl. by destruct (Str.is_sep c) eqn:E. Qed.

Lemma served_download_is_repeatable_witness :
  let req := Sample.post "parcels.zip" (Zip (Sample.bundle "parcels" "EPSG:4326"))
               "EPSG:3857" in
  let st := fst (reproject_api Sample.lib req Sample.boot) in
  let record := {| path := "tmp_________/reprojected_EPSG3857.zip";
                   temp_dirs := ["tmp_"; "tmp_____"; "tmp_________"] |} in
  (reachable Sample.lib st
   ∧ temp_file_store st !! "reprojected_EPSG3857.zip" = Some record)
  ∧ ∃ data,
      download_served "reprojected_EPSG3857.zip" st
      = (st, Ok (Attachment 200 "reprojected_EPSG3857.zip" data))
      ∧ download_served "reprojected_EPSG3857.zip"
          (fst (download_served "reprojected_EPSG3857.zip" st))
        = (st, Ok (Attachment 200 "reprojected_EPSG3857.zip" data)).
Proof.
  cbv zeta.
  assert (reachable Sample.lib
            (fst (reproject_api Sample.lib
                    (Sample.post "parcels.zip"
                       (Zip (Sample.bundle "parcels" "EPSG:4326")) "EPSG:3857")
                    Sample.boot))) as Hreach
    by apply reach_upload, (reach_start Sample.lib []).
  split; [split; [exact Hreach|reflexivity]|].
  destruct (served_download_is_repeatable Sample.lib _ "reprojected_EPSG3857.zip"
              {| path := "tmp_________/reprojected_EPSG3857.zip";
                 temp_dirs := ["tmp_"; "tmp_____"; "tmp_________"] |}
              sanitize_no_leading_sep Hreach eq_refl)
    as (data & Hfirst & _ & Hsecond & _).
  exists data. split; [exact Hfirst | exact Hsecond].
Defined.

Lemma reproject_failure_removes_input_dir_witness :
  let ms := Sample.bundle "parcels" "" in
  (check_shapefile_completeness "tmp_/parcels.zip" (Sample.saved ms)
   = (Sample.saved ms ++
        [("tmp_____", Dir [("parcels.shp", File (Bytes "geometry"));
                        ("parcels.shx", File (Bytes "index"));
                        ("parcels.dbf", File (Bytes "attributes"));
                        ("parcels.prj", File (Bytes ""))])],
      Ok ("tmp_____/parcels.shp", "tmp_____"))
   ∧ reproject_shapefile Sample.lib "tmp_/parcels.zip" "EPSG:3857" (Sample.saved ms)
     = (Sample.saved ms, Raise (ValueError "No CRS information found in shapefile.")))
  ∧ path_exists "tmp_____" (Sample.saved ms) = false
  ∧ ∀ p, fs_lookup ("tmp_____" +:+ "/" +:+ p) (Sample.saved ms) = None.
Proof.
  cbv zeta. split; [split; reflexivity|].
  destruct (reproject_failure_removes_input_dir Sample.lib
              "tmp_/parcels.zip" "EPSG:3857" (Sample.saved (Sample.bundle "parcels" ""))
              _ _ _ _ _ eq_refl eq_refl) as (s2 & _ & _ & Hgone & Hbelow).
  split; [exact Hgone | exact Hbelow].
Defined.

Lemma validate_leaves_no_scratch_dir_witness :
  (Str.endswith (Str.lower "tmp_/parcels.zip") ".zip" = true
   ∧ fs_lookup "tmp_/parcels.zip" (Sample.saved Sample.nested)
     = Some (File (Zip Sample.nested)))
  ∧ check_shapefile_completeness "tmp_/parcels.zip" (Sample.saved Sample.nested)
    = (Sample.saved Sample.nested,
       Raise (FileNotFoundError "No .shp file found in the zipped folder."))
  ∧ path_exists "tmp_____" (Sample.saved Sample.nested) = false.
Proof.
  split; [split; reflexivity|]. split; [reflexivity|].
  destruct (validate_leaves_no_scratch_dir "tmp_/parcels.zip"
              (Sample.saved Sample.nested) Sample.nested eq_refl eq_refl)
    as [Hraise _].
  destruct (Hraise (Sample.saved Sample.nested)
              (FileNotFoundError "No .shp file found in the zipped folder.")
              eq_refl) as (_ & Hgone & _).
  exact Hgone.
Defined.

Lemma output_archive_named_after_target_witness :
  let ms := Sample.bundle "parcels" "EPSG:4326" in
  ∃ s',
    reproject_shapefile Sample.lib "tmp_/parcels.zip" "EPSG:3857" (Sample.saved ms)
    = (s', Ok ("tmp_________/reprojected_EPSG3857.zip", "tmp_____", "tmp_________"))
    ∧ Path.basename "tmp_________/reprojected_EPSG3857.zip"
      = "reprojected_" +:+ Str.remove_colons "EPSG:3857" +:+ ".zip"
    ∧ "tmp_________" ≠ "tmp_____"
    ∧ path_exists "tmp_________" (Sample.saved ms) = false.
Proof.
  cbv zeta. eexists. split; [vm_compute; reflexivity|].
  destruct (output_archive_named_after_target Sample.lib
              "tmp_/parcels.zip" "EPSG:3857"
              (Sample.saved (Sample.bundle "parcels" "EPSG:4326")) _
              "tmp_________/reprojected_EPSG3857.zip" "tmp_____" "tmp_________"
              ltac:(vm_compute; reflexivity))
    as (_ & Hname & Hne & Hfresh & _).
  split; [exact Hname|]. split; [exact Hne | exact Hfresh].
Defined.

Lemma upload_checks_in_order_witness :
  let req :=
    {| files_file := Some {| filename := "parcels.tar"; payload := Bytes "" |};
       form_target_crs := None;
       host_url := "http://localhost:5000/" |} in
  (check_fails Sample.lib req FileName = true
   ∧ check_fails Sample.lib req FileField = false
   ∧ check_fails Sample.lib req TargetField = true)
  ∧ reproject_api Sample.lib req Sample.boot
    = (Sample.boot,
       Ok (Json 400
             [("error",
               "No selected file or invalid file type. Please upload a .zip file.")])).
Proof.
  cbv zeta. split; [repeat split; reflexivity|].
  refine (upload_checks_in_order Sample.lib
           {| files_file := Some {| filename := "parcels.tar"; payload := Bytes "" |};
              form_target_crs := None;
              host_url := "http://localhost:5000/" |}
           Sample.boot FileName eq_refl _).
  intros [] Hrank; simpl in Hrank; (reflexivity || lia).
Defined.

Lemma same_target_replaces_record_witness :
  let req1 := Sample.post "parcels.zip" (Zip (Sample.bundle "parcels" "EPSG:4326"))
                "EPSG:3857" in
  let req2 := Sample.post "roads.zip" (Zip (Sample.bundle "roads" "EPSG:4326"))
                "EPSG:3857" in
  let st1 := fst (reproject_api Sample.lib req1 Sample.boot) in
  let st2 := fst (reproject_api Sample.lib req2 st1) in
  ∃ record1 record2,
    temp_file_store st1 !! "reprojected_EPSG3857.zip" = Some record1
    ∧ temp_file_store st2 !! "reprojected_EPSG3857.zip" = Some record2
    ∧ length (temp_dirs record1) = 3
    ∧ ∀ d, d ∈ temp_dirs record1 →
           path_exists d (disk st2) = true
           ∧ ∀ id record, temp_file_store st2 !! id = Some record →
                          d ∉ temp_dirs record.
Proof.
  cbv zeta.
  destruct (same_target_replaces_record Sample.lib
              (Sample.post "parcels.zip" (Zip (Sample.bundle "parcels" "EPSG:4326"))
                 "EPSG:3857")
              (Sample.post "roads.zip" (Zip (Sample.bundle "roads" "EPSG:4326"))
                 "EPSG:3857")
              Sample.boot _ _ _ _ "EPSG:3857"
              sanitize_no_leading_sep (reach_start Sample.lib [])
              eq_refl eq_refl
              ltac:(vm_compute; reflexivity) ltac:(vm_compute; reflexivity))
    as (r1 & r2 & _ & _ & H1 & H2 & Hlen & Hdirs).
  exists r1, r2. split; [exact H1|]. split; [exact H2|]. split; [exact Hlen|exact Hdirs].
Defined.

Lemma cleanup_unregisters_when_removal_fails_witness :
  let file_id := "reprojected_EPSG3857.zip" in
  let file_data :=
    {| path := "tmp__/reprojected_EPSG3857.zip"; temp_dirs := ["tmp_"; "tmp__"] |} in
  rmtree_each (temp_dirs file_data) (disk Sample.stale)
  = (disk Sample.stale,
     Raise (FileNotFoundError "[Errno 2] No such file or directory: 'tmp_'"))
  ∧ disk (fst (cleanup_files file_id file_data Sample.stale)) = disk Sample.stale
  ∧ path_exists "tmp__" (disk (fst (cleanup_files file_id file_data Sample.stale))) = true
  ∧ temp_file_store (fst (cleanup_files file_id file_data Sample.stale)) !! file_id = None
  ∧ download_file file_id (fst (cleanup_files file_id file_data Sample.stale))
    = (fst (cleanup_files file_id file_data Sample.stale),
       Ok (Json 404 [("error", "File not found or has expired")], None)).
Proof.
  cbv zeta. split; [reflexivity|].
  destruct (cleanup_unregisters_when_removal_fails "reprojected_EPSG3857.zip"
              {| path := "tmp__/reprojected_EPSG3857.zip";
                 temp_dirs := ["tmp_"; "tmp__"] |}
              Sample.stale (disk Sample.stale)
              (FileNotFoundError "[Errno 2] No such file or directory: 'tmp_'")
              eq_refl)
    as (_ & Hdisk & _ & _ & Hgone & _ & Hmiss).
  split; [exact Hdisk|]. split; [by rewrite Hdisk|].
  split; [exact Hgone | exact Hmiss].
Defined.

(** ** When the engine fails *)

Lemma check_raises_restores (zip_path : string) (s s' : fs) (e : exn) :
  check_shapefile_completeness zip_path s = (s', Raise e) → s' = s.
Proof.
  destruct (Str.endswith (Str.lower zip_path) ".zip") eqn:Hzip.
  2:{ unfold check_shapefile_completeness. rewrite Hzip. by intros [= <- _]. }
  destruct (fs_lookup zip_path s) as [[es|[b|ms]]|] eqn:Hfile.
  1,2,4: unfold check_shapefile_completeness; rewrite Hzip; cbn [negb];
         unfold bind, gets, is_zipfile; rewrite Hfile; by intros [= <- _].
  rewrite (check_shapefile_completeness_run _ _ ms Hzip Hfile). cbv zeta.
  destruct (unpack (fresh_name s) ms []) as [es [[]|e']]; [|by intros [= <- _]].
  destruct (shp_files (map fst es)) as [|first rest]; [by intros [= <- _]|].
  destruct (missing_exts _ _) as [|m1 m]; [done|]. by intros [= <- _].
Qed.

Lemma makedirs_in_single (c : string) (es es' : list (string * node)) :
  makedirs_in [c] es = Some es' → ∃ W, assoc c es' = Some (Dir W).
Proof.
  cbn [makedirs_in]. destruct (assoc c es) as [[sub|]|]; [|done|];
    intros [= <-]; rewrite assoc_set_child_eq; eauto.
Qed.

Lemma components_fresh_sub (s : fs) (sub : string) :
  plain sub = true →
  Path.components (fresh_name s +:+ "/" +:+ sub) = [fresh_name s; sub].
Proof.
  intros [H1 H2]%plain_spec.
  by rewrite components_app_sep, components_fresh_name, components_plain.
Qed.

(** Storing below a directory [sub] of the scratch directory changes
    nothing outside the scratch directory, and [sub] stays a directory. *)
Lemma store_in_sub (s : fs) (sub name : string) (x : node)
    (es W : list (string * node)) :
  plain sub = true →
  assoc sub es = Some (Dir W) →
  ∃ es' W',
    fst (store_in (fresh_name s +:+ "/" +:+ sub) name x (s ++ [(fresh_name s, Dir es)]))
    = s ++ [(fresh_name s, Dir es')]
    ∧ assoc sub es' = Some (Dir W').
Proof.
  intros Hsub HW. unfold store_in. rewrite components_fresh_sub by done.
  cbn [Datatypes.app]. rewrite put_in_last by apply assoc_fresh_name.
  rewrite put_in_cons, HW. cbn [put_in fmap option_fmap option_map].
  destruct x as [e|d];
    [|destruct (lookup_in _ _) as [[|]|]; [by exists es, W|..]];
    (eexists _, _; split; [reflexivity|]; by rewrite assoc_set_child_eq).
Qed.

Lemma write_files_sub (s : fs) (sub : string) (files : list (string * fdata))
    (es W : list (string * node)) :
  plain sub = true →
  assoc sub es = Some (Dir W) →
  ∃ es' W',
    fst (write_files (fresh_name s +:+ "/" +:+ sub) files (s ++ [(fresh_name s, Dir es)]))
    = s ++ [(fresh_name s, Dir es')]
    ∧ assoc sub es' = Some (Dir W').
Proof.
  intros Hsub. revert es W. induction files as [|[name data] files IH]; intros es W HW.
  - by exists es, W.
  - cbn [write_files]. unfold bind.
    destruct (store_in_sub s sub name (File data) es W Hsub HW) as (es1 & W1 & Hs & HW1).
    destruct (store_in _ _ _ _) as [s1 [[]|e]]; simpl in Hs; subst s1.
    + by apply (IH es1 W1).
    + by exists es1, W1.
Qed.

Section EngineFails.

Context (L : libs).

Lemma gdf_to_file_sub (g : gdf L) (s : fs) (b : string)
    (es W : list (string * node)) :
  Str.has_sep b = false →
  assoc "reprojected" es = Some (Dir W) →
  ∃ es' W',
    fst (gdf_to_file L g (Path.join (fresh_name s +:+ "/" +:+ "reprojected") b)
           (s ++ [(fresh_name s, Dir es)]))
    = s ++ [(fresh_name s, Dir es')]
    ∧ assoc "reprojected" es' = Some (Dir W').
Proof.
  intros Hb HW. unfold gdf_to_file.
  destruct (to_file L g _) as [files err].
  assert (Path.dirname (Path.join (fresh_name s +:+ "/" +:+ "reprojected") b)
          = fresh_name s +:+ "/" +:+ "reprojected") as ->.
  { assert (ours [] (fresh_name s)) as Ho by (split; [eauto|done]).
    destruct (ours_join_below [] (fresh_name s) b Ho Hb) as [_ Hdir].
    by rewrite join_fresh_name in Hdir. }
  unfold bind.
  destruct (write_files_sub s "reprojected" files es W eq_refl HW)
    as (es1 & W1 & Hs & HW1).
  destruct (write_files _ _ _) as [s1 [[]|e]]; simpl in Hs; subst s1.
  - destruct err; by exists es1, W1.
  - by exists es1, W1.
Qed.

(** A failure of the steps after the validation happens before the output
    directory is made, when the name of the output archive is a single
    path component: the file system differs from the one before the
    validation by the input scratch directory only. *)
Lemma reproject_try_raises_inside (shp_path target_crs : string) (s s' : fs)
    (es : list (string * node)) (e : exn) :
  Str.has_sep target_crs = false →
  reproject_try L shp_path (fresh_name s) target_crs (s ++ [(fresh_name s, Dir es)])
  = (s', Raise e) →
  ∃ es', s' = s ++ [(fresh_name s, Dir es')].
Proof.
  intros Hsep. unfold reproject_try.
  unfold bind at 1. unfold call at 1.
  destruct (read_file L shp_path _) as [g|e1]; [|intros [= <- _]; eauto].
  destruct (negb (has_crs L g)); [intros [= <- _]; eauto|].
  unfold bind at 1. unfold call at 1.
  destruct (to_crs L g target_crs) as [g'|e1]; [|intros [= <- _]; eauto].
  rewrite join_fresh_name by done.
  unfold bind at 1. unfold makedirs at 1. rewrite components_fresh_sub by done.
  rewrite makedirs_in_last by apply assoc_fresh_name.
  destruct (makedirs_in ["reprojected"] es) as [es2|] eqn:Hmk;
    cbn [fmap option_fmap option_map]; [|intros [= <- _]; eauto].
  destruct (makedirs_in_single _ _ _ Hmk) as [W2 HW2].
  unfold bind at 1.
  destruct (gdf_to_file_sub g' s (Path.basename shp_path) es2 W2
              (basename_no_sep shp_path) HW2) as (es3 & W3 & Hs3 & HW3).
  destruct (gdf_to_file L g' _ _) as [s3 [[]|e1]]; simpl in Hs3; subst s3;
    [|intros [= <- _]; eauto].
  set (s3 := s ++ [(fresh_name s, Dir es3)]).
  assert (plain (output_name target_crs) = true) as Hpo.
  { apply plain_spec. split; [by apply has_sep_output_name|done]. }
  unfold bind at 1. unfold mkdtemp at 1.
  rewrite join_fresh_name by done.
  unfold bind at 1. rewrite write_file_fresh_last by done. cbn [set_child].
  unfold bind at 1. unfold listdir at 1, fs_lookup.
  rewrite components_fresh_sub by done.
  assert (lookup_in [fresh_name s; "reprojected"]
            (s3 ++ [(fresh_name s3, Dir [(output_name target_crs, File (Zip []))])])
          = Some (Dir W3)) as ->.
  { apply lookup_in_app_some. unfold s3.
    rewrite lookup_in_last by apply assoc_fresh_name. simpl. by rewrite HW3. }
  unfold bind at 1. unfold gets at 1.
  unfold bind at 1. rewrite write_file_fresh_last; [done|done|].
  intros e0. cbn [assoc]. by rewrite String.eqb_refl.
Qed.

(** When [reproject_shapefile] raises, and the target CRS has no path
    separator, the file system is the one before the call. *)
Lemma reproject_shapefile_raises_restores (zip_path target_crs : string)
    (s s' : fs) (e : exn) :
  Str.has_sep target_crs = false →
  reproject_shapefile L zip_path target_crs s = (s', Raise e) →
  s' = s.
Proof.
  intros Hsep. unfold reproject_shapefile. unfold bind at 1. unfold try_except at 1.
  destruct (check_shapefile_completeness zip_path s) as [s1 [[shp_path d]|e1]] eqn:Hcheck.
  - destruct (check_shapefile_completeness_returns _ _ _ _ _ Hcheck)
      as (ms & es & first & rest & _ & _ & -> & _ & -> & _).
    unfold try_except.
    destruct (reproject_try L shp_path _ target_crs _) as [s2 [a|e2]] eqn:Htry; [done|].
    destruct (reproject_try_raises_inside _ _ _ _ _ _ Hsep Htry) as [es' ->].
    unfold reproject_except, bind, gets, path_exists.
    rewrite fs_lookup_fresh_last.
    destruct (String.eqb_spec (fresh_name s) "") as [H|_];
      [by destruct (fresh_name_nonempty s)|].
    cbn [negb andb]. rewrite rmtree_fresh_last. by intros [= <- _].
  - apply check_raises_restores in Hcheck as ->.
    unfold reproject_except. by intros [= <- _].
Qed.

End EngineFails.

(** ** The answers of the upload handler to a failure *)

Lemma remove_child_app (c : string) (a b : list (string * node)) :
  remove_child c (a ++ b) = remove_child c a ++ remove_child c b.
Proof.
  induction a as [|[m y] a IH]; [done|]. simpl.
  destruct (String.eqb m c); [done|]. by rewrite IH.
Qed.

Lemma rmtree_fresh_middle (s t : fs) (es : list (string * node)) :
  assoc (fresh_name s) t = None →
  rmtree (fresh_name s) ((s ++ [(fresh_name s, Dir es)]) ++ t) = (s ++ t, Ok tt).
Proof.
  intros Ht. unfold rmtree, fs_lookup. rewrite components_fresh_name.
  rewrite (lookup_in_app_some _ (Dir es))
    by by rewrite lookup_in_last by apply assoc_fresh_name.
  cbn [remove_in].
  rewrite (assoc_app_some _ (Dir es))
    by by rewrite assoc_app_last by apply assoc_fresh_name.
  rewrite remove_child_app, remove_child_app_last by apply assoc_fresh_name.
  by rewrite remove_child_absent.
Qed.

Lemma app_eta (st : app) :
  {| disk := disk st; temp_file_store := temp_file_store st; stdout := stdout st |} = st.
Proof. by destruct st. Qed.

Section Answers.

Context (L : libs).

(** The handler up to the call of the engine, for a sanitised file name
    that is a single path component. *)
Lemma reproject_api_saved (req : request) (st : app) (file : upload)
    (target_crs : string) :
  accepted L req file target_crs →
  plain (secure_filename L (filename file)) = true →
  reproject_api L req st
  = reproject_and_register L req (fresh_name (disk st)) (saved_path L st file) target_crs
      {| disk := saved_upload L st file;
         temp_file_store := temp_file_store st;
         stdout := stdout st |}.
Proof.
  intros (Hfile & Hzip & Ht & Hne & Hvalid) Hplain.
  rewrite (reproject_api_checks_pass L req st file target_crs) by done.
  unfold bind at 1. unfold on_disk at 1, mkdtemp. cbn [disk temp_file_store stdout].
  rewrite join_fresh_name by by apply startswith_sep_plain; apply plain_spec in Hplain as [? ?].
  unfold bind at 1. unfold on_disk at 1. cbn [disk temp_file_store stdout].
  by rewrite write_file_fresh_last by done.
Qed.

Lemma reproject_api_engine_raises (req : request) (st : app) (file : upload)
    (target_crs : string) (t : fs) (e : exn) :
  accepted L req file target_crs →
  plain (secure_filename L (filename file)) = true →
  reproject_shapefile L (saved_path L st file) target_crs (saved_upload L st file)
  = (saved_upload L st file ++ t, Raise e) →
  assoc (fresh_name (disk st)) t = None →
  reproject_api L req st
  = ({| disk := disk st ++ t;
        temp_file_store := temp_file_store st;
        stdout := stdout st |}, Ok (error_answer e)).
Proof.
  intros Hacc Hplain Hrun Ht. rewrite (reproject_api_saved req st file target_crs) by done.
  unfold reproject_and_register, try_except.
  unfold bind at 1. unfold on_disk at 1. cbn [disk temp_file_store stdout].
  rewrite Hrun. unfold saved_upload.
  destruct e; unfold bind, on_disk, ret, error_answer;
    cbn [disk temp_file_store stdout]; by rewrite rmtree_fresh_middle.
Qed.

Lemma reproject_api_engine_restores (req : request) (st : app) (file : upload)
    (target_crs : string) (e : exn) :
  accepted L req file target_crs →
  plain (secure_filename L (filename file)) = true →
  reproject_shapefile L (saved_path L st file) target_crs (saved_upload L st file)
  = (saved_upload L st file, Raise e) →
  reproject_api L req st = (st, Ok (error_answer e)).
Proof.
  intros Hacc Hplain Hrun.
  rewrite (reproject_api_engine_raises req st file target_crs [] e); try done.
  - by rewrite app_nil_r, app_eta.
  - by rewrite app_nil_r.
Qed.

Lemma reproject_api_engine_returns (req : request) (st : app) (file : upload)
    (target_crs : string) (s3 : fs) (out d_in d_out : string) :
  accepted L req file target_crs →
  plain (secure_filename L (filename file)) = true →
  reproject_shapefile L (saved_path L st file) target_crs (saved_upload L st file)
  = (s3, Ok (out, d_in, d_out)) →
  ∃ st' body, reproject_api L req st = (st', Ok (Json 200 body)).
Proof.
  intros Hacc Hplain Hrun. rewrite (reproject_api_saved req st file target_crs) by done.
  unfold reproject_and_register, try_except.
  unfold bind at 1. unfold on_disk at 1. cbn [disk temp_file_store stdout].
  rewrite Hrun. unfold bind, register, ret. cbn. eauto.
Qed.

(** A request either fails one of the four checks, and is answered with
    status 400 in the same state, or passes them all. *)
Lemma reproject_api_checked (req : request) (st : app) :
  (∃ msg, reproject_api L req st = (st, Ok (json_error 400 msg)))
  ∨ ∃ file target_crs, accepted L req file target_crs.
Proof.
  unfold reproject_api, accepted.
  destruct (files_file req) as [file|]; [|left; eauto].
  destruct (String.eqb (filename file) "") eqn:Hname; [left; eauto|].
  destruct (Str.endswith (Str.lower (filename file)) ".zip") eqn:Hzip;
    [|left; eauto].
  destruct (form_target_crs req) as [[|c t]|]; [left; eauto| |left; eauto].
  destruct (crs_valid L (String c t)) eqn:Hvalid; [|left; eauto].
  right. by exists file, (String c t).
Qed.

End Answers.

(** ** Uploads that are refused after the four checks *)

Lemma saved_upload_lookup (L : libs) (st : app) (file : upload) :
  plain (secure_filename L (filename file)) = true →
  fs_lookup (saved_path L st file) (saved_upload L st file)
  = Some (File (payload file)).
Proof.
  intros Hplain. unfold saved_path, saved_upload.
  rewrite fs_lookup_fresh_child by done. cbn [assoc]. by rewrite String.eqb_refl.
Qed.

Lemma check_run_ok (zip_path : string) (s : fs) (ms : list (string * option node))
    (es : list (string * node)) (first : string) (rest : list string) :
  Str.endswith (Str.lower zip_path) ".zip" = true →
  fs_lookup zip_path s = Some (File (Zip ms)) →
  unpack (fresh_name s) ms [] = (es, Ok tt) →
  shp_files (map fst es) = first :: rest →
  Str.has_sep first = false →
  forallb (λ ext, has_child (fst (Path.splitext first) +:+ ext) es) required_exts
  = true →
  check_shapefile_completeness zip_path s
  = (s ++ [(fresh_name s, Dir es)], Ok (fresh_name s +:+ "/" +:+ first, fresh_name s)).
Proof.
  intros Hzip Hfile Hun Hshp Hfirst Hall.
  rewrite (check_shapefile_completeness_run _ _ ms Hzip Hfile). cbv zeta.
  rewrite Hun, Hshp. rewrite missing_exts_below by done.
  rewrite filter_forallb by done.
  by rewrite join_fresh_name by by apply startswith_sep_plain.
Qed.

Lemma reproject_except_fresh {A} (s t : fs) (es : list (string * node))
    (e : exn) :
  assoc (fresh_name s) t = None →
  @reproject_except A (Some (fresh_name s)) e ((s ++ [(fresh_name s, Dir es)]) ++ t)
  = (s ++ t, Raise e).
Proof.
  intros Ht. unfold reproject_except, bind, gets, path_exists, fs_lookup.
  rewrite components_fresh_name.
  rewrite (lookup_in_app_some _ (Dir es))
    by by rewrite lookup_in_last by apply assoc_fresh_name.
  destruct (String.eqb_spec (fresh_name s) "") as [H|_];
    [by destruct (fresh_name_nonempty s)|].
  cbn [negb andb]. by rewrite rmtree_fresh_middle.
Qed.

Lemma unpack_raises_other (dest : string) (ms : list (string * option node))
    (es es' : list (string * node)) (e : exn) :
  unpack dest ms es = (es', Raise e) → ∃ class msg, e = OtherError class msg.
Proof.
  revert es. induction ms as [|[name [x|]] ms IH]; intros es; cbn [unpack].
  - done.
  - destruct x as [sub|data].
    + destruct (assoc name es) as [[|]|]; apply IH.
    + destruct (assoc name es) as [[|]|]; [|apply IH..].
      intros [= _ <-]. unfold is_a_directory, os_error. eauto.
  - intros [= _ <-]. eauto.
Qed.


Lemma endswith_past_sep (a b suf : string) :
  Str.has_sep suf = false →
  Str.endswith (a +:+ "/" +:+ b) suf = Str.endswith b suf.
Proof.
  intros Hsuf. destruct (Str.endswith b suf) eqn:Hb.
  { by apply endswith_app, endswith_app. }
  assert (∀ x, Str.has_sep x = true → String.eqb x suf = false) as Hne.
  { intros x Hx. apply String.eqb_neq. intros ->. by rewrite Hx in Hsuf. }
  induction a as [|c a IH].
  - rewrite app_nil_l. change ("/" +:+ b) with (String "/" b).
    cbn [Str.endswith]. by rewrite Hne, Hb.
  - rewrite app_cons. cbn [Str.endswith]. rewrite IH.
    rewrite Hne; [done|]. simpl. rewrite has_sep_app, has_sep_sep.
    by rewrite !orb_true_r.
Qed.

Section Refusals.

Context (L : libs).

Lemma reproject_shapefile_check_raises (zip_path target_crs : string) (s : fs) (e : exn) :
  check_shapefile_completeness zip_path s = (s, Raise e) →
  reproject_shapefile L zip_path target_crs s = (s, Raise e).
Proof.
  intros Hcheck. unfold reproject_shapefile. unfold bind at 1. unfold try_except at 1.
  by rewrite Hcheck.
Qed.

(** The engine when the validation has passed. *)
Lemma reproject_shapefile_validated (zip_path target_crs : string) (s : fs)
    (ms : list (string * option node)) (es : list (string * node))
    (first : string) (rest : list string) :
  Str.endswith (Str.lower zip_path) ".zip" = true →
  fs_lookup zip_path s = Some (File (Zip ms)) →
  unpack (fresh_name s) ms [] = (es, Ok tt) →
  shp_files (map fst es) = first :: rest →
  Str.has_sep first = false →
  forallb (λ ext, has_child (fst (Path.splitext first) +:+ ext) es) required_exts
  = true →
  reproject_shapefile L zip_path target_crs s
  = try_except
      (reproject_try L (fresh_name s +:+ "/" +:+ first) (fresh_name s) target_crs)
      (reproject_except (Some (fresh_name s)))
      (s ++ [(fresh_name s, Dir es)]).
Proof.
  intros Hzip Hfile Hun Hshp Hfirst Hall.
  unfold reproject_shapefile. unfold bind at 1. unfold try_except at 1.
  by rewrite (check_run_ok _ _ ms es first rest).
Qed.

Lemma saved_path_zip (st : app) (file : upload) :
  Str.endswith (Str.lower (secure_filename L (filename file))) ".zip" = true →
  Str.endswith (Str.lower (saved_path L st file)) ".zip" = true.
Proof.
  intros Hzip. unfold saved_path. rewrite !lower_app.
  by apply endswith_app, endswith_app.
Qed.

End Refusals.

(** ** Failures of an upload, as the client and the disk see them *)

Lemma rmtree_top_dir (c : string) (s : fs) (es : list (string * node)) :
  Path.components c = [c] → assoc c s = Some (Dir es) →
  rmtree c s = (remove_child c s, Ok tt).
Proof.
  intros Hc Hs. unfold rmtree, fs_lookup. rewrite Hc. cbn [lookup_in remove_in].
  by rewrite Hs.
Qed.

(** X1.  An upload whose sanitised file name is an ordinary name, and for
    whose target CRS the name of the output archive is an ordinary name as
    well, is answered with status 200, or leaves the process as it found
    it: the same disk, the same registry, nothing printed. *)
Theorem failed_upload_leaves_no_trace (L : libs) (req : request) (st st' : app)
    (resp : response) :
  (∀ file, files_file req = Some file →
           ordinary (secure_filename L (filename file)) = true) →
  (∀ t, form_target_crs req = Some t → ordinary (output_name t) = true) →
  reproject_api L req st = (st', Ok resp) →
  status_of resp ≠ 200 →
  st' = st.
Proof.
  intros Hname Hout Hrun Hstatus.
  assert (∀ file, files_file req = Some file →
            plain (secure_filename L (filename file)) = true) as Hplain
    by (intros file Hfile; by apply ordinary_plain, Hname).
  assert (∀ t, form_target_crs req = Some t → Str.has_sep t = false) as Hsep.
  { intros t Ht. apply Hout, ordinary_plain, plain_spec in Ht as [Ht _].
    by rewrite has_sep_output_name_eq in Ht. }
  destruct (reproject_api_checked L req st) as [[msg H]|(file & t & Hacc)].
  { rewrite H in Hrun. by injection Hrun as <- _. }
  pose proof Hacc as (Hfile & _ & Ht & _).
  destruct (reproject_shapefile L (saved_path L st file) t (saved_upload L st file))
    as [s3 [[[out d_in] d_out]|e]] eqn:Hengine.
  - destruct (reproject_api_engine_returns L req st file t _ _ _ _ Hacc
                (Hplain _ Hfile) Hengine) as (st2 & body & H).
    rewrite H in Hrun. injection Hrun as _ <-. by destruct Hstatus.
  - pose proof (reproject_shapefile_raises_restores L _ _ _ _ _ (Hsep _ Ht) Hengine)
      as ->.
    rewrite (reproject_api_engine_restores L req st file t e Hacc (Hplain _ Hfile) Hengine)
      in Hrun.
    by injection Hrun as <- _.
Qed.

Lemma failed_upload_leaves_no_trace_witness :
  let req := Sample.post "parcels.zip" (Zip Sample.partial) "EPSG:3857" in
  let st := fst (reproject_api Sample.lib
                   (Sample.post "parcels.zip"
                      (Zip (Sample.bundle "parcels" "EPSG:4326")) "EPSG:4326")
                   Sample.boot) in
  reproject_api Sample.lib req st
  = (st, Ok (Json 400 [("error", "Incomplete shapefile. Missing: .shx, .prj")])).
Proof.
  cbv zeta.
  set (req := Sample.post "parcels.zip" (Zip Sample.partial) "EPSG:3857").
  set (st := fst (reproject_api Sample.lib _ Sample.boot)).
  assert (reproject_api Sample.lib req st
          = (fst (reproject_api Sample.lib req st),
             Ok (Json 400 [("error", "Incomplete shapefile. Missing: .shx, .prj")])))
    as Hrun by (vm_compute; reflexivity).
  pose proof (failed_upload_leaves_no_trace Sample.lib req st _ _
                ltac:(intros file [= <-]; reflexivity)
                ltac:(intros t [= <-]; reflexivity)
                Hrun ltac:(simpl; lia)) as Hsame.
  rewrite Hsame in Hrun. exact Hrun.
Defined.

(** X2.  When the sanitised file name is an ordinary name, the upload
    handler answers every request: no exception leaves it, and the status
    is 200, 400 or 500. *)
Theorem upload_handler_always_answers (L : libs) (req : request) (st : app) :
  (∀ file, files_file req = Some file →
           ordinary (secure_filename L (filename file)) = true) →
  ∃ st' resp,
    reproject_api L req st = (st', Ok resp)
    ∧ (status_of resp = 200 ∨ status_of resp = 400 ∨ status_of resp = 500).
Proof.
  intros Hname.
  assert (∀ file, files_file req = Some file →
            plain (secure_filename L (filename file)) = true) as Hplain
    by (intros file Hfile; by apply ordinary_plain, Hname).
  destruct (reproject_api_checked L req st) as [[msg H]|(file & t & Hacc)].
  { rewrite H. eexists _, _. split; [done|]. right. by left. }
  pose proof Hacc as (Hfile & _).
  rewrite (reproject_api_saved L req st file t Hacc (Hplain _ Hfile)).
  unfold reproject_and_register, try_except.
  unfold bind at 1. unfold on_disk at 1. cbn [disk temp_file_store stdout].
  destruct (confined_reproject_shapefile L (saved_upload L st file)
              (saved_path L st file) t []) as (t' & Ht' & _).
  rewrite app_nil_r in Ht'.
  destruct (reproject_shapefile L _ _ _) as [s3 [[[out d_in] d_out]|e]];
    simpl in Ht'; subst s3.
  - unfold bind, register, ret. cbn. eexists _, _. split; [done|]. by left.
  - assert (rmtree (fresh_name (disk st)) (saved_upload L st file ++ t')
            = (remove_child (fresh_name (disk st)) (saved_upload L st file ++ t'), Ok tt))
      as Hrm.
    { eapply rmtree_top_dir; [apply components_fresh_name|].
      apply assoc_app_some. unfold saved_upload.
      by apply assoc_app_last, assoc_fresh_name. }
    destruct e; unfold bind, on_disk, ret; cbn [disk temp_file_store stdout];
      rewrite Hrm; eexists _, _; (split; [done|]); cbn; auto.
Qed.

Lemma upload_handler_always_answers_witness :
  ∃ st' resp,
    reproject_api Scenario.web
      (Sample.post "parcels.zip" (Zip (Sample.bundle "parcels" "EPSG:4326"))
         Scenario.ogc) Sample.boot
    = (st', Ok resp)
    ∧ (status_of resp = 200 ∨ status_of resp = 400 ∨ status_of resp = 500).
Proof.
  apply (upload_handler_always_answers Scenario.web).
  intros file [= <-]. reflexivity.
Defined.

(** X3.  When [reproject_shapefile] raises, whether in the validation or
    after it, and the name of the output archive for the target CRS is an
    ordinary name, the file system is the one before the call: no scratch
    directory is left. *)
Theorem failed_reprojection_restores_disk (L : libs) (zip_path target_crs : string)
    (s s' : fs) (e : exn) :
  ordinary (output_name target_crs) = true →
  reproject_shapefile L zip_path target_crs s = (s', Raise e) →
  s' = s.
Proof.
  intros [Hsep _]%ordinary_plain%plain_spec. rewrite has_sep_output_name_eq in Hsep.
  by apply reproject_shapefile_raises_restores.
Qed.

Lemma failed_reprojection_restores_disk_witness :
  let s := Sample.saved Scenario.crowded in
  reproject_shapefile Sample.lib "tmp_/parcels.zip" "EPSG:3857" s
  = (s, Raise (file_exists "tmp_____/reprojected")).
Proof.
  cbv zeta.
  assert (reproject_shapefile Sample.lib "tmp_/parcels.zip" "EPSG:3857"
            (Sample.saved Scenario.crowded)
          = (fst (reproject_shapefile Sample.lib "tmp_/parcels.zip" "EPSG:3857"
                    (Sample.saved Scenario.crowded)),
             Raise (file_exists "tmp_____/reprojected")))
    as Hrun by (vm_compute; reflexivity).
  pose proof (failed_reprojection_restores_disk Sample.lib
                "tmp_/parcels.zip" "EPSG:3857" (Sample.saved Scenario.crowded)
                _ _ eq_refl Hrun) as Hsame.
  rewrite Hsame in Hrun. exact Hrun.
Defined.

(** X4.  A file that passes the four checks by its name, and whose
    content has nowhere the four bytes with which the end-of-archive
    record of a zip file begins, is refused with status 400 and the message
    of the validator, and the scratch directory in which it was saved is
    removed: the process is as it was. *)
Theorem non_archive_upload_refused (L : libs) (req : request) (st : app)
    (file : upload) (target_crs content : string) :
  accepted L req file target_crs →
  ordinary (secure_filename L (filename file)) = true →
  Str.endswith (Str.lower (secure_filename L (filename file))) ".zip" = true →
  payload file = Bytes content →
  Str.contains content end_of_archive = false →
  reproject_api L req st
  = (st, Ok (Json 400 [("error", "The provided file is not a valid zip archive.")])).
Proof.
  intros Hacc Hplain%ordinary_plain Hzip Hbytes _.
  apply (reproject_api_engine_restores L req st file target_crs
           (ValueError "The provided file is not a valid zip archive.") Hacc Hplain).
  apply reproject_shapefile_check_raises.
  unfold check_shapefile_completeness.
  assert (Str.endswith (Str.lower (saved_path L st file)) ".zip" = true) as ->.
  { unfold saved_path. rewrite !lower_app. by apply endswith_app, endswith_app. }
  cbn [negb]. unfold bind, gets, is_zipfile.
  by rewrite saved_upload_lookup, Hbytes by done.
Qed.

Lemma non_archive_upload_refused_witness :
  reproject_api Sample.lib
    (Sample.post "parcels.zip" (Bytes "not an archive") "EPSG:3857") Sample.boot
  = (Sample.boot,
     Ok (Json 400 [("error", "The provided file is not a valid zip archive.")])).
Proof.
  apply (non_archive_upload_refused Sample.lib _ Sample.boot
           {| filename := "parcels.zip"; payload := Bytes "not an archive" |}
           "EPSG:3857" "not an archive").
  - repeat split; done.
  - reflexivity.
  - reflexivity.
  - reflexivity.
  - reflexivity.
Defined.

(** X5.  The validator looks at the name under which the upload was saved.
    When sanitising leaves a name that does not end in [.zip], the upload
    is refused with status 400 although its own name passed the check of
    the handler, and the process is as it was. *)
Theorem renamed_upload_refused (L : libs) (req : request) (st : app)
    (file : upload) (target_crs : string) :
  accepted L req file target_crs →
  plain (secure_filename L (filename file)) = true →
  Str.endswith (Str.lower (secure_filename L (filename file))) ".zip" = false →
  reproject_api L req st
  = (st, Ok (Json 400 [("error", "Input must be a zipped shapefile")])).
Proof.
  intros Hacc Hplain Hzip.
  apply (reproject_api_engine_restores L req st file target_crs
           (ValueError "Input must be a zipped shapefile") Hacc Hplain).
  apply reproject_shapefile_check_raises.
  unfold check_shapefile_completeness, saved_path.
  rewrite !lower_app. change (Str.lower "/") with "/".
  by rewrite endswith_past_sep, Hzip.
Qed.

Lemma renamed_upload_refused_witness :
  secure_filename Scenario.strict ".zip" = "zip"
  ∧ reproject_api Scenario.strict
      (Sample.post ".zip" (Zip (Sample.bundle "parcels" "EPSG:4326")) "EPSG:3857")
      Sample.boot
    = (Sample.boot, Ok (Json 400 [("error", "Input must be a zipped shapefile")])).
Proof.
  split; [reflexivity|].
  apply (renamed_upload_refused Scenario.strict _ Sample.boot
           {| filename := ".zip";
              payload := Zip (Sample.bundle "parcels" "EPSG:4326") |}
           "EPSG:3857").
  - repeat split; done.
  - reflexivity.
  - reflexivity.
Defined.

(** X6.  An upload of regular files with ordinary names, under an
    ordinary sanitised name, with a single [.shp] entry and its complete
    bundle, whose layer has no CRS, is refused with status 400 and the
    message of the engine, and both scratch directories made for it are
    removed: the process is as it was. *)
Theorem layer_without_crs_refused (L : libs) (req : request) (st : app)
    (file : upload) (target_crs : string) (ms : list (string * option node))
    (es : list (string * node)) (first : string) (g : gdf L) :
  accepted L req file target_crs →
  ordinary (secure_filename L (filename file)) = true →
  Str.endswith (Str.lower (secure_filename L (filename file))) ".zip" = true →
  payload file = Zip ms →
  flat ms = true →
  let s := saved_upload L st file in
  unpack (fresh_name s) ms [] = (es, Ok tt) →
  shp_files (map fst es) = [first] →
  forallb (λ ext, has_child (fst (Path.splitext first) +:+ ext) es) required_exts
  = true →
  read_file L (fresh_name s +:+ "/" +:+ first) (s ++ [(fresh_name s, Dir es)]) = Ok g →
  has_crs L g = false →
  reproject_api L req st
  = (st, Ok (Json 400 [("error", "No CRS information found in shapefile.")])).
Proof.
  intros Hacc Hplain%ordinary_plain Hzip Hpay Hflat s Hun Hshp Hall Hread Hcrs.
  pose proof (only_shp_plain _ ms es (Ok tt) first [] Hflat Hun Hshp) as Hfirst.
  apply (reproject_api_engine_restores L req st file target_crs
           (ValueError "No CRS information found in shapefile.") Hacc Hplain).
  rewrite (reproject_shapefile_validated L _ _ _ ms es first []);
    [|by apply saved_path_zip|by rewrite saved_upload_lookup, Hpay|done..].
  fold s. unfold try_except, reproject_try.
  unfold bind at 1. unfold call at 1. rewrite Hread, Hcrs. cbn [negb]. unfold raise.
  rewrite <- (app_nil_r (s ++ _)), reproject_except_fresh by done.
  by rewrite app_nil_r.
Qed.

Lemma layer_without_crs_refused_witness :
  reproject_api Sample.lib
    (Sample.post "parcels.zip" (Zip (Sample.bundle "parcels" "")) "EPSG:3857")
    Sample.boot
  = (Sample.boot, Ok (Json 400 [("error", "No CRS information found in shapefile.")])).
Proof.
  apply (layer_without_crs_refused Sample.lib _ Sample.boot
           {| filename := "parcels.zip"; payload := Zip (Sample.bundle "parcels" "") |}
           "EPSG:3857" (Sample.bundle "parcels" "")
           [("parcels.shp", File (Bytes "geometry"));
            ("parcels.shx", File (Bytes "index"));
            ("parcels.dbf", File (Bytes "attributes"));
            ("parcels.prj", File (Bytes ""))]
           "parcels.shp" "").
  - repeat split; done.
  - reflexivity.
  - reflexivity.
  - reflexivity.
  - reflexivity.
  - reflexivity.
  - reflexivity.
  - reflexivity.
  - reflexivity.
  - reflexivity.
Defined.



(** X8.  An archive of regular files with ordinary names that holds, next
    to its single [.shp] entry and the complete bundle of it, with a CRS, a
    regular file called [reprojected] is answered with status 500: the
    directory for the output cannot be made, and that error is neither a
    [ValueError] nor a [FileNotFoundError].  Both scratch directories are
    removed. *)
Theorem entry_named_reprojected_is_server_error (L : libs) (req : request) (st : app)
    (file : upload) (target_crs : string) (ms : list (string * option node))
    (es : list (string * node)) (first : string)
    (g g' : gdf L) (data : fdata) :
  accepted L req file target_crs →
  ordinary (secure_filename L (filename file)) = true →
  Str.endswith (Str.lower (secure_filename L (filename file))) ".zip" = true →
  payload file = Zip ms →
  flat ms = true →
  let s := saved_upload L st file in
  unpack (fresh_name s) ms [] = (es, Ok tt) →
  shp_files (map fst es) = [first] →
  forallb (λ ext, has_child (fst (Path.splitext first) +:+ ext) es) required_exts
  = true →
  read_file L (fresh_name s +:+ "/" +:+ first) (s ++ [(fresh_name s, Dir es)]) = Ok g →
  has_crs L g = true →
  to_crs L g target_crs = Ok g' →
  assoc "reprojected" es = Some (File data) →
  reproject_api L req st
  = (st, Ok (Json 500 [("error", "An unexpected error occurred: "
                                 +:+ "[Errno 17] File exists: '"
                                 +:+ (fresh_name s +:+ "/" +:+ "reprojected") +:+ "'")])).
Proof.
  intros Hacc Hplain%ordinary_plain Hzip Hpay Hflat s Hun Hshp Hall Hread Hcrs Hto Hfile.
  pose proof (only_shp_plain _ ms es (Ok tt) first [] Hflat Hun Hshp) as Hfirst.
  apply (reproject_api_engine_restores L req st file target_crs
           (file_exists (fresh_name s +:+ "/" +:+ "reprojected")) Hacc Hplain).
  rewrite (reproject_shapefile_validated L _ _ _ ms es first []);
    [|by apply saved_path_zip|by rewrite saved_upload_lookup, Hpay|done..].
  fold s. unfold try_except, reproject_try.
  unfold bind at 1. unfold call at 1. rewrite Hread, Hcrs. cbn [negb].
  unfold bind at 1. unfold call at 1. rewrite Hto.
  rewrite join_fresh_name by done.
  unfold bind at 1. unfold makedirs at 1. rewrite components_fresh_sub by done.
  rewrite makedirs_in_last by apply assoc_fresh_name.
  cbn [makedirs_in]. rewrite Hfile. cbn [fmap option_fmap option_map].
  rewrite <- (app_nil_r (s ++ _)), reproject_except_fresh by done.
  by rewrite app_nil_r.
Qed.

Lemma entry_named_reprojected_is_server_error_witness :
  reproject_api Sample.lib (Sample.post "parcels.zip" (Zip Scenario.crowded) "EPSG:3857")
    Sample.boot
  = (Sample.boot,
     Ok (Json 500 [("error", "An unexpected error occurred: "
                             +:+ "[Errno 17] File exists: '"
                             +:+ ("tmp_____" +:+ "/" +:+ "reprojected") +:+ "'")])).
Proof.
  apply (entry_named_reprojected_is_server_error Sample.lib _ Sample.boot
           {| filename := "parcels.zip"; payload := Zip Scenario.crowded |}
           "EPSG:3857" Scenario.crowded
           [("parcels.shp", File (Bytes "geometry"));
            ("parcels.shx", File (Bytes "index"));
            ("parcels.dbf", File (Bytes "attributes"));
            ("parcels.prj", File (Bytes "EPSG:4326"));
            ("reprojected", File (Bytes "notes"))]
           "parcels.shp" "EPSG:4326" "EPSG:3857" (Bytes "notes")).
  - repeat split; done.
  - reflexivity.
  - reflexivity.
  - reflexivity.
  - reflexivity.
  - reflexivity.
  - reflexivity.
  - reflexivity.
  - reflexivity.
  - reflexivity.
  - reflexivity.
  - reflexivity.
Defined.

(** ** A target CRS with a path separator *)

Lemma fresh_name_not_entry (s : fs) (n : string) :
  is_Some (assoc n s) → fresh_name s ≠ n.
Proof. intros [x Hx] <-. by rewrite assoc_fresh_name in Hx. Qed.

Lemma assoc_single_other (n m : string) (x : node) :
  n ≠ m → assoc m [(n, x)] = None.
Proof. intros Hne. simpl. by destruct (String.eqb_spec n m). Qed.

(** The archive cannot be opened for writing in the directory made for it
    when its name has a separator. *)
Lemma write_file_nested_fails (s : fs) (target_crs : string) (data : fdata) :
  Str.has_sep target_crs = true →
  write_file (fresh_name s +:+ "/" +:+ output_name target_crs) data
    (s ++ [(fresh_name s, Dir [])])
  = (s ++ [(fresh_name s, Dir [])],
     Raise (enoent (fresh_name s +:+ "/" +:+ output_name target_crs))).
Proof.
  intros Hsep. rewrite <- has_sep_output_name_eq in Hsep.
  destruct (output_name_components _ Hsep) as (c & c' & cs & Hc).
  unfold write_file, fs_lookup.
  rewrite components_app_sep, components_fresh_name, Hc. cbn [Datatypes.app].
  rewrite lookup_in_last by apply assoc_fresh_name.
  rewrite put_in_last by apply assoc_fresh_name.
  by rewrite put_in_cons.
Qed.

Lemma reproject_api_status_200 (L : libs) (req : request) (st st' : app)
    (resp : response) :
  reproject_api L req st = (st', Ok resp) →
  status_of resp = 200 →
  ∃ body, resp = Json 200 body.
Proof.
  unfold reproject_api.
  destruct (files_file req) as [file|]; [|by intros [= _ <-]].
  destruct (_ || _); [by intros [= _ <-]|].
  destruct (form_target_crs req) as [[|c t]|]; [by intros [= _ <-]| |by intros [= _ <-]].
  destruct (negb _); [by intros [= _ <-]|].
  unfold bind at 1. unfold on_disk at 1, mkdtemp. cbn [disk temp_file_store stdout].
  unfold bind at 1. unfold on_disk at 1. cbn [disk temp_file_store stdout].
  destruct (write_file _ _ _) as [s1 [[]|e]]; [|done].
  unfold reproject_and_register, try_except.
  unfold bind at 1. unfold on_disk at 1. cbn [disk temp_file_store stdout].
  destruct (reproject_shapefile L _ _ s1) as [s2 [[[out d_in] d_out]|e]].
  - unfold bind, register, ret. simpl. intros [= _ <-]. eauto.
  - destruct e; unfold bind, on_disk, ret; simpl;
      destruct (rmtree _ s2) as [? [|]]; by intros [= _ <-].
Qed.

(** X9.  No request whose target CRS has a path separator is answered with
    status 200, whatever it uploads and whatever the libraries do: the
    archive is named after the target CRS, and cannot be made under a name
    with a separator. *)
Theorem target_with_separator_never_succeeds (L : libs) (req : request)
    (st st' : app) (target_crs : string) (resp : response) :
  form_target_crs req = Some target_crs →
  Str.has_sep target_crs = true →
  reproject_api L req st = (st', Ok resp) →
  status_of resp ≠ 200.
Proof.
  intros Ht Hsep Hrun Hstatus.
  destruct (reproject_api_status_200 L req st st' resp Hrun Hstatus) as [body ->].
  destruct (reproject_api_ok L _ _ _ _ Hrun)
    as (file & t & s1 & out & d_in & d_out & _ & Ht' & _ & Hrep & _).
  rewrite Ht in Ht'. injection Ht' as <-.
  destruct (reproject_shapefile_summary L _ _ _ _ _ _ _ Hrep)
    as (s3 & _ & _ & _ & _ & _ & _ & Hplain & _).
  rewrite has_sep_output_name_eq in Hplain. congruence.
Qed.

Lemma target_with_separator_never_succeeds_witness :
  let req := Sample.post "parcels.zip" (Zip (Sample.bundle "parcels" "EPSG:4326"))
               Scenario.ogc in
  let resp :=
    Json 400 [("error", "[Errno 2] No such file or directory: "
                        +:+ "'tmp_________/reprojected_"
                        +:+ "http//www.opengis.net/def/crs/EPSG/0/3857.zip'")] in
  crs_valid Scenario.web Scenario.ogc = true
  ∧ snd (reproject_api Scenario.web req Sample.boot) = Ok resp
  ∧ status_of resp ≠ 200.
Proof.
  cbv zeta. split; [reflexivity|]. split; [vm_compute; reflexivity|].
  apply (target_with_separator_never_succeeds Scenario.web
           (Sample.post "parcels.zip" (Zip (Sample.bundle "parcels" "EPSG:4326"))
              Scenario.ogc)
           Sample.boot
           {| disk := [("tmp_________", Dir [])]; temp_file_store := ∅; stdout := [] |}
           Scenario.ogc).
  - reflexivity.
  - reflexivity.
  - vm_compute. reflexivity.
Defined.

(** X10.  A complete upload, of regular files with ordinary names and a
    single [.shp] entry, whose target CRS parses but has a path separator,
    such as the address of a CRS, is answered with status 400 after the
    layer was transformed and written: the output archive cannot be
    opened.  The target CRS is of printable characters without quote or
    backslash, and the name made from it has at most 255 bytes.  The
    upload directory and the input directory are removed, the empty
    directory made for the archive stays on disk, and nothing is registered
    that would ever remove it. *)
Theorem separator_in_target_leaks_output_dir (L : libs) (req : request) (st : app)
    (file : upload) (target_crs : string) (ms : list (string * option node))
    (es : list (string * node)) (first : string)
    (g g' : gdf L) (files : list (string * fdata)) :
  accepted L req file target_crs →
  ordinary (secure_filename L (filename file)) = true →
  Str.endswith (Str.lower (secure_filename L (filename file))) ".zip" = true →
  payload file = Zip ms →
  flat ms = true →
  Str.has_sep target_crs = true →
  quotable target_crs = true →
  String.length (output_name target_crs) ≤ 255 →
  let s := saved_upload L st file in
  let d := fresh_name s in
  unpack d ms [] = (es, Ok tt) →
  shp_files (map fst es) = [first] →
  forallb (λ ext, has_child (fst (Path.splitext first) +:+ ext) es) required_exts
  = true →
  has_child "reprojected" es = false →
  read_file L (d +:+ "/" +:+ first) (s ++ [(d, Dir es)]) = Ok g →
  has_crs L g = true →
  to_crs L g target_crs = Ok g' →
  to_file L g' ((d +:+ "/" +:+ "reprojected") +:+ "/" +:+ first) = (files, None) →
  let s5 := s ++ [(d, Dir (es ++ [("reprojected", Dir (stored files []))]))] in
  let o := fresh_name s5 in
  reproject_api L req st
  = ({| disk := disk st ++ [(o, Dir [])];
        temp_file_store := temp_file_store st;
        stdout := stdout st |},
     Ok (Json 400 [("error", "[Errno 2] No such file or directory: '"
                             +:+ (o +:+ "/" +:+ output_name target_crs) +:+ "'")])).
Proof.
  intros Hacc Hplain%ordinary_plain Hzip Hpay Hflat Hsep _ _ s d Hun Hshp Hall Hnew
    Hread Hcrs Hto Hwr s5 o.
  pose proof (only_shp_plain _ ms es (Ok tt) first [] Hflat Hun Hshp) as Hfirst.
  assert (plain first = true) as Hpf.
  { apply plain_spec. split; [done|]. by eapply shp_files_head. }
  assert (assoc "reprojected" es = None) as Hnew'.
  { unfold has_child in Hnew. by destruct (assoc "reprojected" es). }
  assert (o ≠ d) as Hod.
  { apply fresh_name_not_entry. unfold s5.
    rewrite assoc_app_last by apply assoc_fresh_name. eauto. }
  assert (o ≠ fresh_name (disk st)) as Hou.
  { apply fresh_name_not_entry. unfold s5, s, saved_upload.
    rewrite (assoc_app_some _ (Dir [(secure_filename L (filename file), File (payload file))]));
      [eauto|]. by apply assoc_app_last, assoc_fresh_name. }
  apply (reproject_api_engine_raises L req st file target_crs [(o, Dir [])]
           (enoent (o +:+ "/" +:+ output_name target_crs)) Hacc Hplain);
    [|by apply assoc_single_other].
  rewrite (reproject_shapefile_validated L _ _ _ ms es first []);
    [|by apply saved_path_zip|by rewrite saved_upload_lookup, Hpay|done..].
  fold s. fold d. unfold try_except, reproject_try.
  unfold bind at 1. unfold call at 1. rewrite Hread, Hcrs. cbn [negb].
  unfold bind at 1. unfold call at 1. rewrite Hto.
  unfold d. rewrite join_fresh_name by done.
  unfold bind at 1. rewrite makedirs_below by done.
  rewrite basename_join_plain by done.
  rewrite join_below by done.
  unfold bind at 1. unfold gdf_to_file. fold d. rewrite Hwr.
  rewrite dirname_join_plain by done.
  unfold bind at 1. unfold d.
  destruct (write_files_below s "reprojected" es eq_refl Hnew' files [])
    as [Hfiles _]; [done|].
  rewrite Hfiles. unfold ret at 1. fold d. fold s5.
  unfold bind at 1. unfold mkdtemp at 1. fold o.
  unfold o at 1. rewrite join_fresh_name by done. fold o.
  unfold bind at 1. unfold o. rewrite write_file_nested_fails by done. fold o.
  unfold s5, d. rewrite reproject_except_fresh; [done|].
  by apply assoc_single_other.
Qed.

Lemma separator_in_target_leaks_output_dir_witness :
  reproject_api Scenario.web
    (Sample.post "parcels.zip" (Zip (Sample.bundle "parcels" "EPSG:4326")) Scenario.ogc)
    Sample.boot
  = ({| disk := [("tmp_________", Dir [])]; temp_file_store := ∅; stdout := [] |},
     Ok (Json 400 [("error", "[Errno 2] No such file or directory: '"
                             +:+ ("tmp_________" +:+ "/" +:+ output_name Scenario.ogc)
                             +:+ "'")])).
Proof.
  apply (separator_in_target_leaks_output_dir Scenario.web _ Sample.boot
           {| filename := "parcels.zip";
              payload := Zip (Sample.bundle "parcels" "EPSG:4326") |}
           Scenario.ogc (Sample.bundle "parcels" "EPSG:4326")
           [("parcels.shp", File (Bytes "geometry"));
            ("parcels.shx", File (Bytes "index"));
            ("parcels.dbf", File (Bytes "attributes"));
            ("parcels.prj", File (Bytes "EPSG:4326"))]
           "parcels.shp" "EPSG:4326" Scenario.ogc
           [("parcels.shp", Bytes "geometry");
            ("parcels.shx", Bytes "index");
            ("parcels.dbf", Bytes "attributes");
            ("parcels.prj", Bytes Scenario.ogc);
            ("parcels.cpg", Bytes "UTF-8")]).
  - repeat split; done.
  - reflexivity.
  - reflexivity.
  - reflexivity.
  - reflexivity.
  - reflexivity.
  - reflexivity.
  - vm_compute. lia.
  - reflexivity.
  - reflexivity.
  - reflexivity.
  - reflexivity.
  - reflexivity.
  - reflexivity.
  - reflexivity.
  - reflexivity.
Defined.

(** ** The records of the registry *)

Lemma well_formed_same (L : libs) (s s' : fs) (file_id : string) (record : transfer) :
  (∀ d, d ∈ temp_dirs record → ∀ es, assoc d s = Some (Dir es) → assoc d s' = Some (Dir es)) →
  well_formed L s file_id record → well_formed L s' file_id record.
Proof.
  intros Hsame (u & d_in & d_out & t & Hdirs & Hnodup & Hthere & Hrest).
  exists u, d_in, d_out, t. split; [done|]. split; [done|]. split; [|done].
  intros d Hd. destruct (Hthere d Hd) as [Hfresh [es Hes]]. split; [done|].
  exists es. by apply Hsame.
Qed.

Lemma well_formed_app (L : libs) (s t : fs) (file_id : string) (record : transfer) :
  well_formed L s file_id record → well_formed L (s ++ t) file_id record.
Proof.
  apply well_formed_same. intros d _ es Hes. by apply assoc_app_some.
Qed.

Lemma reproject_api_ok_valid (L : libs) (req : request) (st st' : app)
    (body : list (string * string)) (target_crs : string) :
  reproject_api L req st = (st', Ok (Json 200 body)) →
  form_target_crs req = Some target_crs →
  crs_valid L target_crs = true.
Proof.
  intros Hrun Ht.
  destruct (reproject_api_checked L req st) as [[msg H]|(file & t & Hacc)].
  { rewrite H in Hrun. discriminate Hrun. }
  destruct Hacc as (_ & _ & Ht' & _ & Hvalid). congruence.
Qed.

(** What a successful upload registers. *)
Lemma reproject_api_ok_record (L : libs) (req : request) (st st' : app)
    (body : list (string * string)) :
  reproject_api L req st = (st', Ok (Json 200 body)) →
  ∃ target_crs record,
    form_target_crs req = Some target_crs
    ∧ temp_file_store st'
      = <[output_name target_crs := record]> (temp_file_store st)
    ∧ well_formed L (disk st') (output_name target_crs) record.
Proof.
  intros Hrun.
  destruct (reproject_api_ok L _ _ _ _ Hrun)
    as (file & target_crs & s1 & out & d_in & d_out & _ & Ht & Hs1 & Hrep & Hstore & _).
  pose proof (reproject_api_ok_valid L _ _ _ _ _ Hrun Ht) as Hvalid.
  destruct (reproject_shapefile_returns L _ _ _ _ _ _ _ Hrep)
    as (s1' & shp_path & Hcheck & Htry).
  destruct (check_shapefile_completeness_returns _ _ _ _ _ Hcheck)
    as (ms & es & first & rest & _ & _ & Hd & _ & Hs1' & _).
  destruct (reproject_try_returns L _ _ _ _ _ _ _ _ Htry)
    as (g & g' & s2 & s3 & files & _ & _ & _ & Hmk & Hwr & _ & Hout & Hpath
        & Hsep & _ & Hs').
  set (u := fresh_name (disk st)) in *.
  assert (extends s1' s3) as Hext.
  { eapply extends_trans.
    - pose proof (keeps_makedirs (Path.join d_in "reprojected") s1') as H.
      by rewrite Hmk in H.
    - pose proof (keeps_gdf_to_file L g'
        (Path.join (Path.join d_in "reprojected") (Path.basename shp_path)) s2) as H.
      by rewrite Hwr in H. }
  assert (∃ e, assoc u s1 = Some (Dir e)) as [eu Hu1].
  { destruct (Hs1 u) as [_ Hdir]. apply (Hdir []).
    by apply assoc_app_last, assoc_fresh_name. }
  assert (∃ e, assoc u s3 = Some (Dir e)) as [eu3 Hu3].
  { destruct (Hext u) as [_ Hdir]. apply (Hdir eu).
    rewrite Hs1'. by apply assoc_app_some. }
  assert (∃ e, assoc d_in s3 = Some (Dir e)) as [ei3 Hi3].
  { destruct (Hext d_in) as [_ Hdir]. apply (Hdir es).
    rewrite Hs1', Hd. by apply assoc_app_last, assoc_fresh_name. }
  assert (u ≠ d_in) as Hne1.
  { rewrite Hd. apply not_eq_sym, fresh_name_not_entry. eauto. }
  assert (u ≠ d_out) as Hne2.
  { rewrite Hout. apply not_eq_sym, fresh_name_not_entry. eauto. }
  assert (d_in ≠ d_out) as Hne3.
  { rewrite Hout. apply not_eq_sym, fresh_name_not_entry. eauto. }
  assert (out = d_out +:+ "/" +:+ output_name target_crs) as Hout'.
  { rewrite Hpath, Hout. by apply join_fresh_name. }
  assert (Path.basename out = output_name target_crs) as Hbase
    by (rewrite Hout'; by apply basename_join_plain).
  rewrite Hbase in Hstore.
  eexists target_crs, _. split; [done|]. split; [done|].
  exists u, d_in, d_out, target_crs. cbn [temp_dirs path].
  split; [done|]. split.
  { apply NoDup_cons_2; [rewrite !not_elem_of_cons, elem_of_nil; naive_solver|].
    apply NoDup_cons_2; [rewrite not_elem_of_cons, elem_of_nil; naive_solver|].
    apply NoDup_singleton. }
  split; [|done].
  intros d Hin. rewrite Hs'.
  apply elem_of_cons in Hin as [->|Hin]; [|apply elem_of_cons in Hin as [->|Hin];
    [|apply elem_of_cons in Hin as [->|Hin]; [|by apply elem_of_nil in Hin]]].
  - split; [by eexists|]. exists eu3. by apply assoc_app_some.
  - split; [by eexists|]. exists ei3. by apply assoc_app_some.
  - split; [by eexists|]. rewrite Hout. eexists.
    by apply assoc_app_last, assoc_fresh_name.
Qed.

Section Tidy.

Context (L : libs).
Context (Hsecure : ∀ name, Str.startswith_sep (secure_filename L name) = false).

Lemma tidy_upload (req : request) (st : app) :
  tidy_registry L st → tidy_registry L (fst (reproject_api L req st)).
Proof.
  intros Htidy.
  destruct (reproject_api L req st) as [st' res] eqn:Hrun. cbn [fst].
  destruct (reproject_api_outcome L Hsecure req st st' res Hrun)
    as [[t' Hdisk] [Hstore|[body ->]]].
  - intros id r Hid. rewrite Hstore in Hid. rewrite Hdisk.
    by apply well_formed_app, Htidy.
  - destruct (reproject_api_ok_record L _ _ _ _ Hrun) as (t & r0 & _ & Hstore & Hnew).
    intros id r Hid. rewrite Hstore in Hid.
    destruct (decide (id = output_name t)) as [->|Hne].
    + rewrite lookup_insert_eq in Hid. by injection Hid as <-.
    + rewrite lookup_insert_ne in Hid by done. rewrite Hdisk.
      by apply well_formed_app, Htidy.
Qed.

End Tidy.

(** What the callback of a download does to the state, whether or not
    the removal of the directories raises. *)
Lemma cleanup_files_state (file_id : string) (r : transfer) (st : app) :
  temp_file_store st !! file_id = Some r →
  temp_file_store (fst (cleanup_files file_id r st))
  = delete file_id (temp_file_store st)
  ∧ disk (fst (cleanup_files file_id r st)) = fst (rmtree_each (temp_dirs r) (disk st)).
Proof.
  intros Hid. unfold cleanup_files, bind, try_except, on_disk, print, del_store.
  destruct (rmtree_each (temp_dirs r) (disk st)) as [d [[]|e]]; simpl;
    by rewrite Hid.
Qed.

(** A whole download either changes nothing or runs the callback of the
    record of the identifier. *)
Lemma download_and_close_state (file_id : string) (st : app) :
  fst (download_and_close file_id st) = st
  ∨ ∃ r, temp_file_store st !! file_id = Some r
         ∧ fst (download_and_close file_id st) = fst (cleanup_files file_id r st).
Proof.
  unfold download_and_close, download_file, bind, gets.
  destruct (temp_file_store st !! file_id) as [r|] eqn:Hid; [|by left].
  destruct (negb _); [by left|]. unfold send_file.
  destruct (fs_lookup (path r) (disk st)) as [[|data]|]; [by left| |by left].
  right. by exists r.
Qed.

Lemma tidy_download (L : libs) (file_id : string) (st : app) :
  sound_registry st → tidy_registry L st →
  tidy_registry L (fst (download_and_close file_id st)).
Proof.
  intros [Hrec Hsep] Htidy.
  destruct (download_and_close_state file_id st) as [->|(r & Hid & ->)]; [done|].
  destruct (cleanup_files_state file_id r st Hid) as [Hstore Hdisk].
  destruct (Hrec _ _ Hid) as [Hfresh _].
  intros id r' H. rewrite Hstore in H.
  destruct (decide (id = file_id)) as [->|Hne]; [by rewrite lookup_delete_eq in H|].
  rewrite lookup_delete_ne in H by done.
  apply (well_formed_same L (disk st)); [|by apply Htidy].
  intros d Hd es Hes. rewrite Hdisk. rewrite rmtree_each_other; [done| |].
  - intros d' Hd'. by destruct (Hfresh d' Hd').
  - by apply (Hsep id file_id r' r).
Qed.

(** In every state of the process the records are those of uploads. *)
Lemma reachable_tidy (L : libs) (st : app) :
  (∀ name, Str.startswith_sep (secure_filename L name) = false) →
  reachable L st → tidy_registry L st.
Proof.
  intros Hsecure. induction 1 as [s|st req Hreach IH|st file_id Hreach IH].
  - intros id r. cbn [temp_file_store]. by rewrite lookup_empty.
  - by apply tidy_upload.
  - apply tidy_download; [|done]. by apply (reachable_sound L).
Qed.

(** ** Downloads and their callbacks *)

Lemma rmtree_each_top (dirs : list string) (s : fs) :
  NoDup dirs →
  (∀ d, d ∈ dirs → (∃ s1, d = fresh_name s1) ∧ ∃ es, assoc d s = Some (Dir es)) →
  snd (rmtree_each dirs s) = Ok tt
  ∧ ∀ d, d ∈ dirs → assoc d (fst (rmtree_each dirs s)) = None.
Proof.
  revert s. induction dirs as [|d dirs IH]; intros s Hnodup Hthere.
  { split; [done|]. by intros d ?%elem_of_nil. }
  apply NoDup_cons in Hnodup as [Hd Hnodup].
  destruct (Hthere d) as [[s1 Hs1] [es Hes]]; [by left|].
  assert (∀ d', d' ∈ dirs → ∃ s2, d' = fresh_name s2) as Hfresh.
  { intros d' Hd'. destruct (Hthere d') as [H _]; [by right|done]. }
  cbn [rmtree_each]. unfold bind.
  assert (Path.components d = [d]) as Hc by (rewrite Hs1; apply components_fresh_name).
  rewrite (rmtree_top_dir d s es Hc Hes).
  destruct (IH (remove_child d s) Hnodup) as [Hok Hgone].
  { intros d' Hd'. destruct (Hthere d') as [Hf [es' Hes']]; [by right|].
    split; [done|]. exists es'. rewrite assoc_remove_child_ne; [done|].
    intros ->. by destruct Hd. }
  destruct (rmtree_each dirs (remove_child d s)) as [s' [[]|e]] eqn:Hrun;
    [|discriminate Hok].
  split; [done|]. cbn [fst] in *. intros d' [->|Hd']%elem_of_cons; [|by apply Hgone].
  pose proof (rmtree_each_other dirs (remove_child d s) d Hfresh Hd) as Hsame.
  rewrite Hrun in Hsame. cbn [fst] in Hsame.
  by rewrite Hsame, assoc_remove_child_eq.
Qed.

Lemma well_formed_dirs (L : libs) (s : fs) (file_id : string) (r : transfer) :
  well_formed L s file_id r →
  NoDup (temp_dirs r)
  ∧ ∀ d, d ∈ temp_dirs r → (∃ s1, d = fresh_name s1) ∧ ∃ es, assoc d s = Some (Dir es).
Proof. intros (u & d_in & d_out & t & -> & Hnodup & Hthere & _). done. Qed.

(** The callback on a record of an upload: all its directories are
    removed, nothing is printed, the entry is deleted. *)
Lemma cleanup_files_well_formed (L : libs) (file_id : string) (r : transfer) (st : app) :
  temp_file_store st !! file_id = Some r →
  well_formed L (disk st) file_id r →
  cleanup_files file_id r st
  = ({| disk := fst (rmtree_each (temp_dirs r) (disk st));
        temp_file_store := delete file_id (temp_file_store st);
        stdout := stdout st |}, Ok tt).
Proof.
  intros Hid [Hnodup Hthere]%well_formed_dirs.
  destruct (rmtree_each_top _ (disk st) Hnodup Hthere) as [Hok _].
  unfold cleanup_files, bind, try_except, on_disk, del_store.
  destruct (rmtree_each (temp_dirs r) (disk st)) as [s' [[]|e]]; [|discriminate Hok].
  cbn. by rewrite Hid.
Qed.

Lemma path_exists_top (s0 s : fs) :
  path_exists (fresh_name s0) s = bool_decide (is_Some (assoc (fresh_name s0) s)).
Proof.
  rewrite path_exists_fresh_name.
  destruct (assoc (fresh_name s0) s) as [x|]; symmetry.
  - apply bool_decide_eq_true. eauto.
  - apply bool_decide_eq_false. by intros [? ?].
Qed.

(** The answer to a download depends on the record of the identifier and
    on the file at the path of the record only. *)
Lemma download_file_congr (file_id : string) (st st' : app) :
  temp_file_store st' !! file_id = temp_file_store st !! file_id →
  (∀ r, temp_file_store st !! file_id = Some r →
        fs_lookup (path r) (disk st') = fs_lookup (path r) (disk st)) →
  snd (download_file file_id st') = snd (download_file file_id st).
Proof.
  intros Hstore Hdisk. unfold download_file, bind, gets, send_file, path_exists.
  rewrite Hstore. destruct (temp_file_store st !! file_id) as [r|]; [|done].
  rewrite (Hdisk r eq_refl).
  destruct (fs_lookup (path r) (disk st)) as [[|]|] eqn:E; cbn [negb]; cbv beta;
    by rewrite ?(Hdisk r eq_refl), ?E.
Qed.

Lemma record_archive_same (s s' : fs) (r : transfer) :
  sound_record s r →
  (∀ d, d ∈ temp_dirs r → assoc d s' = assoc d s) →
  fs_lookup (path r) s' = fs_lookup (path r) s.
Proof.
  intros [Hdirs (o & n & data & Ho & Hpath & _)] Hsame.
  destruct (Hdirs o Ho) as [[s1 ->] _]. rewrite Hpath. unfold fs_lookup.
  rewrite components_app_sep, components_fresh_name. cbn [Datatypes.app].
  apply lookup_in_same_top. by apply Hsame.
Qed.


(** ** Further properties of the validator, the registry and the downloads *)

(** X11.  When the validator returns, the path it returns is that of an
    entry of the scratch directory whose name ends in [.shp] whatever the
    case of its letters, all four files of the bundle exist under the base
    name of that path, and the file system has changed by the new scratch
    directory only. *)
Theorem validated_bundle_is_complete (zip_path : string) (s s' : fs)
    (shp_path temp_dir : string) :
  check_shapefile_completeness zip_path s = (s', Ok (shp_path, temp_dir)) →
  (∀ ext, ext ∈ [".shp"; ".shx"; ".dbf"; ".prj"] →
          path_exists (fst (Path.splitext shp_path) +:+ ext) s' = true)
  ∧ (∃ first names,
       listdir temp_dir s' = (s', Ok names)
       ∧ first ∈ names
       ∧ Str.endswith (Str.lower first) ".shp" = true
       ∧ shp_path = Path.join temp_dir first)
  ∧ path_exists temp_dir s = false
  ∧ ∃ es, s' = s ++ [(temp_dir, Dir es)].
Proof.
  intros Hrun.
  destruct (check_shapefile_completeness_returns _ _ _ _ _ Hrun)
    as (ms & es & first & rest & _ & _ & -> & _ & -> & Hshp & -> & Hmiss).
  split; [|split; [|split]].
  - intros ext Hext.
    destruct (path_exists _ _) eqn:Hthere; [done|].
    by destruct (filter_nil_not_elem_of _ _ ext Hmiss Hthere).
  - exists first, (map fst es). rewrite listdir_fresh_last.
    assert (first ∈ shp_files (map fst es)) as Hin by (rewrite Hshp; by left).
    apply list_elem_of_filter in Hin as [Hends Hin]. done.
  - by rewrite path_exists_fresh_name, assoc_fresh_name.
  - by exists es.
Qed.

Lemma validated_bundle_is_complete_witness :
  let s := Sample.saved (Sample.bundle "parcels" "EPSG:4326") in
  check_shapefile_completeness "tmp_/parcels.zip" s
  = (fst (check_shapefile_completeness "tmp_/parcels.zip" s),
     Ok ("tmp_____/parcels.shp", "tmp_____"))
  ∧ path_exists "tmp_____/parcels.prj"
      (fst (check_shapefile_completeness "tmp_/parcels.zip" s)) = true
  ∧ path_exists "tmp_____" s = false.
Proof.
  cbv zeta.
  assert (check_shapefile_completeness "tmp_/parcels.zip"
            (Sample.saved (Sample.bundle "parcels" "EPSG:4326"))
          = (fst (check_shapefile_completeness "tmp_/parcels.zip"
                    (Sample.saved (Sample.bundle "parcels" "EPSG:4326"))),
             Ok ("tmp_____/parcels.shp", "tmp_____"))) as Hrun
    by (vm_compute; reflexivity).
  split; [exact Hrun|].
  destruct (validated_bundle_is_complete "tmp_/parcels.zip"
              (Sample.saved (Sample.bundle "parcels" "EPSG:4326")) _
              "tmp_____/parcels.shp" "tmp_____" Hrun)
    as (Hall & _ & Hfresh & _).
  split; [|exact Hfresh].
  apply (Hall ".prj"). set_solver.
Defined.

(** X12.  In every state of the process, a record of the registry lists
    three different scratch directories, all on disk; its archive lies in
    the last of them under the identifier of the record, which is
    [reprojected_], a target CRS that parses without its colons, and
    [.zip], and has no path separator; and no other record lists any of
    its directories. *)
Theorem registry_records_are_well_formed (L : libs) (st : app) (file_id : string)
    (record : transfer) :
  (∀ name, Str.startswith_sep (secure_filename L name) = false) →
  reachable L st →
  temp_file_store st !! file_id = Some record →
  ∃ u d_in d_out target_crs,
    temp_dirs record = [u; d_in; d_out]
    ∧ NoDup [u; d_in; d_out]
    ∧ (∀ d, d ∈ [u; d_in; d_out] → ∃ es, fs_lookup d (disk st) = Some (Dir es))
    ∧ crs_valid L target_crs = true
    ∧ file_id = "reprojected_" +:+ Str.remove_colons target_crs +:+ ".zip"
    ∧ Str.has_sep file_id = false
    ∧ path record = d_out +:+ "/" +:+ file_id
    ∧ ∀ other record' d,
        other ≠ file_id →
        temp_file_store st !! other = Some record' →
        d ∈ temp_dirs record → d ∉ temp_dirs record'.
Proof.
  intros Hsecure Hreach Hid.
  destruct (reachable_tidy L st Hsecure Hreach _ _ Hid)
    as (u & d_in & d_out & t & Hdirs & Hnodup & Hthere & Hvalid & Hname & Hsep & Hpath).
  destruct (reachable_sound L st Hsecure Hreach) as [_ Hapart].
  exists u, d_in, d_out, t. rewrite <- Hdirs.
  split; [done|]. split; [by rewrite Hdirs|]. split.
  { intros d Hd. destruct (Hthere d Hd) as [[s1 ->] [es Hes]]. exists es.
    unfold fs_lookup. rewrite components_fresh_name. simpl. by rewrite Hes. }
  split; [done|]. split; [done|]. split; [done|]. split; [done|].
  intros other record' d Hne Hother Hd. by apply (Hapart file_id other record record').
Qed.

Lemma registry_records_are_well_formed_witness :
  let st := fst (reproject_api Sample.lib
                   (Sample.post "parcels.zip"
                      (Zip (Sample.bundle "parcels" "EPSG:4326")) "EPSG:3857")
                   Sample.boot) in
  temp_file_store st !! "reprojected_EPSG3857.zip"
  = Some {| path := "tmp_________/reprojected_EPSG3857.zip";
            temp_dirs := ["tmp_"; "tmp_____"; "tmp_________"] |}
  ∧ ∃ u d_in d_out target_crs,
      ["tmp_"; "tmp_____"; "tmp_________"] = [u; d_in; d_out]
      ∧ NoDup [u; d_in; d_out]
      ∧ crs_valid Sample.lib target_crs = true
      ∧ "reprojected_EPSG3857.zip"
        = "reprojected_" +:+ Str.remove_colons target_crs +:+ ".zip".
Proof.
  cbv zeta. split; [reflexivity|].
  destruct (registry_records_are_well_formed Sample.lib
              (fst (reproject_api Sample.lib
                      (Sample.post "parcels.zip"
                         (Zip (Sample.bundle "parcels" "EPSG:4326")) "EPSG:3857")
                      Sample.boot))
              "reprojected_EPSG3857.zip"
              {| path := "tmp_________/reprojected_EPSG3857.zip";
                 temp_dirs := ["tmp_"; "tmp_____"; "tmp_________"] |}
              sanitize_no_leading_sep
              ltac:(apply reach_upload, (reach_start Sample.lib []))
              eq_refl)
    as (u & d_in & d_out & t & Hdirs & Hnodup & _ & Hvalid & Hname & _).
  exists u, d_in, d_out, t. done.
Defined.

(** X13.  In every state of the process, the callback of a registered
    identifier, when it is run, returns without an error: it removes the
    three scratch directories of the record and deletes the record;
    nothing is printed, and every other entry of the temporary directory
    is as before. *)
Theorem callback_frees_scratch_dirs (L : libs) (st : app)
    (file_id : string) (record : transfer) :
  (∀ name, Str.startswith_sep (secure_filename L name) = false) →
  reachable L st →
  temp_file_store st !! file_id = Some record →
  ∃ st',
    cleanup_files file_id record st = (st', Ok tt)
    ∧ temp_file_store st' = delete file_id (temp_file_store st)
    ∧ stdout st' = stdout st
    ∧ (∀ d, d ∈ temp_dirs record → path_exists d (disk st') = false)
    ∧ ∀ name, name ∉ temp_dirs record → assoc name (disk st') = assoc name (disk st).
Proof.
  intros Hsecure Hreach Hid.
  pose proof (reachable_tidy L st Hsecure Hreach _ _ Hid) as Hwf.
  eexists. split; [by apply (cleanup_files_well_formed L)|]. cbn.
  destruct (well_formed_dirs _ _ _ _ Hwf) as [Hnodup Hthere].
  split; [done|]. split; [done|]. split.
  - intros d Hd. destruct (Hthere d Hd) as [[s1 ->] _].
    rewrite path_exists_fresh_name.
    destruct (rmtree_each_top _ (disk st) Hnodup Hthere) as [_ Hgone].
    by rewrite Hgone.
  - intros name Hname. apply rmtree_each_other; [|done].
    intros d Hd. by destruct (Hthere d Hd).
Qed.

Lemma callback_frees_scratch_dirs_witness :
  let st := fst (reproject_api Sample.lib
                   (Sample.post "parcels.zip"
                      (Zip (Sample.bundle "parcels" "EPSG:4326")) "EPSG:3857")
                   Sample.boot) in
  let record := {| path := "tmp_________/reprojected_EPSG3857.zip";
                   temp_dirs := ["tmp_"; "tmp_____"; "tmp_________"] |} in
  (temp_file_store st !! "reprojected_EPSG3857.zip" = Some record
   ∧ path_exists "tmp_____" (disk st) = true)
  ∧ ∃ st',
      cleanup_files "reprojected_EPSG3857.zip" record st = (st', Ok tt)
      ∧ temp_file_store st' = delete "reprojected_EPSG3857.zip" (temp_file_store st)
      ∧ ∀ d, d ∈ ["tmp_"; "tmp_____"; "tmp_________"] →
             path_exists d (disk st') = false.
Proof.
  cbv zeta. split; [split; reflexivity|].
  destruct (callback_frees_scratch_dirs Sample.lib
              (fst (reproject_api Sample.lib
                      (Sample.post "parcels.zip"
                         (Zip (Sample.bundle "parcels" "EPSG:4326")) "EPSG:3857")
                      Sample.boot))
              "reprojected_EPSG3857.zip"
              {| path := "tmp_________/reprojected_EPSG3857.zip";
                 temp_dirs := ["tmp_"; "tmp_____"; "tmp_________"] |}
              sanitize_no_leading_sep
              ltac:(apply reach_upload, (reach_start Sample.lib []))
              eq_refl)
    as (st' & Hrun & Hstore & _ & Hgone & _).
  exists st'. split; [exact Hrun|]. split; [exact Hstore | exact Hgone].
Defined.

(** X14.  In every state of the process, completing the download of one
    identifier leaves the record and the archive of every other identifier
    in place: the other download is answered as it would have been
    before, with status 200. *)
Theorem downloads_are_independent (L : libs) (st : app) (done_id file_id : string)
    (record : transfer) :
  (∀ name, Str.startswith_sep (secure_filename L name) = false) →
  reachable L st →
  done_id ≠ file_id →
  temp_file_store st !! file_id = Some record →
  let st' := fst (download_and_close done_id st) in
  temp_file_store st' !! file_id = Some record
  ∧ snd (download_file file_id st') = snd (download_file file_id st)
  ∧ ∃ data,
      snd (download_file file_id st')
      = Ok (Attachment 200 (Path.basename (path record)) data, Some record).
Proof.
  intros Hsecure Hreach Hne Hid st'.
  destruct (registered_archive_on_disk L st file_id record Hsecure Hreach Hid)
    as [data Hfile].
  destruct (served_once_when_on_disk file_id record data st Hid Hfile) as [Hfirst _].
  assert (temp_file_store st' !! file_id = Some record
          ∧ snd (download_file file_id st') = snd (download_file file_id st))
    as [Hstore Hsame].
  { unfold st'.
    destruct (download_and_close_state done_id st) as [->|(r & Hdone & ->)]; [done|].
    destruct (cleanup_files_state done_id r st Hdone) as [Hstore Hdisk].
    destruct (reachable_sound L st Hsecure Hreach) as [Hrec Hapart].
    assert (temp_file_store (fst (cleanup_files done_id r st)) !! file_id = Some record)
      as Hkept by (by rewrite Hstore, lookup_delete_ne).
    split; [done|]. apply download_file_congr; [by rewrite Hkept|].
    intros r' Hr'. assert (r' = record) as -> by congruence.
    apply record_archive_same; [by apply (Hrec file_id)|].
    intros d Hd. rewrite Hdisk. apply rmtree_each_other.
    - intros d' Hd'. destruct (Hrec _ _ Hdone) as [Hfresh _].
      by destruct (Hfresh d' Hd').
    - by apply (Hapart file_id done_id record r). }
  split; [done|]. split; [done|]. exists data. by rewrite Hsame, Hfirst.
Qed.

Lemma downloads_are_independent_witness :
  let st1 := fst (reproject_api Sample.lib
                    (Sample.post "parcels.zip"
                       (Zip (Sample.bundle "parcels" "EPSG:4326")) "EPSG:3857")
                    Sample.boot) in
  let st := fst (reproject_api Sample.lib
                   (Sample.post "roads.zip"
                      (Zip (Sample.bundle "roads" "EPSG:3857")) "EPSG:4326")
                   st1) in
  let record := {| path := "tmp_____________________/reprojected_EPSG4326.zip";
                   temp_dirs := ["tmp_____________"; "tmp_________________";
                                 "tmp_____________________"] |} in
  temp_file_store st !! "reprojected_EPSG4326.zip" = Some record
  ∧ temp_file_store (fst (download_and_close "reprojected_EPSG3857.zip" st))
      !! "reprojected_EPSG4326.zip" = Some record.
Proof.
  cbv zeta. split; [vm_compute; reflexivity|].
  apply (downloads_are_independent Sample.lib
           (fst (reproject_api Sample.lib
                   (Sample.post "roads.zip"
                      (Zip (Sample.bundle "roads" "EPSG:3857")) "EPSG:4326")
                   (fst (reproject_api Sample.lib
                           (Sample.post "parcels.zip"
                              (Zip (Sample.bundle "parcels" "EPSG:4326")) "EPSG:3857")
                           Sample.boot))))
           "reprojected_EPSG3857.zip" "reprojected_EPSG4326.zip"
           {| path := "tmp_____________________/reprojected_EPSG4326.zip";
              temp_dirs := ["tmp_____________"; "tmp_________________";
                            "tmp_____________________"] |}
           sanitize_no_leading_sep).
  - apply reach_upload, reach_upload, (reach_start Sample.lib []).
  - discriminate.
  - vm_compute. reflexivity.
Defined.

(** X15.  In every state of the process, an upload for another target CRS
    leaves a registered identifier as it is, whatever the outcome of the
    upload: the record stays, and a download of the identifier is answered
    as it would have been before, with status 200. *)
Theorem uploads_keep_earlier_transfers (L : libs) (st : app) (req : request)
    (file_id : string) (record : transfer) :
  (∀ name, Str.startswith_sep (secure_filename L name) = false) →
  reachable L st →
  temp_file_store st !! file_id = Some record →
  (∀ target_crs, form_target_crs req = Some target_crs →
                 output_name target_crs ≠ file_id) →
  let st' := fst (reproject_api L req st) in
  temp_file_store st' !! file_id = Some record
  ∧ snd (download_file file_id st') = snd (download_file file_id st)
  ∧ ∃ data,
      snd (download_file file_id st')
      = Ok (Attachment 200 (Path.basename (path record)) data, Some record).
Proof.
  intros Hsecure Hreach Hid Hother st'.
  destruct (registered_archive_on_disk L st file_id record Hsecure Hreach Hid)
    as [data Hfile].
  destruct (served_once_when_on_disk file_id record data st Hid Hfile) as [Hfirst _].
  assert (temp_file_store st' !! file_id = Some record
          ∧ snd (download_file file_id st') = snd (download_file file_id st))
    as [Hstore Hsame].
  { unfold st'. destruct (reproject_api L req st) as [st2 res] eqn:Hrun. cbn [fst].
    destruct (reproject_api_outcome L Hsecure req st st2 res Hrun)
      as [[t' Hdisk] Hreg].
    assert (temp_file_store st2 !! file_id = Some record) as Hkept.
    { destruct Hreg as [->|[body ->]]; [done|].
      destruct (reproject_api_dirs _ _ _ _ _ Hrun) as (t & r & Ht & -> & _).
      rewrite lookup_insert_ne; [done|]. by apply Hother. }
    split; [done|]. apply download_file_congr; [by rewrite Hkept|].
    intros r' Hr'. assert (r' = record) as -> by congruence.
    rewrite Hdisk, Hfile. unfold fs_lookup in *. by apply lookup_in_app_some. }
  split; [done|]. split; [done|]. exists data. by rewrite Hsame, Hfirst.
Qed.

Lemma uploads_keep_earlier_transfers_witness :
  let st := fst (reproject_api Sample.lib
                   (Sample.post "parcels.zip"
                      (Zip (Sample.bundle "parcels" "EPSG:4326")) "EPSG:3857")
                   Sample.boot) in
  let req := Sample.post "roads.zip" (Zip Sample.partial) "EPSG:4326" in
  let record := {| path := "tmp_________/reprojected_EPSG3857.zip";
                   temp_dirs := ["tmp_"; "tmp_____"; "tmp_________"] |} in
  temp_file_store st !! "reprojected_EPSG3857.zip" = Some record
  ∧ temp_file_store (fst (reproject_api Sample.lib req st))
      !! "reprojected_EPSG3857.zip" = Some record.
Proof.
  cbv zeta. split; [vm_compute; reflexivity|].
  apply (uploads_keep_earlier_transfers Sample.lib
           (fst (reproject_api Sample.lib
                   (Sample.post "parcels.zip"
                      (Zip (Sample.bundle "parcels" "EPSG:4326")) "EPSG:3857")
                   Sample.boot))
           (Sample.post "roads.zip" (Zip Sample.partial) "EPSG:4326")
           "reprojected_EPSG3857.zip"
           {| path := "tmp_________/reprojected_EPSG3857.zip";
              temp_dirs := ["tmp_"; "tmp_____"; "tmp_________"] |}
           sanitize_no_leading_sep).
  - apply reach_upload, (reach_start Sample.lib []).
  - vm_compute. reflexivity.
  - intros target_crs [= <-]. discriminate.
Defined.

(** X16.  The callback deletes the entry of the identifier without looking
    whether it is there.  When two downloads of a registered identifier
    were answered before either was closed, the first callback removes the
    directories and the entry; the second finds the first directory gone,
    prints that error, and then raises [KeyError] for the identifier. *)
Theorem second_callback_raises_key_error (L : libs) (st : app) (file_id : string)
    (record : transfer) :
  (∀ name, Str.startswith_sep (secure_filename L name) = false) →
  reachable L st →
  temp_file_store st !! file_id = Some record →
  let st1 := fst (cleanup_files file_id record st) in
  ∃ u others,
    temp_dirs record = u :: others
    ∧ snd (cleanup_files file_id record st) = Ok tt
    ∧ cleanup_files file_id record st1
      = ({| disk := disk st1;
            temp_file_store := temp_file_store st1;
            stdout := stdout st1
                      ++ ["Error during cleanup: "
                          +:+ "[Errno 2] No such file or directory: '" +:+ u +:+ "'"] |},
         Raise (KeyError ("'" +:+ file_id +:+ "'"))).
Proof.
  intros Hsecure Hreach Hid st1.
  pose proof (reachable_tidy L st Hsecure Hreach _ _ Hid) as Hwf.
  pose proof (cleanup_files_well_formed L file_id record st Hid Hwf) as Hrun.
  destruct (well_formed_dirs _ _ _ _ Hwf) as [Hnodup Hthere].
  destruct (rmtree_each_top _ (disk st) Hnodup Hthere) as [_ Hgone].
  destruct Hwf as (u & d_in & d_out & t & Hdirs & _).
  exists u, [d_in; d_out]. split; [done|]. split; [by rewrite Hrun|].
  destruct (Hthere u) as [[s1 Hu] _]; [rewrite Hdirs; by left|].
  assert (assoc u (disk st1) = None) as Hnone.
  { unfold st1. rewrite Hrun. cbn [fst disk]. apply Hgone. rewrite Hdirs. by left. }
  assert (temp_file_store st1 !! file_id = None) as Hdel.
  { unfold st1. rewrite Hrun. cbn [fst temp_file_store]. apply lookup_delete_eq. }
  unfold cleanup_files, bind, try_except, on_disk, print, del_store.
  rewrite Hdirs. cbn [rmtree_each]. unfold bind, rmtree, fs_lookup.
  rewrite Hu, components_fresh_name. cbn [lookup_in]. rewrite <- Hu, Hnone.
  cbn. by rewrite Hdel.
Qed.

Lemma second_callback_raises_key_error_witness :
  let st := fst (reproject_api Sample.lib
                   (Sample.post "parcels.zip"
                      (Zip (Sample.bundle "parcels" "EPSG:4326")) "EPSG:3857")
                   Sample.boot) in
  let record := {| path := "tmp_________/reprojected_EPSG3857.zip";
                   temp_dirs := ["tmp_"; "tmp_____"; "tmp_________"] |} in
  temp_file_store st !! "reprojected_EPSG3857.zip" = Some record
  ∧ snd (cleanup_files "reprojected_EPSG3857.zip" record
           (fst (cleanup_files "reprojected_EPSG3857.zip" record st)))
    = Raise (KeyError "'reprojected_EPSG3857.zip'").
Proof.
  cbv zeta. split; [vm_compute; reflexivity|].
  destruct (second_callback_raises_key_error Sample.lib
              (fst (reproject_api Sample.lib
                      (Sample.post "parcels.zip"
                         (Zip (Sample.bundle "parcels" "EPSG:4326")) "EPSG:3857")
                      Sample.boot))
              "reprojected_EPSG3857.zip"
              {| path := "tmp_________/reprojected_EPSG3857.zip";
                 temp_dirs := ["tmp_"; "tmp_____"; "tmp_________"] |}
              sanitize_no_leading_sep
              ltac:(apply reach_upload, (reach_start Sample.lib []))
              ltac:(vm_compute; reflexivity))
    as (u & others & _ & _ & Hsecond).
  by rewrite Hsecond.
Defined.

Lemma reproject_api_stdout (L : libs) (req : request) (st : app) :
  stdout (fst (reproject_api L req st)) = stdout st.
Proof.
  unfold reproject_api.
  destruct (files_file req) as [file|]; [|done].
  destruct (_ || _); [done|].
  destruct (form_target_crs req) as [[|c t]|]; [done| |done].
  destruct (negb _); [done|].
  unfold bind at 1. unfold on_disk at 1, mkdtemp. cbn [disk temp_file_store stdout].
  unfold bind at 1. unfold on_disk at 1. cbn [disk temp_file_store stdout].
  destruct (write_file _ _ _) as [s1 [[]|e]]; [|done].
  unfold reproject_and_register, try_except.
  unfold bind at 1. unfold on_disk at 1. cbn [disk temp_file_store stdout].
  destruct (reproject_shapefile L _ _ s1) as [s2 [[[out d_in] d_out]|e]].
  - done.
  - destruct e; unfold bind, on_disk, ret; simpl;
      by destruct (rmtree _ s2) as [? [|]].
Qed.

(** X18.  Whatever the request, the archive and the outcome, the upload
    handler leaves every entry that the temporary directory had before the
    request as it was and in its place: it only adds entries after them.
    It prints nothing, and it changes the registry only when it answers
    with status 200. *)
Theorem upload_only_adds_entries (L : libs) (req : request) (st st' : app)
    (r : result response) :
  (∀ name, Str.startswith_sep (secure_filename L name) = false) →
  reproject_api L req st = (st', r) →
  (∃ added, disk st' = disk st ++ added)
  ∧ stdout st' = stdout st
  ∧ (temp_file_store st' = temp_file_store st ∨ ∃ body, r = Ok (Json 200 body)).
Proof.
  intros Hsecure Hrun.
  destruct (reproject_api_outcome L Hsecure req st st' r Hrun) as [Hdisk Hstore].
  split; [done|]. split; [|done].
  pose proof (reproject_api_stdout L req st) as Hout. by rewrite Hrun in Hout.
Qed.

Lemma upload_only_adds_entries_witness :
  let st := fst (reproject_api Sample.lib
                   (Sample.post "parcels.zip"
                      (Zip (Sample.bundle "parcels" "EPSG:4326")) "EPSG:3857")
                   Sample.boot) in
  let req := Sample.post "roads.zip" (Zip (Sample.bundle "roads" "EPSG:3857"))
               "EPSG:4326" in
  disk st ≠ []
  ∧ ∃ added, disk (fst (reproject_api Sample.lib req st)) = disk st ++ added.
Proof.
  cbv zeta. split; [by vm_compute|].
  apply (upload_only_adds_entries Sample.lib
           (Sample.post "roads.zip" (Zip (Sample.bundle "roads" "EPSG:3857"))
              "EPSG:4326")
           (fst (reproject_api Sample.lib
                   (Sample.post "parcels.zip"
                      (Zip (Sample.bundle "parcels" "EPSG:4326")) "EPSG:3857")
                   Sample.boot))
           _
           (snd (reproject_api Sample.lib
                   (Sample.post "roads.zip" (Zip (Sample.bundle "roads" "EPSG:3857"))
                      "EPSG:4326")
                   (fst (reproject_api Sample.lib
                           (Sample.post "parcels.zip"
                              (Zip (Sample.bundle "parcels" "EPSG:4326")) "EPSG:3857")
                           Sample.boot))))
           sanitize_no_leading_sep).
  vm_compute. reflexivity.
Defined.
